(** * ZunouBattle: the catalog reconciliation of manga-automation.js

    A shallow embedding of the chapter reconciliation code of
    [src/manga-automation.js].  The file holds two scripts one after the
    other: v6.2 (lines 1-724) and v7.0 (lines 726-1208).  Their helper
    functions (lines 33-247 and 747-924) are textually identical and are
    embedded once; the functions that differ live in [Module V62] and
    [Module V70].

    What is left out: [console.log] output and the reading and writing of the
    JSON files, which none of the statements below observe. *)

From Stdlib Require Import List String Ascii ZArith QArith Bool Lia.
From Stdlib Require Import Permutation Sorted DecimalString.
Import ListNotations.
Open Scope string_scope.
Open Scope Z_scope.
Set Warnings "-register-all".

(* ================================================================= *)
(** ** JavaScript values *)

(** A JavaScript number as far as the script computes with it: [parseFloat]
    results and the differences a sort comparator returns.  Finite values are
    kept as exact rationals (IEEE rounding is monotone, so it never reverses
    the sign of a comparison); they are compared through the sign of their
    difference, never with Leibniz equality. *)
Inductive JSNum : Type :=
| NaN
| PosInf
| NegInf
| Fin (q : Q).

(** A value read from a JSON document, or [undefined] for an absent
    property.  Numbers stored in the documents (view counters, page counts)
    are integers. *)
Inductive JSVal : Type :=
| JUndefined
| JNull
| JBool (b : bool)
| JNum (n : Z)
| JStr (s : string)
| JArr (items : list JSVal)
| JObj (fields : list (string * JSVal)).

(** ToBoolean. *)
Definition truthy (v : JSVal) : bool :=
  match v with
  | JUndefined | JNull => false
  | JBool b => b
  | JNum n => negb (n =? 0)
  | JStr s => negb (s =? "")%string
  | JArr _ | JObj _ => true
  end.

(** [a || b]. *)
Definition js_or (a b : JSVal) : JSVal := if truthy a then a else b.

(** ToBoolean of a string, and of a string-or-null. *)
Definition truthy_str (s : string) : bool := negb (s =? "")%string.

Definition truthy_opt (o : option string) : bool :=
  match o with
  | Some s => truthy_str s
  | None => false
  end.

(** [a - b] on numbers. *)
Definition num_sub (a b : JSNum) : JSNum :=
  match a, b with
  | NaN, _ | _, NaN => NaN
  | PosInf, PosInf | NegInf, NegInf => NaN
  | PosInf, _ | _, NegInf => PosInf
  | NegInf, _ | _, PosInf => NegInf
  | Fin p, Fin q => Fin (p - q)
  end.

Definition num_opp (a : JSNum) : JSNum :=
  match a with
  | NaN => NaN
  | PosInf => NegInf
  | NegInf => PosInf
  | Fin q => Fin (- q)
  end.

(** [v < 0], the only test [Array.prototype.sort] applies to a comparator's
    result in this model; [NaN] and [0] both mean "keep the order". *)
Definition num_neg (v : JSNum) : bool :=
  match v with
  | NegInf => true
  | Fin q => (Qnum q <? 0)%Z
  | NaN | PosInf => false
  end.

(* ================================================================= *)
(** ** Arrays: [sort] and [Set] *)

Section ArraySort.
Context {A : Type} (comparefn : A -> A -> JSNum).

(** [x] goes in front of the first element it compares below. *)
Fixpoint sort_insert (x : A) (sorted : list A) : list A :=
  match sorted with
  | [] => [x]
  | y :: rest =>
      if num_neg (comparefn x y) then x :: sorted
      else y :: sort_insert x rest
  end.

(** [arr.sort(comparefn)]: a stable insertion sort, which is what the
    language requires of [sort] whenever the comparator is consistent.
    (For an inconsistent comparator the order is left to the engine; this
    is the order a left-to-right insertion gives.) *)
Definition Array_sort (arr : list A) : list A :=
  fold_left (fun acc x => sort_insert x acc) arr [].
End ArraySort.

Definition includes (arr : list string) (x : string) : bool :=
  existsb (String.eqb x) arr.

(** [Array.from(new Set(arr))]: first occurrences, in order. *)
Fixpoint Set_from_acc (seen arr : list string) : list string :=
  match arr with
  | [] => []
  | x :: rest =>
      if includes seen x then Set_from_acc seen rest
      else x :: Set_from_acc (x :: seen) rest
  end.

Definition Set_from (arr : list string) : list string := Set_from_acc [] arr.

(* ================================================================= *)
(** ** Strings *)

Definition is_digit (c : ascii) : bool :=
  let n := nat_of_ascii c in (48 <=? n)%nat && (n <=? 57)%nat.

Definition lower_char (c : ascii) : ascii :=
  let n := nat_of_ascii c in
  if (65 <=? n)%nat && (n <=? 90)%nat then ascii_of_nat (n + 32) else c.

(** [s.toLowerCase()].  Strings are byte strings; only the letters A-Z are
    mapped, which is exact for the one use here, a comparison with
    'oneshot' (no character outside ASCII lower-cases to one of its letters). *)
Fixpoint toLowerCase (s : string) : string :=
  match s with
  | EmptyString => EmptyString
  | String c rest => String (lower_char c) (toLowerCase rest)
  end.

(** The longest prefix of decimal digits, and what follows it. *)
Fixpoint span_digits (s : string) : string * string :=
  match s with
  | EmptyString => (EmptyString, EmptyString)
  | String c rest =>
      if is_digit c then
        let (ds, tl) := span_digits rest in (String c ds, tl)
      else (EmptyString, s)
  end.

Definition digit_val (c : ascii) : Z := Z.of_nat (nat_of_ascii c) - 48.

Fixpoint digits_val (acc : Z) (ds : string) : Z :=
  match ds with
  | EmptyString => acc
  | String c rest => digits_val (10 * acc + digit_val c) rest
  end.

Definition is_space (c : ascii) : bool :=
  let n := nat_of_ascii c in
  ((9 <=? n)%nat && (n <=? 13)%nat) || (n =? 32)%nat.

Fixpoint skip_ws (s : string) : string :=
  match s with
  | EmptyString => EmptyString
  | String c rest => if is_space c then skip_ws rest else s
  end.

(** [s.trim()] (ASCII white space). *)
Fixpoint trim_end (s : string) : string :=
  match s with
  | EmptyString => EmptyString
  | String c rest =>
      let rest' := trim_end rest in
      if is_space c && (rest' =? "")%string then EmptyString
      else String c rest'
  end.

Definition trim (s : string) : string := trim_end (skip_ws s).

Definition pow10 (e : Z) : Q :=
  if 0 <=? e then inject_Z (10 ^ e) else Qinv (inject_Z (10 ^ (- e))).

(** [s.startsWith(p)]. *)
Fixpoint startsWith (s p : string) : bool :=
  match p with
  | EmptyString => true
  | String a p' =>
      match s with
      | EmptyString => false
      | String b s' => (a =? b)%char && startsWith s' p'
      end
  end.

(** [s] without its first character when that is [c]. *)
Definition after_char (c : ascii) (s : string) : option string :=
  match s with
  | String b rest => if (b =? c)%char then Some rest else None
  | EmptyString => None
  end.

(** The optional exponent part of a decimal literal; 0 when there is none. *)
Definition parse_exponent (s : string) : Z :=
  match s with
  | String c r =>
      if (c =? "e")%char || (c =? "E")%char then
        let (sgn, r') :=
          match after_char "+" r, after_char "-" r with
          | Some r1, _ => (1, r1)
          | None, Some r1 => (-1, r1)
          | None, None => (1, r)
          end in
        match span_digits r' with
        | (EmptyString, _) => 0
        | (ds, _) => sgn * digits_val 0 ds
        end
      else 0
  | EmptyString => 0
  end.

(** An unsigned StrDecimalLiteral at the front of [s]. *)
Definition parse_unsigned (s : string) : JSNum :=
  if startsWith s "Infinity" then PosInf
  else
    let (ip, r) := span_digits s in
    let (fp, r') :=
      match after_char "." r with
      | Some r1 => span_digits r1
      | None => (EmptyString, r)
      end in
    match ip, fp with
    | EmptyString, EmptyString => NaN
    | _, _ =>
        Fin (inject_Z (digits_val 0 (ip ++ fp))
             * pow10 (parse_exponent r' - Z.of_nat (String.length fp)))
    end.

(** [parseFloat(s)]: leading white space is skipped (the ASCII white space
    characters; strings are byte strings), then the longest decimal literal
    is read; [NaN] when there is none.  The value is the rational the
    literal denotes; the script gets the double nearest to it, which is
    [Infinity] for a literal of 310 digits.  Rounding keeps the sign and
    never reverses an order. *)
Definition parseFloat (s : string) : JSNum :=
  let t := skip_ws s in
  match after_char "-" t, after_char "+" t with
  | Some r, _ => num_opp (parse_unsigned r)
  | None, Some r => parse_unsigned r
  | None, None => parse_unsigned t
  end.

(* ================================================================= *)
(** ** Objects used as maps *)

(** A JavaScript object with string keys: the properties in creation order.
    Enumeration ([Object.keys], [Object.values]) lists the array-index keys
    first, in ascending numeric order, then the other keys in creation
    order.  Every key is an ordinary own property: inherited names and
    [__proto__] are not chapter identities. *)
Definition JSObject (V : Type) : Type := list (string * V).

Fixpoint obj_get {V : Type} (o : JSObject V) (k : string) : option V :=
  match o with
  | [] => None
  | (k', v) :: rest => if (k' =? k)%string then Some v else obj_get rest k
  end.

(** [o[k] = v], for a key the object owns or an ordinary new key.  For the
    key [__proto__] on an object that does not own it, JavaScript sets the
    prototype and creates no key: the statements that rest on the key being
    there exclude that name. *)
Fixpoint obj_set {V : Type} (o : JSObject V) (k : string) (v : V) : JSObject V :=
  match o with
  | [] => [(k, v)]
  | (k', v') :: rest =>
      if (k' =? k)%string then (k, v) :: rest
      else (k', v') :: obj_set rest k v
  end.

(** A canonical numeric string below 2^32 - 1. *)
Definition is_array_index (k : string) : bool :=
  match span_digits k with
  | (String c ds, EmptyString) =>
      ((c =? "0")%char && (ds =? "")%string || negb (c =? "0")%char)
      && (digits_val 0 k <=? 4294967294)
  | _ => false
  end.

Definition Object_entries {V : Type} (o : JSObject V) : list (string * V) :=
  let (ixs, strs) := partition (fun kv => is_array_index (fst kv)) o in
  Array_sort
    (fun a b => Fin (inject_Z (digits_val 0 (fst a) - digits_val 0 (fst b))))
    ixs ++ strs.

Definition Object_keys {V : Type} (o : JSObject V) : list string :=
  map fst (Object_entries o).

Definition Object_values {V : Type} (o : JSObject V) : list V :=
  map snd (Object_entries o).

(** Property read [v.name] for the names the script reads from a manifest
    ([total_pages], [totalPages], [pages], [length]).  Every such read in the
    script is guarded by a truthiness test of [v], so [null] and [undefined]
    never occur as [v].  The length of a string is counted in bytes. *)
Definition prop (v : JSVal) (name : string) : JSVal :=
  match v with
  | JObj fields =>
      match obj_get fields name with
      | Some x => x
      | None => JUndefined
      end
  | JArr items =>
      if (name =? "length")%string then JNum (Z.of_nat (List.length items))
      else JUndefined
  | JStr s =>
      if (name =? "length")%string then JNum (Z.of_nat (String.length s))
      else JUndefined
  | _ => JUndefined
  end.

(* ================================================================= *)
(** ** Chapter identity resolver (lines 87-114) *)

Definition isOneshotFolder (folderName : string) : bool :=
  (toLowerCase folderName =? "oneshot")%string.

(** [/^\d+(\.\d+)?$/.test(folderName)]. *)
Definition isNumericChapter (folderName : string) : bool :=
  match span_digits folderName with
  | (EmptyString, _) => false
  | (_, EmptyString) => true
  | (_, tl) =>
      match after_char "." tl with
      | Some rest =>
          match span_digits rest with
          | (EmptyString, _) => false
          | (_, EmptyString) => true
          | _ => false
          end
      | None => false
      end
  end.

Definition getChapterSortValue (folderName : string) : JSNum :=
  if isOneshotFolder folderName then Fin (-1 # 1)
  else parseFloat folderName.

Definition getChapterTitle (folderName : string) : string :=
  if isOneshotFolder folderName then "Oneshot"
  else "Chapter " ++ folderName.

Definition getChapterNumber (folderName : string) : JSNum :=
  if isOneshotFolder folderName then Fin 0
  else parseFloat folderName.

(** The comparator [(a, b) => getChapterSortValue(a) - getChapterSortValue(b)]. *)
Definition bySortValue (a b : string) : JSNum :=
  num_sub (getChapterSortValue a) (getChapterSortValue b).

(* ================================================================= *)
(** ** The documents *)

(** One entry of the [chapters] map of manga.json, as the script writes it
    (lines 326-335) and as the next run reads it back.  [ch_uploadDate] is a
    string or [null] ([None]); [ch_views] is whatever value the counter
    holds, [JUndefined] when the property is absent. *)
Record ChapterRecord : Type := {
  ch_title : string;
  ch_chapter : JSNum;
  ch_folder : string;
  ch_uploadDate : option string;
  ch_totalPages : JSVal;
  ch_pages : JSVal;
  ch_locked : bool;
  ch_views : JSVal
}.

(** The [manga] object of manga.json (lines 410-426). *)
Record MangaInfo : Type := {
  m_title : JSVal;
  m_alternativeTitle : JSVal;
  m_cover : JSVal;
  m_description : JSVal;
  m_author : JSVal;
  m_artist : JSVal;
  m_genre : JSVal;
  m_status : JSVal;
  m_views : JSVal;
  m_links : JSVal;
  m_repoUrl : string;
  m_imagePrefix : JSVal;
  m_imageFormat : JSVal;
  m_lockedChapters : list string;
  m_type : JSVal;
  m_endChapter : option JSVal
}.

(** manga.json.  A document read back may lack [manga] or [chapters]. *)
Record MangaJSON : Type := {
  manga : option MangaInfo;
  chapters : option (JSObject ChapterRecord);
  lastUpdated : option string;
  lastChapterUpdate : option string
}.

(** manga-config.json when it has a [lockedChapters] array of strings; a
    document without one is [ConfigWithoutLockedChapters] of [ConfigFile]. *)
Record Config : Type := {
  cfg_title : JSVal;
  cfg_alternativeTitle : JSVal;
  cfg_cover : JSVal;
  cfg_description : JSVal;
  cfg_author : JSVal;
  cfg_artist : JSVal;
  cfg_genre : JSVal;
  cfg_status : JSVal;
  cfg_views : JSVal;
  cfg_links : JSVal;
  cfg_repoOwner : string;
  cfg_repoName : string;
  cfg_imagePrefix : JSVal;
  cfg_imageFormat : JSVal;
  cfg_lockedChapters : list string;
  cfg_type : JSVal;
  cfg_endChapter : JSVal
}.

(* ================================================================= *)
(** ** The collaborators *)

Record Dirent : Type := {
  d_name : string;
  d_isDirectory : bool
}.

(** What [execSync] does with a command: it throws, or returns the output. *)
Inductive ExecResult : Type :=
| ExecThrows
| ExecOutput (stdout : string).

(** The state of [<folder>/manifest.json]. *)
Inductive ManifestFile : Type :=
| ManifestMissing
| ManifestUnreadable
| ManifestParsed (doc : JSVal).

(** Everything outside the script that a run consults.  Paths are given by
    the folder name they are built from.
    - [readdirSync]: [fs.readdirSync('.', {withFileTypes: true})], [None]
      when it throws;
    - [existsSync name]: [fs.existsSync(path.join('.', name))];
    - [manifestFile name]: the file [path.join('.', name, 'manifest.json')];
    - [gitLogManifest name], [gitLogFolder name]: the two [git log] commands
      of [getUploadDate];
    - [statMtime name]: [fs.statSync(path.join('.', name)).mtime.toISOString()],
      [None] when either call throws; the ISO string is never empty and is
      given as its first character and the rest;
    - [wibFormat iso]: [new Date(iso).toLocaleString('sv-SE', ...)] with the
      blank replaced and '+07:00' appended;
    - [clock n]: the string the [n]-th call of [getWIBTimestamp] returns;
    - [Date_getTime s]: the time value of [new Date(s)], [None] for an
      invalid date. *)
Record World : Type := {
  readdirSync : option (list Dirent);
  existsSync : string -> bool;
  manifestFile : string -> ManifestFile;
  gitLogManifest : string -> ExecResult;
  gitLogFolder : string -> ExecResult;
  statMtime : string -> option (ascii * string);
  wibFormat : string -> string;
  clock : nat -> string;
  Date_getTime : string -> option Z
}.

(* ================================================================= *)
(** ** Effects: the clock and exceptions *)

Inductive Completion (A : Type) : Type :=
| Normal (a : A)
| Throw.
Arguments Normal {A} a.
Arguments Throw {A}.

(** A computation reads the number of [getWIBTimestamp] calls made so far
    and returns normally or throws. *)
Definition M (A : Type) : Type := nat -> Completion A * nat.

Definition ret {A : Type} (a : A) : M A := fun t => (Normal a, t).

Definition throw {A : Type} : M A := fun t => (Throw, t).

Definition bind {A B : Type} (m : M A) (k : A -> M B) : M B :=
  fun t =>
    match m t with
    | (Normal a, t') => k a t'
    | (Throw, t') => (Throw, t')
    end.

(** [try { m } catch (error) { handler }]. *)
Definition tryCatch {A : Type} (m : M A) (handler : M A) : M A :=
  fun t =>
    match m t with
    | (Normal a, t') => (Normal a, t')
    | (Throw, t') => handler t'
    end.

Declare Scope js_scope.
Delimit Scope js_scope with js.
Notation "x <- m ;; k" := (bind m (fun x => k))
  (at level 61, m at next level, right associativity) : js_scope.
Notation "' pat <- m ;; k" := (bind m (fun x => match x with pat => k end))
  (at level 61, pat pattern, m at next level, right associativity) : js_scope.
Open Scope js_scope.

(** [arr.forEach(x => { acc = body(x, acc) })]. *)
Fixpoint forEach {S : Type} (arr : list string) (body : string -> S -> M S)
  (acc : S) : M S :=
  match arr with
  | [] => ret acc
  | x :: rest => acc' <- body x acc ;; forEach rest body acc'
  end.

(* ================================================================= *)
(** ** Helpers shared by both scripts (lines 33-247, again at 747-924) *)

Section Helpers.
Variable w : World.

(** Lines 33-37. *)
Definition getWIBTimestamp : M string :=
  fun t => (Normal (clock w t), S t).

(** Lines 39-44; [None] is [null]. *)
Definition convertToWIB (isoString : string) : option string :=
  if negb (truthy_str isoString) then None
  else Some (wibFormat w isoString).

(** Lines 120-133; the result is the parsed document or [null]. *)
Definition loadManifest (folderName : string) : JSVal :=
  match manifestFile w folderName with
  | ManifestParsed doc => doc
  | ManifestUnreadable => JNull
  | ManifestMissing => JNull
  end.

(** Lines 135-149. *)
Definition getTotalPagesFromManifest (folderName : string) : JSVal :=
  let manifest := loadManifest folderName in
  if truthy manifest then
    js_or (js_or (prop manifest "total_pages") (prop manifest "totalPages"))
          (if truthy (prop manifest "pages")
           then prop (prop manifest "pages") "length"
           else JNum 0)
  else JNum 0.

(** Lines 192-213. *)
Definition getChapterFolders : list string :=
  match readdirSync w with
  | Some dirents =>
      Array_sort bySortValue
        (filter (fun name => isNumericChapter name || isOneshotFolder name)
           (map d_name
              (filter (fun dirent => negb (startsWith (d_name dirent) "."))
                 (filter d_isDirectory dirents))))
  | None => []
  end.

(** Lines 215-217. *)
Definition checkIfFolderExists (folderName : string) : bool :=
  existsSync w folderName.

(** [execSync(command, ...).trim()]. *)
Definition execSync (r : ExecResult) : M string :=
  match r with
  | ExecThrows => throw
  | ExecOutput stdout => ret (trim stdout)
  end.

(** [fs.statSync(folderPath)] followed by [stats.mtime.toISOString()]. *)
Definition statSync_mtime (folderName : string) : M string :=
  match statMtime w folderName with
  | Some (c, rest) => ret (String c rest)
  | None => throw
  end.

(** Lines 219-247.  The three [return]s of the [try] block are the three
    [ret]s; everything thrown inside it lands in the one [catch]. *)
Definition getUploadDate (folderName : string) (isLocked : bool)
  : M (option string) :=
  let fromFolder : M (option string) :=
    folderResult <- execSync (gitLogFolder w folderName) ;;
    if truthy_str folderResult then ret (convertToWIB folderResult)
    else
      mtime <- statSync_mtime folderName ;;
      ret (convertToWIB mtime) in
  tryCatch
    (if negb isLocked then
       manifestResult <- execSync (gitLogManifest w folderName) ;;
       if truthy_str manifestResult then ret (convertToWIB manifestResult)
       else fromFolder
     else fromFolder)
    (now <- getWIBTimestamp ;; ret (Some now)).

(** [oldMangaData && oldMangaData.chapters && oldMangaData.chapters[chapterName]]
    (lines 312 and 987), as far as its truthiness and fields are used. *)
Definition oldChapterOf (oldMangaData : option MangaJSON)
  (chapterName : string) : option ChapterRecord :=
  match oldMangaData with
  | Some old =>
      match chapters old with
      | Some chs => obj_get chs chapterName
      | None => None
      end
  | None => None
  end.

(** The pre-pass of [generateChaptersData] (lines 266-282, again at
    948-964).  The list it builds is only printed. *)
Definition removedLockedChapters (config : Config)
  (oldMangaData : option MangaJSON) : list string :=
  match oldMangaData with
  | Some old =>
      match chapters old with
      | Some chs =>
          filter
            (fun chapterName =>
               match obj_get chs chapterName with
               | Some oldChapter =>
                   let folderExists := checkIfFolderExists chapterName in
                   let inCurrentConfig :=
                     includes (cfg_lockedChapters config) chapterName in
                   ch_locked oldChapter && negb folderExists
                   && negb inCurrentConfig
               | None => false
               end)
            (Object_keys chs)
      | None => []
      end
  | None => []
  end.

(** Lines 284-291, again at 967-974. *)
Definition sortedChapterNames (config : Config) : list string :=
  let allChapterNames :=
    Set_from (getChapterFolders ++ cfg_lockedChapters config) in
  Array_sort bySortValue allChapterNames.

(** The entries of [allChapterDates] (lines 352-356). *)
Record ChapterDate : Type := {
  cd_chapterName : string;
  cd_uploadDate : option string;
  cd_locked : bool
}.

(** The number [new Date(d)] converts to in a subtraction; [new Date(null)]
    is the epoch. *)
Definition dateNum (d : option string) : JSNum :=
  match d with
  | Some s =>
      match Date_getTime w s with
      | Some ms => Fin (inject_Z ms)
      | None => NaN
      end
  | None => Fin 0
  end.

(** [(a, b) => new Date(b.uploadDate) - new Date(a.uploadDate)]. *)
Definition byDateDesc (a b : ChapterDate) : JSNum :=
  num_sub (dateNum (cd_uploadDate b)) (dateNum (cd_uploadDate a)).

(** Lines 350-372, again at 1020-1042: the last statements of
    [generateChaptersData], from the finished [chapters] object on. *)
Definition lastChapterUpdateOf (chs : JSObject ChapterRecord)
  : M (option string) :=
  let allChapterDates :=
    map (fun ch => {| cd_chapterName := ch_folder ch;
                      cd_uploadDate := ch_uploadDate ch;
                      cd_locked := ch_locked ch |})
        (Object_values chs) in
  if (0 <? List.length allChapterDates)%nat then
    match Array_sort byDateDesc allChapterDates with
    | first :: _ => ret (cd_uploadDate first)
    | [] => throw
    end
  else
    now <- getWIBTimestamp ;; ret (Some now).

(** [uploadDate.split('T')[0]] (lines 346 and 1015): a method call, which
    throws on [null].  The string it yields is only printed. *)
Definition split_T (uploadDate : option string) : M unit :=
  match uploadDate with
  | Some _ => ret tt
  | None => throw
  end.
End Helpers.

(** [config.status === 'END' && config.endChapter] decides whether
    [mangaJSON.manga.endChapter] is set (lines 432-437, again at 1098-1103). *)
Definition endChapterOf (config : Config) : option JSVal :=
  match cfg_status config with
  | JStr status =>
      if (status =? "END")%string && truthy (cfg_endChapter config)
      then Some (cfg_endChapter config)
      else None
  | _ => None
  end.

Definition repoUrlOf (config : Config) : string :=
  "https://raw.githubusercontent.com/" ++ cfg_repoOwner config ++ "/"
    ++ cfg_repoName config ++ "/main/".

(** The object literal [mangaJSON.manga] (lines 410-426, again at 1076-1092);
    a [lockedChapters] array is truthy, so [config.lockedChapters || []] is
    the array itself. *)
Definition mangaInfoOf (config : Config) (totalViews : JSVal) : MangaInfo :=
  {| m_title := cfg_title config;
     m_alternativeTitle := cfg_alternativeTitle config;
     m_cover := cfg_cover config;
     m_description := cfg_description config;
     m_author := cfg_author config;
     m_artist := cfg_artist config;
     m_genre := cfg_genre config;
     m_status := cfg_status config;
     m_views := totalViews;
     m_links := cfg_links config;
     m_repoUrl := repoUrlOf config;
     m_imagePrefix := js_or (cfg_imagePrefix config) (JStr "Image");
     m_imageFormat := js_or (cfg_imageFormat config) (JStr "jpg");
     m_lockedChapters := cfg_lockedChapters config;
     m_type := js_or (cfg_type config) (JStr "manga");
     m_endChapter := endChapterOf config |}.

(* ================================================================= *)
(** ** Script v6.2 (lines 1-724) *)

Module V62.
Section Script.
Variable w : World.

(** Lines 249-260. *)
Definition getOldChapterViews (chapterName : string)
  (oldMangaData : option MangaJSON) : JSVal :=
  match oldMangaData with
  | Some old =>
      match chapters old with
      | Some chs =>
          match obj_get chs chapterName with
          | Some oldChapter =>
              if truthy (ch_views oldChapter) then ch_views oldChapter
              else JNum 0
          | None => JNum 0
          end
      | None => JNum 0
      end
  | None => JNum 0
  end.

(** The body of the [forEach] at lines 301-348.  The array
    [unlockedChaptersWithDates] it also fills is never read. *)
Definition processChapter (config : Config) (oldMangaData : option MangaJSON)
  (isFirstTime : bool) (chapterName : string) (chs : JSObject ChapterRecord)
  : M (JSObject ChapterRecord) :=
  let folderExists := checkIfFolderExists w chapterName in
  let totalPages :=
    if folderExists then getTotalPagesFromManifest w chapterName
    else JNum 0 in
  let isInLockedList := includes (cfg_lockedChapters config) chapterName in
  let isLocked := isInLockedList in
  uploadDate <-
    (if isLocked && negb folderExists then
       match oldChapterOf oldMangaData chapterName with
       | Some oldChapter =>
           if truthy_opt (ch_uploadDate oldChapter)
           then ret (ch_uploadDate oldChapter)
           else now <- getWIBTimestamp w ;; ret (Some now)
       | None => now <- getWIBTimestamp w ;; ret (Some now)
       end
     else if folderExists then getUploadDate w chapterName isLocked
     else now <- getWIBTimestamp w ;; ret (Some now)) ;;
  let views :=
    if isFirstTime then JNum 0
    else getOldChapterViews chapterName oldMangaData in
  let chs' :=
    obj_set chs chapterName
      {| ch_title := getChapterTitle chapterName;
         ch_chapter := getChapterNumber chapterName;
         ch_folder := chapterName;
         ch_uploadDate := uploadDate;
         ch_totalPages := totalPages;
         ch_pages := totalPages;
         ch_locked := isLocked;
         ch_views := views |} in
  _ <- split_T uploadDate ;;
  ret chs'.

(** Lines 262-373.  The result is the pair [{ chapters, lastChapterUpdate }].
    [removed] is the list the pre-pass prints; nothing below reads it. *)
Definition generateChaptersData (config : Config)
  (oldMangaData : option MangaJSON) (isFirstTime : bool)
  : M (JSObject ChapterRecord * option string) :=
  let removed := removedLockedChapters w config oldMangaData in
  chs <- forEach (sortedChapterNames w config)
           (processChapter config oldMangaData isFirstTime) [] ;;
  last <- lastChapterUpdateOf w chs ;;
  ret (chs, last).

(** Lines 375-430: [commandGenerate] from the two documents it has loaded
    up to the document it hands to [saveJSON]. *)
Definition commandGenerate (config : Config) (oldMangaData : option MangaJSON)
  : M MangaJSON :=
  let isFirstTime :=
    match oldMangaData with
    | Some old => match manga old with Some _ => false | None => true end
    | None => true
    end in
  '(chs, last) <- generateChaptersData config oldMangaData isFirstTime ;;
  let totalViews :=
    match oldMangaData with
    | Some old =>
        match manga old with
        | Some oldManga => js_or (m_views oldManga) (JNum 0)
        | None => js_or (cfg_views config) (JNum 0)
        end
    | None => js_or (cfg_views config) (JNum 0)
    end in
  now <- getWIBTimestamp w ;;
  ret {| manga := Some (mangaInfoOf config totalViews);
         chapters := Some chs;
         lastUpdated := Some now;
         lastChapterUpdate := last |}.
End Script.
End V62.

(* ================================================================= *)
(** ** Script v7.0 (lines 726-1208) *)

Module V70.
Section Script.
Variable w : World.

(** Lines 926-937. *)
Definition getOldChapterViews (chapterName : string)
  (oldMangaData : option MangaJSON) : JSVal :=
  match oldMangaData with
  | Some old =>
      match chapters old with
      | Some chs =>
          match obj_get chs chapterName with
          | Some oldChapter =>
              match ch_views oldChapter with
              | JUndefined => JNum 0
              | views => views
              end
          | None => JNum 0
          end
      | None => JNum 0
      end
  | None => JNum 0
  end.

(** The body of the [forEach] at lines 978-1017. *)
Definition processChapter (config : Config) (oldMangaData : option MangaJSON)
  (chapterName : string) (chs : JSObject ChapterRecord)
  : M (JSObject ChapterRecord) :=
  let folderExists := checkIfFolderExists w chapterName in
  let totalPages :=
    if folderExists then getTotalPagesFromManifest w chapterName
    else JNum 0 in
  let isInLockedList := includes (cfg_lockedChapters config) chapterName in
  let isLocked := isInLockedList in
  uploadDate <-
    (if isLocked && negb folderExists then
       match oldChapterOf oldMangaData chapterName with
       | Some oldChapter =>
           if truthy_opt (ch_uploadDate oldChapter)
           then ret (ch_uploadDate oldChapter)
           else now <- getWIBTimestamp w ;; ret (Some now)
       | None => now <- getWIBTimestamp w ;; ret (Some now)
       end
     else if folderExists then getUploadDate w chapterName isLocked
     else now <- getWIBTimestamp w ;; ret (Some now)) ;;
  let views := getOldChapterViews chapterName oldMangaData in
  let chs' :=
    obj_set chs chapterName
      {| ch_title := getChapterTitle chapterName;
         ch_chapter := getChapterNumber chapterName;
         ch_folder := chapterName;
         ch_uploadDate := uploadDate;
         ch_totalPages := totalPages;
         ch_pages := totalPages;
         ch_locked := isLocked;
         ch_views := views |} in
  _ <- split_T uploadDate ;;
  ret chs'.

(** Lines 943-1043; [removed] as in v6.2. *)
Definition generateChaptersData (config : Config)
  (oldMangaData : option MangaJSON)
  : M (JSObject ChapterRecord * option string) :=
  let removed := removedLockedChapters w config oldMangaData in
  chs <- forEach (sortedChapterNames w config)
           (processChapter config oldMangaData) [] ;;
  last <- lastChapterUpdateOf w chs ;;
  ret (chs, last).

(** Lines 1049-1096, from the loaded documents to the document saved. *)
Definition commandGenerate (config : Config) (oldMangaData : option MangaJSON)
  : M MangaJSON :=
  '(chs, last) <- generateChaptersData config oldMangaData ;;
  let totalViews :=
    match oldMangaData with
    | Some old =>
        match manga old with
        | Some oldManga =>
            match m_views oldManga with
            | JUndefined => js_or (cfg_views config) (JNum 0)
            | views => views
            end
        | None => js_or (cfg_views config) (JNum 0)
        end
    | None => js_or (cfg_views config) (JNum 0)
    end in
  now <- getWIBTimestamp w ;;
  ret {| manga := Some (mangaInfoOf config totalViews);
         chapters := Some chs;
         lastUpdated := Some now;
         lastChapterUpdate := last |}.
End Script.
End V70.

(* ================================================================= *)
(** ** The loop body, with the view counter left open

    The two [forEach] bodies differ only in how [views] is computed.  The
    definitions below state the common shape once; the two
    [generateChaptersData] unfold to instances of it (lemmas
    [V62_generateChaptersData_unfold] and [V70_generateChaptersData_unfold]). *)

Section Core.
Variable w : World.
Variable viewsOf : string -> JSVal.
Variable config : Config.
Variable oldMangaData : option MangaJSON.

(** The [if]/[else] that assigns [uploadDate] (lines 310-322). *)
Definition chooseUploadDate (chapterName : string) : M (option string) :=
  let folderExists := checkIfFolderExists w chapterName in
  let isLocked := includes (cfg_lockedChapters config) chapterName in
  if isLocked && negb folderExists then
    match oldChapterOf oldMangaData chapterName with
    | Some oldChapter =>
        if truthy_opt (ch_uploadDate oldChapter)
        then ret (ch_uploadDate oldChapter)
        else now <- getWIBTimestamp w ;; ret (Some now)
    | None => now <- getWIBTimestamp w ;; ret (Some now)
    end
  else if folderExists then getUploadDate w chapterName isLocked
  else now <- getWIBTimestamp w ;; ret (Some now).

(** The object literal of lines 326-335. *)
Definition recordFor (chapterName : string) (uploadDate : option string)
  : ChapterRecord :=
  let totalPages :=
    if checkIfFolderExists w chapterName
    then getTotalPagesFromManifest w chapterName
    else JNum 0 in
  {| ch_title := getChapterTitle chapterName;
     ch_chapter := getChapterNumber chapterName;
     ch_folder := chapterName;
     ch_uploadDate := uploadDate;
     ch_totalPages := totalPages;
     ch_pages := totalPages;
     ch_locked := includes (cfg_lockedChapters config) chapterName;
     ch_views := viewsOf chapterName |}.

Definition processChapterWith (chapterName : string)
  (chs : JSObject ChapterRecord) : M (JSObject ChapterRecord) :=
  uploadDate <- chooseUploadDate chapterName ;;
  _ <- split_T uploadDate ;;
  ret (obj_set chs chapterName (recordFor chapterName uploadDate)).

Definition generateChaptersDataWith
  : M (JSObject ChapterRecord * option string) :=
  chs <- forEach (sortedChapterNames w config) processChapterWith [] ;;
  last <- lastChapterUpdateOf w chs ;;
  ret (chs, last).
End Core.

(** The point in time of an [uploadDate], when it denotes one. *)
Definition instant (w : World) (uploadDate : option string) : option Z :=
  match uploadDate with
  | Some s => Date_getTime w s
  | None => Some 0
  end.

(** Everything [readdirSync] lists is there for [existsSync]: the run
    sees one snapshot of the storage. *)
Definition fs_consistent (w : World) : Prop :=
  forall dirents dirent,
    readdirSync w = Some dirents -> In dirent dirents ->
    existsSync w (d_name dirent) = true.

(** An identity the enumerator accepts (line 200). *)
Definition validIdentity (name : string) : bool :=
  isNumericChapter name || isOneshotFolder name.

(* ================================================================= *)
(** ** Notions the statements use *)

(** A string of decimal digits. *)
Fixpoint all_digits (s : string) : bool :=
  match s with
  | EmptyString => true
  | String c rest => is_digit c && all_digits rest
  end.

(** [a] is no earlier than [b], both being points in time. *)
Definition notEarlier (w : World) (a b : ChapterDate) : Prop :=
  exists za zb,
    instant w (cd_uploadDate a) = Some za
    /\ instant w (cd_uploadDate b) = Some zb
    /\ zb <= za.

(** The order [bySortValue] decides on names whose sort value is finite. *)
Definition sortLe (a b : string) : Prop :=
  exists p q,
    getChapterSortValue a = Fin p /\ getChapterSortValue b = Fin q
    /\ (p <= q)%Q.

(** The manifest-level history gave nothing: it was not asked (locked
    chapter) or it answered with an empty line. *)
Definition manifestHistoryEmpty (w : World) (folderName : string)
  (isLocked : bool) : Prop :=
  isLocked = true
  \/ exists out, isLocked = false
                 /\ gitLogManifest w folderName = ExecOutput out
                 /\ trim out = "".

(* ================================================================= *)
(** ** Concrete inputs *)

Definition exampleConfig (lockedChapters : list string) : Config :=
  {| cfg_title := JStr "Zunou Battle";
     cfg_alternativeTitle := JUndefined;
     cfg_cover := JStr "cover.jpg";
     cfg_description := JStr "";
     cfg_author := JStr "author";
     cfg_artist := JStr "artist";
     cfg_genre := JArr [JStr "Action"];
     cfg_status := JStr "ONGOING";
     cfg_views := JUndefined;
     cfg_links := JObj [];
     cfg_repoOwner := "nurananto";
     cfg_repoName := "ZunouBattle";
     cfg_imagePrefix := JUndefined;
     cfg_imageFormat := JUndefined;
     cfg_lockedChapters := lockedChapters;
     cfg_type := JUndefined;
     cfg_endChapter := JUndefined |}.

(** Storage holding the given folders, each committed on 5 January 2024;
    only folder 3.5 has a manifest, of 20 pages.  The run happens on
    1 June 2025. *)
Definition exampleWorld (folders : list string) : World :=
  {| readdirSync :=
       Some (map (fun n => {| d_name := n; d_isDirectory := true |}) folders);
     existsSync := includes folders;
     manifestFile := fun n =>
       if (n =? "3.5")%string
       then ManifestParsed (JObj [("total_pages", JNum 20)])
       else ManifestMissing;
     gitLogManifest := fun _ => ExecOutput "";
     gitLogFolder := fun _ => ExecOutput "2024-01-05T03:00:00Z ";
     statMtime := fun _ => None;
     wibFormat := fun iso =>
       if (iso =? "2024-01-05T03:00:00Z")%string
       then "2024-01-05T10:00:00+07:00" else "InvalidTDate+07:00";
     clock := fun _ => "2025-06-01T00:00:00+07:00";
     Date_getTime := fun s =>
       if (s =? "2023-03-01T09:00:00+07:00")%string then Some 1677636000000
       else if (s =? "2024-01-05T10:00:00+07:00")%string then Some 1704423600000
       else if (s =? "2025-06-01T00:00:00+07:00")%string then Some 1748710800000
       else None |}.

Definition exampleRecord (chapterName : string) (isLocked : bool) (views : Z)
  : ChapterRecord :=
  {| ch_title := getChapterTitle chapterName;
     ch_chapter := getChapterNumber chapterName;
     ch_folder := chapterName;
     ch_uploadDate := Some "2023-03-01T09:00:00+07:00";
     ch_totalPages := JNum 0;
     ch_pages := JNum 0;
     ch_locked := isLocked;
     ch_views := JNum views |}.

(** A previous catalog with the given chapter records and 7 work views. *)
Definition exampleCatalog (chs : JSObject ChapterRecord) : MangaJSON :=
  {| manga := Some (mangaInfoOf (exampleConfig []) (JNum 7));
     chapters := Some chs;
     lastUpdated := Some "2023-03-01T09:00:00+07:00";
     lastChapterUpdate := Some "2023-03-01T09:00:00+07:00" |}.

(** The storage of [exampleWorld ["1"]] where the manifest-level [git log]
    command cannot be run. *)
Definition exampleWorldNoManifestLog : World :=
  {| readdirSync := readdirSync (exampleWorld ["1"]);
     existsSync := existsSync (exampleWorld ["1"]);
     manifestFile := manifestFile (exampleWorld ["1"]);
     gitLogManifest := fun _ => ExecThrows;
     gitLogFolder := gitLogFolder (exampleWorld ["1"]);
     statMtime := statMtime (exampleWorld ["1"]);
     wibFormat := wibFormat (exampleWorld ["1"]);
     clock := clock (exampleWorld ["1"]);
     Date_getTime := Date_getTime (exampleWorld ["1"]) |}.

(* ================================================================= *)
(** ** The files on disk and the commands that rewrite them *)

(** [String(n)] for an integer (plain decimal digits, as JavaScript prints
    integers below 10^21). *)
Definition Z_toString (n : Z) : string := NilZero.string_of_int (Z.to_int n).

(** [String(v)]; an array joins its elements with commas, [null] and
    [undefined] elements printing as nothing. *)
Fixpoint js_toString (v : JSVal) : string :=
  match v with
  | JUndefined => "undefined"
  | JNull => "null"
  | JBool true => "true"
  | JBool false => "false"
  | JNum n => Z_toString n
  | JStr s => s
  | JArr items =>
      (fix join (l : list JSVal) : string :=
         match l with
         | [] => ""
         | x :: rest =>
             (match x with
              | JUndefined | JNull => ""
              | _ => js_toString x
              end)
             ++ match rest with
                | [] => ""
                | _ :: _ => "," ++ join rest
                end
         end) items
  | JObj _ => "[object Object]"
  end.

(** [(views || 0) + p] for a number [p]: a falsy [views] counts as 0 and
    [true] as 1; a string, an array or an object is concatenated with the
    digits of [p].  Numbers are added as integers, which is the script's
    addition as long as the operands and the sum are safe integers
    ([safeInteger] below). *)
Definition addViews (views : JSVal) (p : Z) : JSVal :=
  match views with
  | JNum n => JNum (n + p)
  | JBool true => JNum (1 + p)
  | JUndefined | JNull | JBool false => JNum (0 + p)
  | JStr s =>
      if (s =? "")%string then JNum (0 + p)
      else JStr (s ++ Z_toString p)
  | JArr _ | JObj _ => JStr (js_toString views ++ Z_toString p)
  end.

(** [x || 0] for a counter that is a number or absent. *)
Definition orZero (x : option Z) : Z :=
  match x with
  | Some n => n
  | None => 0
  end.

(** [delete o[k]]. *)
Fixpoint obj_delete {V : Type} (o : JSObject V) (k : string) : JSObject V :=
  match o with
  | [] => []
  | (k', v) :: rest =>
      if (k' =? k)%string then obj_delete rest k
      else (k', v) :: obj_delete rest k
  end.

(** pending-views.json (lines 162-166).  The counters of the pending files
    are numbers: this script writes 0 and resets to 0. *)
Record PendingViews : Type := {
  pv_pendingViews : option Z;
  pv_lastIncrement : option string;
  pv_lastUpdate : option string
}.

(** One entry of the [chapters] object of pending-chapter-views.json: the
    two properties the script reads and writes, and the others, which it
    leaves alone. *)
Record PendingChapter : Type := {
  pc_pendingViews : option Z;
  pc_lastUpdate : option string;
  pc_rest : JSObject JSVal
}.

(** pending-chapter-views.json (lines 173-176). *)
Record PendingChapterViews : Type := {
  pcv_chapters : option (JSObject PendingChapter);
  pcv_lastUpdated : option string
}.

(** One day of daily-views.json (line 630). *)
Record DayRecord : Type := {
  day_manga : Z;
  day_chapters : JSObject Z
}.

(** daily-views.json (lines 603-606). *)
Record DailyViews : Type := {
  dv_lastCleanup : option string;
  dv_dailyRecords : option (JSObject DayRecord)
}.

Inductive FileName : Type :=
| MangaJson
| PendingViewsJson
| PendingChapterViewsJson
| DailyViewsJson.

(** A file is not there, is there but does not parse, or holds a document. *)
Inductive FileState (A : Type) : Type :=
| Absent
| Unparsable
| Holds (doc : A).
Arguments Absent {A}.
Arguments Unparsable {A}.
Arguments Holds {A} doc.

(** The four JSON files the commands rewrite. *)
Record Disk : Type := {
  manga_json : FileState MangaJSON;
  pending_views_json : FileState PendingViews;
  pending_chapter_views_json : FileState PendingChapterViews;
  daily_views_json : FileState DailyViews
}.

(** manga-config.json as [loadConfig] and [generateChaptersData] find it:
    missing or not parsable; parsable but without a [lockedChapters] array,
    which [generateChaptersData] reads without a test; or a configuration
    with that array. *)
Inductive ConfigFile : Type :=
| ConfigUnreadable
| ConfigWithoutLockedChapters
| ConfigHolds (config : Config).

(** What the commands ask of the machine besides [World]:
    - [configFile]: manga-config.json, which no command writes;
    - [canWrite f]: whether [fs.writeFileSync] of [f] succeeds (a failed
      write leaves the file as it was);
    - [canUnlink f]: whether [fs.unlinkSync] of [f] succeeds;
    - [todayWIB]: what [getWIBDateString()] returns;
    - [cutoffWIB]: the date string [commandCleanupDaily] computes for seven
      days ago. *)
Record Host : Type := {
  configFile : ConfigFile;
  canWrite : FileName -> bool;
  canUnlink : FileName -> bool;
  todayWIB : string;
  cutoffWIB : string
}.

Definition set_manga_json (d : Disk) (st : FileState MangaJSON) : Disk :=
  {| manga_json := st;
     pending_views_json := pending_views_json d;
     pending_chapter_views_json := pending_chapter_views_json d;
     daily_views_json := daily_views_json d |}.

Definition set_pending_views_json (d : Disk) (st : FileState PendingViews)
  : Disk :=
  {| manga_json := manga_json d;
     pending_views_json := st;
     pending_chapter_views_json := pending_chapter_views_json d;
     daily_views_json := daily_views_json d |}.

Definition set_pending_chapter_views_json (d : Disk)
  (st : FileState PendingChapterViews) : Disk :=
  {| manga_json := manga_json d;
     pending_views_json := pending_views_json d;
     pending_chapter_views_json := st;
     daily_views_json := daily_views_json d |}.

Definition set_daily_views_json (d : Disk) (st : FileState DailyViews) : Disk :=
  {| manga_json := manga_json d;
     pending_views_json := pending_views_json d;
     pending_chapter_views_json := pending_chapter_views_json d;
     daily_views_json := st |}.

(** How a command ends: it runs to its end, dies of an uncaught exception,
    or calls [process.exit]. *)
Inductive Ending (A : Type) : Type :=
| Goes (a : A)
| Dies
| Exits (code : Z).
Arguments Goes {A} a.
Arguments Dies {A}.
Arguments Exits {A} code.

(** A command works on the disk and reads the clock. *)
Definition Cmd (A : Type) : Type := Disk -> nat -> Ending A * Disk * nat.

Definition cret {A : Type} (a : A) : Cmd A := fun d t => (Goes a, d, t).

Definition cbind {A B : Type} (m : Cmd A) (k : A -> Cmd B) : Cmd B :=
  fun d t =>
    match m d t with
    | (Goes a, d', t') => k a d' t'
    | (Dies, d', t') => (Dies, d', t')
    | (Exits code, d', t') => (Exits code, d', t')
    end.

(** [process.exit(code)]. *)
Definition exit {A : Type} (code : Z) : Cmd A := fun d t => (Exits code, d, t).

(** An exception nothing catches. *)
Definition die {A : Type} : Cmd A := fun d t => (Dies, d, t).

(** A computation on the clock alone, run inside a command. *)
Definition lift {A : Type} (m : M A) : Cmd A :=
  fun d t =>
    match m t with
    | (Normal a, t') => (Goes a, d, t')
    | (Throw, t') => (Dies, d, t')
    end.

Definition readDisk : Cmd Disk := fun d t => (Goes d, d, t).

Declare Scope cmd_scope.
Delimit Scope cmd_scope with cmd.
Notation "x <- m ;; k" := (cbind m (fun x => k))
  (at level 61, m at next level, right associativity) : cmd_scope.
Notation "' pat <- m ;; k" := (cbind m (fun x => match x with pat => k end))
  (at level 61, pat pattern, m at next level, right associativity) : cmd_scope.

Fixpoint cforEach {S : Type} (arr : list string) (body : string -> S -> Cmd S)
  (acc : S) : Cmd S :=
  match arr with
  | [] => cret acc
  | x :: rest => cbind (body x acc) (fun acc' => cforEach rest body acc')
  end.

(** [fs.existsSync(file)]. *)
Definition fileExists {A : Type} (st : FileState A) : bool :=
  match st with
  | Absent => false
  | Unparsable | Holds _ => true
  end.

(** [loadJSON(file)] (lines 60-70): the document, or [null]. *)
Definition loadJSON {A : Type} (file : Disk -> FileState A) : Cmd (option A) :=
  fun d t =>
    (Goes match file d with
          | Holds doc => Some doc
          | Absent | Unparsable => None
          end, d, t).

Section Commands.
Variable w : World.
Variable h : Host.
Open Scope cmd_scope.

(** [saveJSON(file, data)] (lines 72-81): [true] when the file was
    written. *)
Definition saveJSON (file : FileName) (put : Disk -> Disk) : Cmd bool :=
  fun d t =>
    if canWrite h file then (Goes true, put d, t)
    else (Goes false, d, t).

Definition now : Cmd string := lift (getWIBTimestamp w).

(** [loadConfig()] (lines 50-58); [None] is a document without a
    [lockedChapters] array. *)
Definition loadConfig : Cmd (option Config) :=
  match configFile h with
  | ConfigHolds config => cret (Some config)
  | ConfigWithoutLockedChapters => cret None
  | ConfigUnreadable => exit 1
  end.
End Commands.

(* ================================================================= *)
(** ** The commands of v6.2 on the files *)

Module V62Cmd.
Section Run.
Variable w : World.
Variable h : Host.
Open Scope cmd_scope.

(** Lines 155-186. *)
Definition ensurePendingFilesExist : Cmd unit :=
  d <- readDisk ;;
  _ <- (if negb (fileExists (pending_views_json d)) then
          lastIncrement <- now w ;;
          lastUpdate <- now w ;;
          _ <- saveJSON h PendingViewsJson
                 (fun d => set_pending_views_json d
                    (Holds {| pv_pendingViews := Some 0;
                              pv_lastIncrement := Some lastIncrement;
                              pv_lastUpdate := Some lastUpdate |})) ;;
          cret tt
        else cret tt) ;;
  d <- readDisk ;;
  _ <- (if negb (fileExists (pending_chapter_views_json d)) then
          lastUpdated <- now w ;;
          _ <- saveJSON h PendingChapterViewsJson
                 (fun d => set_pending_chapter_views_json d
                    (Holds {| pcv_chapters := Some [];
                              pcv_lastUpdated := Some lastUpdated |})) ;;
          cret tt
        else cret tt) ;;
  cret tt.

(** Lines 375-466 of v6.2: the whole [commandGenerate], files included.
    Without a [lockedChapters] array, [generateChaptersData] throws a
    TypeError at its first use of [config.lockedChapters] (line 271 or 286),
    before any clock reading, and nothing catches it. *)
Definition commandGenerate : Cmd unit :=
  _ <- ensurePendingFilesExist ;;
  config <- loadConfig h ;;
  oldMangaData <- loadJSON manga_json ;;
  match config with
  | None => die
  | Some config =>
      mangaJSON <- lift (V62.commandGenerate w config oldMangaData) ;;
      saved <- saveJSON h MangaJson
                 (fun d => set_manga_json d (Holds mangaJSON)) ;;
      if saved then cret tt else exit 1
  end.

(** [manga.manga.views = (manga.manga.views || 0) + pendingViews]. *)
Definition withMangaViews (mangaData : MangaJSON) (info : MangaInfo)
  (pendingViews : Z) : MangaJSON :=
  {| manga :=
       Some {| m_title := m_title info;
               m_alternativeTitle := m_alternativeTitle info;
               m_cover := m_cover info;
               m_description := m_description info;
               m_author := m_author info;
               m_artist := m_artist info;
               m_genre := m_genre info;
               m_status := m_status info;
               m_views := addViews (m_views info) pendingViews;
               m_links := m_links info;
               m_repoUrl := m_repoUrl info;
               m_imagePrefix := m_imagePrefix info;
               m_imageFormat := m_imageFormat info;
               m_lockedChapters := m_lockedChapters info;
               m_type := m_type info;
               m_endChapter := m_endChapter info |};
     chapters := chapters mangaData;
     lastUpdated := lastUpdated mangaData;
     lastChapterUpdate := lastChapterUpdate mangaData |}.

(** Lines 472-509; [VIEW_THRESHOLD] is 1. *)
Definition commandUpdateViews : Cmd unit :=
  _ <- ensurePendingFilesExist ;;
  pendingData <- loadJSON pending_views_json ;;
  mangaData <- loadJSON manga_json ;;
  match pendingData, mangaData with
  | Some pendingData, Some mangaData =>
      let pendingViews := orZero (pv_pendingViews pendingData) in
      if pendingViews <? 1 then exit 0
      else
        match manga mangaData with
        | None => die
        | Some info =>
            saved <- saveJSON h MangaJson
                       (fun d => set_manga_json d
                          (Holds (withMangaViews mangaData info pendingViews))) ;;
            if saved then
              lastUpdate <- now w ;;
              _ <- saveJSON h PendingViewsJson
                     (fun d => set_pending_views_json d
                        (Holds {| pv_pendingViews := Some 0;
                                  pv_lastIncrement :=
                                    pv_lastIncrement pendingData;
                                  pv_lastUpdate := Some lastUpdate |})) ;;
              cret tt
            else exit 1
        end
  | _, _ => exit 1
  end.

(** [chapter.views = (chapter.views || 0) + pendingViews]. *)
Definition withChapterViews (chapter : ChapterRecord) (pendingViews : Z)
  : ChapterRecord :=
  {| ch_title := ch_title chapter;
     ch_chapter := ch_chapter chapter;
     ch_folder := ch_folder chapter;
     ch_uploadDate := ch_uploadDate chapter;
     ch_totalPages := ch_totalPages chapter;
     ch_pages := ch_pages chapter;
     ch_locked := ch_locked chapter;
     ch_views := addViews (ch_views chapter) pendingViews |}.

(** What the loop of [commandUpdateChapterViews] changes: [manga.chapters],
    [pendingData.chapters] and [hasChanges]. *)
Record ChapterViewsState : Type := {
  st_mangaChapters : option (JSObject ChapterRecord);
  st_pendingChapters : JSObject PendingChapter;
  st_hasChanges : bool
}.

(** The body of the [forEach] at lines 534-572; [CHAPTER_VIEW_THRESHOLD]
    is 1.  The counters [updatedChapters] and [updatedLockedChapters] are
    only printed.  [manga.chapters[chapterFolder]] is read as an own key:
    for a pending key that objects inherit, such as [toString], the script
    finds the inherited value instead ([inheritedName] below names these
    keys, and the statements about the loop exclude them). *)
Definition updateChapter (chapterFolder : string) (st : ChapterViewsState)
  : Cmd ChapterViewsState :=
  match obj_get (st_pendingChapters st) chapterFolder with
  | None => die
  | Some pendingChapterData =>
      let pendingViews := orZero (pc_pendingViews pendingChapterData) in
      match st_mangaChapters st with
      | None => die
      | Some mangaChapters =>
          match obj_get mangaChapters chapterFolder with
          | None => cret st
          | Some chapter =>
              if 1 <=? pendingViews then
                lastUpdate <- now w ;;
                cret {| st_mangaChapters :=
                          Some (obj_set mangaChapters chapterFolder
                                  (withChapterViews chapter pendingViews));
                        st_pendingChapters :=
                          obj_set (st_pendingChapters st) chapterFolder
                            {| pc_pendingViews := Some 0;
                               pc_lastUpdate := Some lastUpdate;
                               pc_rest := pc_rest pendingChapterData |};
                        st_hasChanges := true |}
              else cret st
          end
      end
  end.

(** Lines 515-589. *)
Definition commandUpdateChapterViews : Cmd unit :=
  _ <- ensurePendingFilesExist ;;
  pendingData <- loadJSON pending_chapter_views_json ;;
  mangaData <- loadJSON manga_json ;;
  match pendingData, mangaData with
  | Some pendingData, Some mangaData =>
      match pcv_chapters pendingData with
      | None => die
      | Some pendingChapters =>
          st <- cforEach (Object_keys pendingChapters) updateChapter
                  {| st_mangaChapters := chapters mangaData;
                     st_pendingChapters := pendingChapters;
                     st_hasChanges := false |} ;;
          if st_hasChanges st then
            lastUpdated <- now w ;;
            savedManga <- saveJSON h MangaJson
                 (fun d => set_manga_json d
                    (Holds {| manga := manga mangaData;
                              chapters := st_mangaChapters st;
                              lastUpdated := Some lastUpdated;
                              lastChapterUpdate :=
                                lastChapterUpdate mangaData |})) ;;
            if savedManga then
              savedPending <- saveJSON h PendingChapterViewsJson
                   (fun d => set_pending_chapter_views_json d
                      (Holds {| pcv_chapters := Some (st_pendingChapters st);
                                pcv_lastUpdated :=
                                  pcv_lastUpdated pendingData |})) ;;
              if savedPending then cret tt else exit 1
            else exit 1
          else cret tt
      end
  | _, _ => exit 1
  end.

(** Lines 600-609. *)
Definition ensureDailyViewsFile : Cmd unit :=
  d <- readDisk ;;
  if negb (fileExists (daily_views_json d)) then
    lastCleanup <- now w ;;
    _ <- saveJSON h DailyViewsJson
           (fun d => set_daily_views_json d
              (Holds {| dv_lastCleanup := Some lastCleanup;
                        dv_dailyRecords := Some [] |})) ;;
    cret tt
  else cret tt.

(** The body of the [forEach] at lines 639-647, on today's record.  The
    entry [chapters[chapterFolder]] is read as an own key and the sum is a
    sum of integers: the statements about the loop exclude the keys that
    objects inherit ([inheritedName] below) and sums that are not safe
    integers. *)
Definition recordChapter (pendingChapters : JSObject PendingChapter)
  (day : DayRecord) (chapterFolder : string) : DayRecord :=
  let views :=
    match obj_get pendingChapters chapterFolder with
    | Some pendingChapterData => orZero (pc_pendingViews pendingChapterData)
    | None => 0
    end in
  if 0 <? views then
    let count :=
      match obj_get (day_chapters day) chapterFolder with
      | Some n => n
      | None => 0
      end in
    {| day_manga := day_manga day;
       day_chapters := obj_set (day_chapters day) chapterFolder (count + views) |}
  else day.

(** Lines 611-652. *)
Definition commandRecordDaily : Cmd unit :=
  _ <- ensureDailyViewsFile ;;
  _ <- ensurePendingFilesExist ;;
  dailyViews <- loadJSON daily_views_json ;;
  pendingViews <- loadJSON pending_views_json ;;
  pendingChapterViews <- loadJSON pending_chapter_views_json ;;
  match dailyViews, pendingViews, pendingChapterViews with
  | Some dailyViews, Some pendingViews, Some pendingChapterViews =>
      let today := todayWIB h in
      match dv_dailyRecords dailyViews with
      | None => die
      | Some dailyRecords =>
          let day :=
            match obj_get dailyRecords today with
            | Some day => day
            | None => {| day_manga := 0; day_chapters := [] |}
            end in
          let mangaViews := orZero (pv_pendingViews pendingViews) in
          let day :=
            if 0 <? mangaViews
            then {| day_manga := day_manga day + mangaViews;
                    day_chapters := day_chapters day |}
            else day in
          let pendingChapters :=
            match pcv_chapters pendingChapterViews with
            | Some chs => chs
            | None => []
            end in
          let day :=
            fold_left (recordChapter pendingChapters)
              (Object_keys pendingChapters) day in
          _ <- saveJSON h DailyViewsJson
                 (fun d => set_daily_views_json d
                    (Holds {| dv_lastCleanup := dv_lastCleanup dailyViews;
                              dv_dailyRecords :=
                                Some (obj_set dailyRecords today day) |})) ;;
          cret tt
      end
  | _, _, _ => exit 1
  end.

(** The [forEach] at lines 667-672: the records kept and the number
    removed.  Date keys are compared as strings, byte by byte. *)
Definition removeOldRecords (cutoffStr : string)
  (dailyRecords : JSObject DayRecord) : JSObject DayRecord * nat :=
  fold_left
    (fun (acc : JSObject DayRecord * nat) dateKey =>
       if String.ltb dateKey cutoffStr
       then (obj_delete (fst acc) dateKey, S (snd acc))
       else acc)
    (Object_keys dailyRecords) (dailyRecords, 0%nat).

(** Lines 654-681. *)
Definition commandCleanupDaily : Cmd unit :=
  _ <- ensureDailyViewsFile ;;
  dailyViews <- loadJSON daily_views_json ;;
  match dailyViews with
  | None => die
  | Some dailyViews =>
      match dv_dailyRecords dailyViews with
      | None => die
      | Some dailyRecords =>
          let (kept, removed) := removeOldRecords (cutoffWIB h) dailyRecords in
          if (0 <? removed)%nat then
            lastCleanup <- now w ;;
            _ <- saveJSON h DailyViewsJson
                   (fun d => set_daily_views_json d
                      (Holds {| dv_lastCleanup := Some lastCleanup;
                                dv_dailyRecords := Some kept |})) ;;
            cret tt
          else cret tt
      end
  end.

(** Lines 687-724; [command] is [process.argv[2]]. *)
Definition main (command : option string) : Cmd unit :=
  match command with
  | Some c =>
      if (c =? "generate")%string then commandGenerate
      else if (c =? "update-views")%string then commandUpdateViews
      else if (c =? "update-chapters")%string then commandUpdateChapterViews
      else if (c =? "record-daily")%string then commandRecordDaily
      else if (c =? "cleanup-daily")%string then commandCleanupDaily
      else exit 1
  | None => exit 1
  end.
End Run.
End V62Cmd.

(* ================================================================= *)
(** ** The commands of v7.0 on the files *)

Module V70Cmd.
Section Run.
Variable w : World.
Variable h : Host.
Open Scope cmd_scope.

(** Lines 1049-1129: the whole [commandGenerate], files included.  Without
    a [lockedChapters] array, [generateChaptersData] throws a TypeError at
    its first use of [config.lockedChapters] (line 952 or 967), before any
    clock reading, and nothing catches it. *)
Definition commandGenerate : Cmd unit :=
  config <- loadConfig h ;;
  oldMangaData <- loadJSON manga_json ;;
  match config with
  | None => die
  | Some config =>
      mangaJSON <- lift (V70.commandGenerate w config oldMangaData) ;;
      saved <- saveJSON h MangaJson
                 (fun d => set_manga_json d (Holds mangaJSON)) ;;
      if saved then cret tt else exit 1
  end.

(** [fs.unlinkSync(file)] inside the [try] of lines 1149-1155: [true] when
    the file was removed, [false] when the call threw. *)
Definition unlinkSync (file : FileName) (remove : Disk -> Disk) : Cmd bool :=
  fun d t =>
    if canUnlink h file then (Goes true, remove d, t)
    else (Goes false, d, t).

(** Lines 1135-1172.  The result is [removed], the number the command
    prints. *)
Definition commandCleanup : Cmd nat :=
  d <- readDisk ;;
  removed <-
    (if fileExists (pending_views_json d) then
       ok <- unlinkSync PendingViewsJson
               (fun d => set_pending_views_json d Absent) ;;
       cret (if ok then 1%nat else 0%nat)
     else cret 0%nat) ;;
  d <- readDisk ;;
  removed <-
    (if fileExists (pending_chapter_views_json d) then
       ok <- unlinkSync PendingChapterViewsJson
               (fun d => set_pending_chapter_views_json d Absent) ;;
       cret (if ok then S removed else removed)
     else cret removed) ;;
  cret removed.

(** Lines 1178-1206. *)
Definition main (command : option string) : Cmd unit :=
  match command with
  | Some c =>
      if (c =? "generate")%string then commandGenerate
      else if (c =? "cleanup")%string then
        _ <- commandCleanup ;; cret tt
      else exit 1
  | None => exit 1
  end.
End Run.
End V70Cmd.

(* ================================================================= *)
(** ** Notions the further properties use *)

(** The comparator that puts array-index keys in ascending numeric order,
    on the keys themselves. *)
Definition indexOrder (a b : string) : JSNum :=
  Fin (inject_Z (digits_val 0 a - digits_val 0 b)).

(** A chapter whose pending counter [commandUpdateChapterViews] moves: it
    has a record in manga.json and a pending counter at the threshold. *)
Definition due (mangaChapters : JSObject ChapterRecord)
  (pendingChapters : JSObject PendingChapter) (k : string) : bool :=
  match obj_get mangaChapters k, obj_get pendingChapters k with
  | Some _, Some pendingChapterData =>
      1 <=? orZero (pc_pendingViews pendingChapterData)
  | _, _ => false
  end.

(** The state of the loop once the keys in [done] have been visited. *)
Definition loopInvariant (w : World) (m0 : JSObject ChapterRecord)
  (p0 : JSObject PendingChapter) (done : list string)
  (st : V62Cmd.ChapterViewsState) : Prop :=
  exists m,
    V62Cmd.st_mangaChapters st = Some m
    /\ map fst m = map fst m0
    /\ map fst (V62Cmd.st_pendingChapters st) = map fst p0
    /\ V62Cmd.st_hasChanges st = existsb (due m0 p0) done
    /\ (forall k, In k done -> due m0 p0 k = true ->
          exists chapter pendingChapterData n,
            obj_get m0 k = Some chapter
            /\ obj_get p0 k = Some pendingChapterData
            /\ obj_get m k
               = Some (V62Cmd.withChapterViews chapter
                         (orZero (pc_pendingViews pendingChapterData)))
            /\ obj_get (V62Cmd.st_pendingChapters st) k
               = Some {| pc_pendingViews := Some 0;
                         pc_lastUpdate := Some (clock w n);
                         pc_rest := pc_rest pendingChapterData |})
    /\ (forall k, ~ In k done \/ due m0 p0 k = false ->
          obj_get m k = obj_get m0 k
          /\ obj_get (V62Cmd.st_pendingChapters st) k = obj_get p0 k).

(** A daily record [commandCleanupDaily] keeps: its date key is not below
    the cutoff. *)
Definition keptDay (cutoffStr : string) (entry : string * DayRecord) : bool :=
  negb (String.ltb (fst entry) cutoffStr).





(** [Number.isSafeInteger]: on these integers, and as long as the sum is
    one of them, the addition of the script is the addition of integers. *)
Definition safeInteger (n : Z) : Prop := - 2 ^ 53 < n < 2 ^ 53.

(** The names every object inherits from [Object.prototype]: [o[k]] finds
    them whether or not [o] has a key [k]. *)
Definition inheritedNames : list string :=
  ["constructor"; "__defineGetter__"; "__defineSetter__"; "hasOwnProperty";
   "__lookupGetter__"; "__lookupSetter__"; "isPrototypeOf";
   "propertyIsEnumerable"; "toString"; "valueOf"; "__proto__";
   "toLocaleString"].

Definition inheritedName (k : string) : bool :=
  existsb (String.eqb k) inheritedNames.


(* ================================================================= *)
(** ** Concrete files *)

(** A machine whose manga-config.json is [exampleConfig []], where every
    file can be unlinked and [writable] tells which can be written; today is
    1 June 2025 and the cutoff of the daily records 25 May 2025. *)
Definition exampleHost (writable : FileName -> bool) : Host :=
  {| configFile := ConfigHolds (exampleConfig []);
     canWrite := writable;
     canUnlink := fun _ => true;
     todayWIB := "2025-06-01";
     cutoffWIB := "2025-05-25" |}.

Definition allWritable (file : FileName) : bool := true.

Definition pendingViewsReadOnly (file : FileName) : bool :=
  match file with
  | PendingViewsJson => false
  | _ => true
  end.

(** Chapter 1 with 2 pending views. *)
Definition examplePendingChapters : PendingChapterViews :=
  {| pcv_chapters :=
       Some [("1", {| pc_pendingViews := Some 2;
                      pc_lastUpdate := None;
                      pc_rest := [] |})];
     pcv_lastUpdated := None |}.

(** A disk whose manga.json has 7 work views and chapter 1 with 10 views,
    with the given pending work views and pending-chapter-views.json, and
    daily records for 20 May and 30 May 2025. *)
Definition exampleDisk (pendingViews : option Z)
  (pendingChapterViews : FileState PendingChapterViews) : Disk :=
  {| manga_json := Holds (exampleCatalog [("1", exampleRecord "1" false 10)]);
     pending_views_json :=
       Holds {| pv_pendingViews := pendingViews;
                pv_lastIncrement := Some "2025-05-31T08:00:00+07:00";
                pv_lastUpdate := None |};
     pending_chapter_views_json := pendingChapterViews;
     daily_views_json :=
       Holds {| dv_lastCleanup := None;
                dv_dailyRecords :=
                  Some [("2025-05-20",
                         {| day_manga := 4; day_chapters := [] |});
                        ("2025-05-30",
                         {| day_manga := 1;
                            day_chapters := [("1", 1)] |})] |} |}.

(* ================================================================= *)
(** * Proofs *)

(** ** Lists, objects and sorting *)

Lemma includes_In (arr : list string) (x : string) :
  includes arr x = true <-> In x arr.
Proof.
  unfold includes. rewrite existsb_exists. split.
  - intros [y [Hy E]]. apply String.eqb_eq in E. now subst.
  - intros H. exists x. split; [assumption | apply String.eqb_refl].
Qed.

Lemma includes_false (arr : list string) (x : string) :
  includes arr x = false <-> ~ In x arr.
Proof.
  rewrite <- includes_In. destruct (includes arr x); split; congruence.
Qed.

Lemma obj_get_set_same {V : Type} (o : JSObject V) (k : string) (v : V) :
  obj_get (obj_set o k v) k = Some v.
Proof.
  induction o as [| [k' v'] rest IH]; simpl.
  - now rewrite String.eqb_refl.
  - destruct (k' =? k)%string eqn:E; simpl.
    + now rewrite String.eqb_refl.
    + now rewrite E.
Qed.

Lemma obj_get_set_other {V : Type} (o : JSObject V) (k k' : string) (v : V) :
  k <> k' -> obj_get (obj_set o k v) k' = obj_get o k'.
Proof.
  intros Hne. induction o as [| [k0 v0] rest IH]; simpl.
  - apply String.eqb_neq in Hne. now rewrite Hne.
  - destruct (k0 =? k)%string eqn:E; simpl.
    + apply String.eqb_eq in E. subst k0.
      apply String.eqb_neq in Hne. now rewrite Hne.
    + now rewrite IH.
Qed.

Lemma obj_set_keys {V : Type} (o : JSObject V) (k : string) (v : V) (x : string) :
  In x (map fst (obj_set o k v)) <-> x = k \/ In x (map fst o).
Proof.
  induction o as [| [k0 v0] rest IH]; simpl.
  - intuition.
  - destruct (k0 =? k)%string eqn:E; simpl.
    + apply String.eqb_eq in E. subst. intuition.
    + rewrite IH. intuition.
Qed.

Lemma obj_set_NoDup {V : Type} (o : JSObject V) (k : string) (v : V) :
  NoDup (map fst o) -> NoDup (map fst (obj_set o k v)).
Proof.
  induction o as [| [k0 v0] rest IH]; simpl; intros H.
  - constructor; [intros [] | constructor].
  - inversion H as [| ? ? Hnin Hnd]; subst.
    destruct (k0 =? k)%string eqn:E; simpl.
    + apply String.eqb_eq in E. subst. now constructor.
    + constructor; [| now apply IH].
      rewrite obj_set_keys. intros [-> | Hin]; [| contradiction].
      now rewrite String.eqb_refl in E.
Qed.

Lemma obj_get_In {V : Type} (o : JSObject V) (k : string) (v : V) :
  obj_get o k = Some v -> In (k, v) o.
Proof.
  induction o as [| [k0 v0] rest IH]; simpl; [discriminate |].
  destruct (k0 =? k)%string eqn:E.
  - apply String.eqb_eq in E. intros [= ->]. subst. now left.
  - intros H. right. now apply IH.
Qed.

Lemma In_obj_get {V : Type} (o : JSObject V) (k : string) (v : V) :
  NoDup (map fst o) -> In (k, v) o -> obj_get o k = Some v.
Proof.
  induction o as [| [k0 v0] rest IH]; simpl; [intros _ [] |].
  intros Hnd [Heq | Hin]; inversion Hnd as [| ? ? Hnin Hnd']; subst.
  - injection Heq as -> ->. now rewrite String.eqb_refl.
  - destruct (k0 =? k)%string eqn:E; [| now apply IH].
    apply String.eqb_eq in E. subst k0. exfalso. apply Hnin.
    change k with (fst (k, v)). now apply in_map.
Qed.

Lemma obj_get_None {V : Type} (o : JSObject V) (k : string) :
  obj_get o k = None <-> ~ In k (map fst o).
Proof.
  induction o as [| [k0 v0] rest IH]; simpl.
  - intuition.
  - destruct (k0 =? k)%string eqn:E.
    + apply String.eqb_eq in E. subst. split; [discriminate | intuition].
    + apply String.eqb_neq in E. rewrite IH. intuition.
Qed.

Section SortFacts.
Context {A : Type} (comparefn : A -> A -> JSNum).

Lemma sort_insert_perm (x : A) (l : list A) :
  Permutation (sort_insert comparefn x l) (x :: l).
Proof.
  induction l as [| y rest IH]; simpl; [reflexivity |].
  destruct (num_neg (comparefn x y)); [reflexivity |].
  rewrite IH. apply perm_swap.
Qed.

Lemma Array_sort_perm (l : list A) : Permutation (Array_sort comparefn l) l.
Proof.
  unfold Array_sort.
  assert (G : forall acc, Permutation
            (fold_left (fun acc x => sort_insert comparefn x acc) l acc)
            (acc ++ l)).
  { induction l as [| x rest IH]; intros acc; simpl.
    - now rewrite app_nil_r.
    - rewrite IH, sort_insert_perm. apply Permutation_middle. }
  apply (G []).
Qed.

Lemma Array_sort_In (l : list A) (x : A) :
  In x (Array_sort comparefn l) <-> In x l.
Proof.
  split; apply Permutation_in;
    [apply Array_sort_perm | symmetry; apply Array_sort_perm].
Qed.

(** When the comparator decides a transitive order on the elements present,
    the result is in that order. *)
Variable P : A -> Prop.
Variable le : A -> A -> Prop.
Hypothesis le_trans : forall x y z, le x y -> le y z -> le x z.
Hypothesis neg_le : forall x y,
  P x -> P y -> num_neg (comparefn x y) = true -> le x y.
Hypothesis nonneg_le : forall x y,
  P x -> P y -> num_neg (comparefn x y) = false -> le y x.

Lemma sort_insert_sorted (x : A) (l : list A) :
  P x -> Forall P l -> StronglySorted le l ->
  StronglySorted le (sort_insert comparefn x l).
Proof.
  intros Px Pl Hs. induction Hs as [| y rest Hrest IH Hy]; simpl.
  - constructor; constructor.
  - inversion Pl as [| ? ? Py Prest]; subst.
    destruct (num_neg (comparefn x y)) eqn:E.
    + constructor; [now constructor |].
      assert (Hxy : le x y) by now apply neg_le.
      constructor; [assumption |].
      eapply Forall_impl; [| exact Hy]. intros z Hz. now apply le_trans with y.
    + constructor; [now apply IH |].
      assert (Hyx : le y x) by now apply nonneg_le.
      apply Forall_forall. intros z Hz.
      apply (Permutation_in _ (sort_insert_perm x rest)) in Hz.
      destruct Hz as [<- | Hz]; [assumption |].
      rewrite Forall_forall in Hy. now apply Hy.
Qed.

Lemma Array_sort_sorted (l : list A) :
  Forall P l -> StronglySorted le (Array_sort comparefn l).
Proof.
  unfold Array_sort.
  assert (G : forall acc, Forall P l -> Forall P acc -> StronglySorted le acc ->
            StronglySorted le
              (fold_left (fun acc x => sort_insert comparefn x acc) l acc)).
  { induction l as [| x rest IH]; intros acc Hl Hacc Hs; simpl; [assumption |].
    inversion Hl as [| ? ? Px Prest]; subst.
    apply IH; [assumption | | now apply sort_insert_sorted].
    apply Forall_forall. intros z Hz.
    apply (Permutation_in _ (sort_insert_perm x acc)) in Hz.
    destruct Hz as [<- | Hz]; [assumption |].
    rewrite Forall_forall in Hacc. now apply Hacc. }
  intros Hl. apply G; [assumption | constructor | constructor].
Qed.
End SortFacts.

Lemma Set_from_acc_In (arr seen : list string) (x : string) :
  In x (Set_from_acc seen arr) <-> In x arr /\ ~ In x seen.
Proof.
  revert seen. induction arr as [| y rest IH]; intros seen; simpl.
  - intuition.
  - destruct (includes seen y) eqn:E.
    + apply includes_In in E. rewrite IH. split.
      * intuition.
      * intros [[-> | H] Hn]; [contradiction | auto].
    + apply includes_false in E. simpl. rewrite IH. simpl. split.
      * intros [-> | [H Hn]]; [auto | intuition].
      * intros [[-> | H] Hn]; [now left |].
        destruct (string_dec y x) as [-> | Hne]; [now left |].
        right. split; [assumption |]. intros [Heq | Hin]; auto.
Qed.

Lemma Set_from_In (arr : list string) (x : string) :
  In x (Set_from arr) <-> In x arr.
Proof.
  unfold Set_from. rewrite Set_from_acc_In. simpl. intuition.
Qed.

Lemma Set_from_NoDup (arr : list string) : NoDup (Set_from arr).
Proof.
  unfold Set_from. generalize (@nil string) as seen.
  induction arr as [| y rest IH]; intros seen; simpl; [constructor |].
  destruct (includes seen y); [apply IH |].
  constructor; [| apply IH].
  rewrite Set_from_acc_In. simpl. intuition.
Qed.

Lemma partition_perm {A : Type} (f : A -> bool) (l yes no : list A) :
  partition f l = (yes, no) -> Permutation (yes ++ no) l.
Proof.
  revert yes no. induction l as [| x rest IH]; simpl; intros yes no H.
  - injection H as <- <-. constructor.
  - destruct (partition f rest) as [a b].
    destruct (f x); injection H as <- <-.
    + simpl. constructor. now apply IH.
    + rewrite <- Permutation_middle. constructor. now apply IH.
Qed.

Lemma Object_entries_perm {V : Type} (o : JSObject V) :
  Permutation (Object_entries o) o.
Proof.
  unfold Object_entries.
  destruct (partition (fun kv => is_array_index (fst kv)) o) as [ixs strs] eqn:E.
  rewrite Array_sort_perm. now apply partition_perm in E.
Qed.

Lemma Object_values_In {V : Type} (o : JSObject V) (v : V) :
  In v (Object_values o) <-> exists k, In (k, v) o.
Proof.
  unfold Object_values. rewrite in_map_iff. split.
  - intros [[k v'] [<- H]]. exists k.
    now apply (Permutation_in _ (Object_entries_perm o)).
  - intros [k H]. exists (k, v). split; [reflexivity |].
    now apply (Permutation_in _ (Permutation_sym (Object_entries_perm o))).
Qed.

Lemma Object_keys_In {V : Type} (o : JSObject V) (k : string) :
  In k (Object_keys o) <-> In k (map fst o).
Proof.
  unfold Object_keys.
  split; apply Permutation_in; apply Permutation_map;
    [| symmetry]; apply Object_entries_perm.
Qed.

(** ** The clock and exceptions *)

Lemma getUploadDate_returns (w : World) (folderName : string) (isLocked : bool)
  (t : nat) :
  exists d t', getUploadDate w folderName isLocked t = (Normal (Some d), t')
               /\ (t <= t')%nat.
Proof.
  unfold getUploadDate, tryCatch, bind, execSync, statSync_mtime, convertToWIB,
    getWIBTimestamp, ret, throw.
  destruct isLocked; simpl;
    repeat match goal with
      | |- context [match ?x with ExecThrows => _ | ExecOutput _ => _ end] =>
          destruct x; simpl
      | |- context [truthy_str ?s] => destruct (truthy_str s) eqn:?; simpl
      | |- context [statMtime ?a ?b] =>
          destruct (statMtime a b) as [[? ?] |]; simpl
      end;
    eauto.
Qed.

Section CoreFacts.
Variable w : World.
Variable viewsOf : string -> JSVal.
Variable config : Config.
Variable oldMangaData : option MangaJSON.

Lemma chooseUploadDate_returns (chapterName : string) (t : nat) :
  exists d t',
    chooseUploadDate w config oldMangaData chapterName t = (Normal (Some d), t')
    /\ (t <= t')%nat.
Proof.
  unfold chooseUploadDate.
  destruct (includes (cfg_lockedChapters config) chapterName
            && negb (checkIfFolderExists w chapterName)).
  - destruct (oldChapterOf oldMangaData chapterName) as [oc |].
    + destruct (ch_uploadDate oc) as [d |] eqn:E; simpl.
      * destruct (truthy_str d); [exists d, t | exists (clock w t), (S t)];
          split; auto.
      * exists (clock w t), (S t). split; auto.
    + exists (clock w t), (S t). split; auto.
  - destruct (checkIfFolderExists w chapterName).
    + apply getUploadDate_returns.
    + exists (clock w t), (S t). split; auto.
Qed.

(** What a locked identity without a folder gets as its date. *)
Lemma chooseUploadDate_locked_absent (chapterName : string) (t : nat) :
  includes (cfg_lockedChapters config) chapterName = true ->
  checkIfFolderExists w chapterName = false ->
  chooseUploadDate w config oldMangaData chapterName t =
    match oldChapterOf oldMangaData chapterName with
    | Some oldChapter =>
        if truthy_opt (ch_uploadDate oldChapter)
        then (Normal (ch_uploadDate oldChapter), t)
        else (Normal (Some (clock w t)), S t)
    | None => (Normal (Some (clock w t)), S t)
    end.
Proof.
  intros Hl Hf. unfold chooseUploadDate. rewrite Hl, Hf. simpl.
  destruct (oldChapterOf oldMangaData chapterName) as [oc |]; [| reflexivity].
  destruct (truthy_opt (ch_uploadDate oc)); reflexivity.
Qed.

(** The loop never throws; every name it visits ends up with the record the
    body builds for it at some moment of the loop, and nothing else is
    touched. *)
Lemma forEach_processChapterWith (names : list string) :
  forall (chs : JSObject ChapterRecord) (t : nat),
  exists chs' t',
    forEach names (processChapterWith w viewsOf config oldMangaData) chs t
      = (Normal chs', t')
    /\ (t <= t')%nat
    /\ (forall k, ~ In k names -> obj_get chs' k = obj_get chs k)
    /\ (forall k, In k names ->
          exists d t1 t2,
            obj_get chs' k = Some (recordFor w viewsOf config k (Some d))
            /\ chooseUploadDate w config oldMangaData k t1 = (Normal (Some d), t2)
            /\ (t <= t1)%nat /\ (t2 <= t')%nat)
    /\ (NoDup (map fst chs) -> NoDup (map fst chs'))
    /\ (forall k, In k (map fst chs') <-> In k names \/ In k (map fst chs)).
Proof.
  induction names as [| x rest IH]; intros chs t.
  - exists chs, t. simpl. unfold ret. repeat split; auto; tauto.
  - destruct (chooseUploadDate_returns x t) as (d & t1 & Hd & Hle).
    destruct (IH (obj_set chs x (recordFor w viewsOf config x (Some d))) t1)
      as (chs' & t' & Hrun & Hle' & Hother & Hin & Hnd & Hkeys).
    exists chs', t'.
    assert (Hstep : forEach (x :: rest)
              (processChapterWith w viewsOf config oldMangaData) chs t
              = (Normal chs', t')).
    { simpl. unfold bind at 1. unfold processChapterWith at 1.
      unfold bind at 1. rewrite Hd. simpl. exact Hrun. }
    split; [exact Hstep |].
    split; [lia |].
    split; [| split; [| split]].
    + intros k Hk. rewrite Hother by (intros H; apply Hk; now right).
      apply obj_get_set_other. intros ->. apply Hk. now left.
    + intros k Hk.
      destruct (in_dec string_dec k rest) as [Hr | Hr].
      * destruct (Hin k Hr) as (d' & a & b & H1 & H2 & H3 & H4).
        exists d', a, b. repeat split; auto. lia.
      * destruct Hk as [-> | Hk]; [| contradiction].
        exists d, t, t1. rewrite (Hother k Hr), obj_get_set_same.
        repeat split; auto.
    + intros H. apply Hnd. now apply obj_set_NoDup.
    + intros k. rewrite Hkeys, obj_set_keys. simpl. intuition.
Qed.

(** The closing statements never throw either: a sorted non-empty array has
    a first element. *)
Lemma lastChapterUpdateOf_returns (chs : JSObject ChapterRecord) (t : nat) :
  exists last t', lastChapterUpdateOf w chs t = (Normal last, t')
                  /\ (t <= t')%nat.
Proof.
  unfold lastChapterUpdateOf.
  set (dates := map _ (Object_values chs)).
  destruct (0 <? List.length dates)%nat eqn:E.
  - destruct (Array_sort (byDateDesc w) dates) as [| first tl] eqn:Es.
    + apply Nat.ltb_lt in E.
      pose proof (Permutation_length (Array_sort_perm (byDateDesc w) dates)) as L.
      rewrite Es in L. simpl in L. lia.
    + exists (cd_uploadDate first), t. split; auto.
  - exists (Some (clock w t)), (S t). split; auto.
Qed.

Lemma generateChaptersDataWith_returns (t : nat) :
  exists chs last t1 t',
    generateChaptersDataWith w viewsOf config oldMangaData t
      = (Normal (chs, last), t')
    /\ forEach (sortedChapterNames w config)
         (processChapterWith w viewsOf config oldMangaData) [] t
       = (Normal chs, t1)
    /\ lastChapterUpdateOf w chs t1 = (Normal last, t')
    /\ (t <= t1)%nat /\ (t1 <= t')%nat.
Proof.
  destruct (forEach_processChapterWith (sortedChapterNames w config) [] t)
    as (chs & t1 & Hrun & Hle & _).
  destruct (lastChapterUpdateOf_returns chs t1) as (last & t' & Hlast & Hle').
  exists chs, last, t1, t'. repeat split; auto.
  unfold generateChaptersDataWith, bind. now rewrite Hrun, Hlast.
Qed.
End CoreFacts.

Lemma sortedChapterNames_In (w : World) (config : Config) (k : string) :
  In k (sortedChapterNames w config) <->
  In k (getChapterFolders w) \/ In k (cfg_lockedChapters config).
Proof.
  unfold sortedChapterNames.
  now rewrite Array_sort_In, Set_from_In, in_app_iff.
Qed.

Lemma V62_generateChaptersData_unfold (w : World) (config : Config)
  (oldMangaData : option MangaJSON) (isFirstTime : bool) :
  V62.generateChaptersData w config oldMangaData isFirstTime
  = generateChaptersDataWith w
      (fun chapterName =>
         if isFirstTime then JNum 0
         else V62.getOldChapterViews chapterName oldMangaData)
      config oldMangaData.
Proof. reflexivity. Qed.

Lemma V70_generateChaptersData_unfold (w : World) (config : Config)
  (oldMangaData : option MangaJSON) :
  V70.generateChaptersData w config oldMangaData
  = generateChaptersDataWith w
      (fun chapterName => V70.getOldChapterViews chapterName oldMangaData)
      config oldMangaData.
Proof. reflexivity. Qed.

(** ** What a run produces *)

(** A run returns; its map has one entry per name of the working set, each
    the record the loop body builds for that name. *)
Lemma generateChaptersDataWith_records (w : World) (viewsOf : string -> JSVal)
  (config : Config) (oldMangaData : option MangaJSON) (t : nat) :
  exists chs last t1 t',
    generateChaptersDataWith w viewsOf config oldMangaData t
      = (Normal (chs, last), t')
    /\ lastChapterUpdateOf w chs t1 = (Normal last, t')
    /\ (t <= t1)%nat /\ (t1 <= t')%nat
    /\ NoDup (map fst chs)
    /\ (forall k, In k (map fst chs) <->
                  In k (getChapterFolders w) \/ In k (cfg_lockedChapters config))
    /\ (forall k r, obj_get chs k = Some r ->
          exists d ta tb,
            r = recordFor w viewsOf config k (Some d)
            /\ chooseUploadDate w config oldMangaData k ta = (Normal (Some d), tb)
            /\ (t <= ta)%nat /\ (tb <= t1)%nat)
    /\ (chs = [] -> t1 = t).
Proof.
  destruct (generateChaptersDataWith_returns w viewsOf config oldMangaData t)
    as (chs & last & t1 & t' & Hrun & Hloop & Hlast & Hle & Hle').
  destruct (forEach_processChapterWith w viewsOf config oldMangaData
              (sortedChapterNames w config) [] t)
    as (chs0 & t0 & Hloop0 & _ & _ & Hin & Hnd & Hkeys).
  rewrite Hloop in Hloop0. injection Hloop0 as <- <-.
  exists chs, last, t1, t'.
  assert (K : forall k, In k (map fst chs) <->
                In k (getChapterFolders w) \/ In k (cfg_lockedChapters config)).
  { intros k. rewrite Hkeys, sortedChapterNames_In. simpl. tauto. }
  repeat split; auto; try (apply K); try (apply Hnd; constructor).
  - intros k r Hget.
    assert (Hk : In k (sortedChapterNames w config)).
    { apply sortedChapterNames_In, K.
      apply obj_get_In in Hget. change k with (fst (k, r)). now apply in_map. }
    destruct (Hin k Hk) as (d & ta & tb & H1 & H2 & H3 & H4).
    exists d, ta, tb. rewrite H1 in Hget. injection Hget as <-. auto.
  - intros ->.
    destruct (sortedChapterNames w config) as [| x rest] eqn:E.
    + simpl in Hloop. unfold ret in Hloop. now injection Hloop as <-.
    + exfalso. assert (Hx : In x (map fst (@nil (string * ChapterRecord)))).
      { apply Hkeys. left. now left. }
      inversion Hx.
Qed.

Lemma getChapterFolders_exist (w : World) (k : string) :
  fs_consistent w -> In k (getChapterFolders w) ->
  checkIfFolderExists w k = true.
Proof.
  unfold getChapterFolders, checkIfFolderExists. intros Hfs Hin.
  destruct (readdirSync w) as [dirents |] eqn:E; [| inversion Hin].
  apply Array_sort_In in Hin. apply filter_In in Hin. destruct Hin as [Hin _].
  apply in_map_iff in Hin. destruct Hin as (dirent & <- & Hin).
  apply filter_In in Hin. destruct Hin as [Hin _].
  apply filter_In in Hin. destruct Hin as [Hin _].
  now apply (Hfs dirents).
Qed.

Lemma getChapterFolders_valid (w : World) (k : string) :
  In k (getChapterFolders w) -> validIdentity k = true.
Proof.
  unfold getChapterFolders. intros Hin.
  destruct (readdirSync w) as [dirents |]; [| inversion Hin].
  apply Array_sort_In in Hin. apply filter_In in Hin. now destruct Hin.
Qed.

Lemma removedLockedChapters_In (w : World) (config : Config)
  (oldMangaData : option MangaJSON) (k : string) :
  In k (removedLockedChapters w config oldMangaData) ->
  exists oldChapter,
    oldChapterOf oldMangaData k = Some oldChapter
    /\ ch_locked oldChapter = true
    /\ checkIfFolderExists w k = false
    /\ includes (cfg_lockedChapters config) k = false.
Proof.
  unfold removedLockedChapters, oldChapterOf.
  destruct oldMangaData as [old |]; [| intros []].
  destruct (chapters old) as [chs |]; [| intros []].
  intros H. apply filter_In in H. destruct H as [_ H].
  destruct (obj_get chs k) as [oc |]; [| discriminate].
  exists oc. split; [reflexivity |].
  destruct (ch_locked oc), (checkIfFolderExists w k),
    (includes (cfg_lockedChapters config) k); simpl in H; auto; discriminate.
Qed.

(** ** Lock state, working set and page counts *)

(** C2.  In the chapter map either script generates, every record's [locked]
    flag is the membership of its identity in the configuration's
    [lockedChapters]; the previous catalog, the first-run flag, the storage
    and the kind of identity (oneshot or numbered) play no part. *)
Theorem C2_locked_is_list_membership :
  forall (w : World) (config : Config) (oldMangaData : option MangaJSON)
         (isFirstTime : bool) (t : nat),
    (exists chs last t',
        V62.generateChaptersData w config oldMangaData isFirstTime t
          = (Normal (chs, last), t')
        /\ forall k r, obj_get chs k = Some r ->
             ch_locked r = includes (cfg_lockedChapters config) k)
    /\ (exists chs last t',
        V70.generateChaptersData w config oldMangaData t
          = (Normal (chs, last), t')
        /\ forall k r, obj_get chs k = Some r ->
             ch_locked r = includes (cfg_lockedChapters config) k).
Proof.
  intros w config old ft t. split.
  - rewrite V62_generateChaptersData_unfold.
    destruct (generateChaptersDataWith_records w
                (fun n => if ft then JNum 0 else V62.getOldChapterViews n old)
                config old t)
      as (chs & last & t1 & t' & Hrun & _ & _ & _ & _ & _ & Hrec & _).
    exists chs, last, t'. split; [exact Hrun |].
    intros k r Hget. destruct (Hrec k r Hget) as (d & ? & ? & -> & _).
    reflexivity.
  - rewrite V70_generateChaptersData_unfold.
    destruct (generateChaptersDataWith_records w
                (fun n => V70.getOldChapterViews n old) config old t)
      as (chs & last & t1 & t' & Hrun & _ & _ & _ & _ & _ & Hrec & _).
    exists chs, last, t'. split; [exact Hrun |].
    intros k r Hget. destruct (Hrec k r Hget) as (d & ? & ? & -> & _).
    reflexivity.
Qed.

(** C10.  When the storage is one snapshot ([fs_consistent]), every record
    of the generated map that is not locked belongs to an identity whose
    folder exists: the map's identities are exactly the enumerated folders
    and the [lockedChapters], so a record without a folder is locked.  The
    [lockedChapters] are taken not to name [__proto__], for which the
    assignment creates no key. *)
Theorem C10_unlocked_records_have_folders :
  forall (w : World) (config : Config) (oldMangaData : option MangaJSON)
         (isFirstTime : bool) (t : nat),
    fs_consistent w ->
    ~ In "__proto__" (cfg_lockedChapters config) ->
    exists chs last t',
      V62.generateChaptersData w config oldMangaData isFirstTime t
        = (Normal (chs, last), t')
      /\ (forall k, obj_get chs k <> None <->
                    In k (getChapterFolders w)
                    \/ In k (cfg_lockedChapters config))
      /\ (forall k r, obj_get chs k = Some r -> ch_locked r = false ->
                      checkIfFolderExists w k = true)
      /\ (forall k r, obj_get chs k = Some r ->
                      checkIfFolderExists w k = false -> ch_locked r = true).
Proof.
  intros w config old ft t Hfs _.
  rewrite V62_generateChaptersData_unfold.
  destruct (generateChaptersDataWith_records w
              (fun n => if ft then JNum 0 else V62.getOldChapterViews n old)
              config old t)
    as (chs & last & t1 & t' & Hrun & _ & _ & _ & _ & Hkeys & Hrec & _).
  exists chs, last, t'. split; [exact Hrun |].
  assert (U : forall k r, obj_get chs k = Some r -> ch_locked r = false ->
                checkIfFolderExists w k = true).
  { intros k r Hget Hl.
    destruct (Hrec k r Hget) as (d & ? & ? & -> & _). simpl in Hl.
    apply includes_false in Hl.
    assert (Hk : In k (map fst chs)).
    { apply obj_get_In in Hget. change k with (fst (k, recordFor w
        (fun n => if ft then JNum 0 else V62.getOldChapterViews n old)
        config k (Some d))). now apply in_map. }
    apply Hkeys in Hk. destruct Hk as [Hk | Hk]; [| contradiction].
    now apply getChapterFolders_exist. }
  split; [| split; [exact U |]].
  - intros k. rewrite <- Hkeys. split.
    + intros H. destruct (in_dec string_dec k (map fst chs)) as [| Hn]; auto.
      apply obj_get_None in Hn. contradiction.
    + intros Hin Hnone. apply obj_get_None in Hnone. contradiction.
  - intros k r Hget Hf. destruct (ch_locked r) eqn:E; [reflexivity |].
    rewrite (U k r Hget E) in Hf. discriminate.
Qed.

(** C7.  A record's [totalPages] is 0 when the identity's folder is absent
    and otherwise what [getTotalPagesFromManifest] reads: 0 for a missing or
    unreadable manifest, else the first truthy of [total_pages] and
    [totalPages], else the length of a [pages] array, else 0.  None of this
    makes the run throw. *)
Theorem C7_page_count :
  forall (w : World) (config : Config) (oldMangaData : option MangaJSON)
         (isFirstTime : bool) (t : nat),
    (exists chs last t',
        V62.generateChaptersData w config oldMangaData isFirstTime t
          = (Normal (chs, last), t')
        /\ forall k r, obj_get chs k = Some r ->
             ch_totalPages r =
               if checkIfFolderExists w k then getTotalPagesFromManifest w k
               else JNum 0)
    /\ (forall k, manifestFile w k = ManifestMissing ->
                  getTotalPagesFromManifest w k = JNum 0)
    /\ (forall k, manifestFile w k = ManifestUnreadable ->
                  getTotalPagesFromManifest w k = JNum 0)
    /\ (forall k fields,
          manifestFile w k = ManifestParsed (JObj fields) ->
          let doc := JObj fields in
          (truthy (prop doc "total_pages") = true ->
             getTotalPagesFromManifest w k = prop doc "total_pages")
          /\ (truthy (prop doc "total_pages") = false ->
              truthy (prop doc "totalPages") = true ->
              getTotalPagesFromManifest w k = prop doc "totalPages")
          /\ (truthy (prop doc "total_pages") = false ->
              truthy (prop doc "totalPages") = false ->
              forall pages, prop doc "pages" = JArr pages ->
              getTotalPagesFromManifest w k = JNum (Z.of_nat (List.length pages)))
          /\ (truthy (prop doc "total_pages") = false ->
              truthy (prop doc "totalPages") = false ->
              truthy (prop doc "pages") = false ->
              getTotalPagesFromManifest w k = JNum 0)).
Proof.
  intros w config old ft t. split; [| split; [| split]].
  - rewrite V62_generateChaptersData_unfold.
    destruct (generateChaptersDataWith_records w
                (fun n => if ft then JNum 0 else V62.getOldChapterViews n old)
                config old t)
      as (chs & last & t1 & t' & Hrun & _ & _ & _ & _ & _ & Hrec & _).
    exists chs, last, t'. split; [exact Hrun |].
    intros k r Hget. destruct (Hrec k r Hget) as (d & ? & ? & -> & _).
    reflexivity.
  - intros k H. unfold getTotalPagesFromManifest, loadManifest. now rewrite H.
  - intros k H. unfold getTotalPagesFromManifest, loadManifest. now rewrite H.
  - intros k fields H doc.
    unfold getTotalPagesFromManifest, loadManifest. rewrite H.
    fold doc. change (truthy doc) with true. cbv iota. unfold js_or.
    repeat split.
    + intros H1. repeat (rewrite H1; cbv iota). reflexivity.
    + intros H1 H2. repeat (first [rewrite H1 | rewrite H2]; cbv iota).
      reflexivity.
    + intros H1 H2 pages Hp.
      repeat (first [rewrite H1 | rewrite H2 | rewrite Hp]; cbv iota).
      reflexivity.
    + intros H1 H2 H3.
      repeat (first [rewrite H1 | rewrite H2 | rewrite H3]; cbv iota).
      reflexivity.
Qed.

(** C7 on the scenario of folders 3.5 and 4: the manifest of 3.5 reports 20
    pages, 4 has no manifest. *)
Lemma C7_witness :
  exists chs last t' r1 r2,
    V62.generateChaptersData (exampleWorld ["3.5"; "4"]) (exampleConfig [])
      None true 0%nat = (Normal (chs, last), t')
    /\ obj_get chs "3.5" = Some r1 /\ ch_totalPages r1 = JNum 20
    /\ obj_get chs "4" = Some r2 /\ ch_totalPages r2 = JNum 0.
Proof.
  destruct (C7_page_count (exampleWorld ["3.5"; "4"]) (exampleConfig [])
              None true 0%nat)
    as ((chs & last & t' & Hrun & Hpages) & _).
  vm_compute in Hrun. injection Hrun as <- <- <-.
  do 5 eexists. split; [reflexivity |].
  split; [reflexivity |]. split; [exact (Hpages "3.5" _ eq_refl) |].
  split; [reflexivity |]. exact (Hpages "4" _ eq_refl).
Defined.

Lemma exampleWorld_consistent (folders : list string) :
  fs_consistent (exampleWorld folders).
Proof.
  intros dirents dirent H Hin. simpl in H. injection H as <-.
  apply in_map_iff in Hin. destruct Hin as (n & <- & Hin).
  simpl. now apply includes_In.
Defined.

(** C10 on a storage with folders 1 and 2, chapters 2 and 5 locked. *)
Lemma C10_witness :
  exists chs last t',
    V62.generateChaptersData (exampleWorld ["1"; "2"]) (exampleConfig ["2"; "5"])
      (Some (exampleCatalog [("5", exampleRecord "5" true 40)])) false 0%nat
      = (Normal (chs, last), t')
    /\ (forall k, obj_get chs k <> None <->
                  In k (getChapterFolders (exampleWorld ["1"; "2"]))
                  \/ In k (cfg_lockedChapters (exampleConfig ["2"; "5"])))
    /\ (forall k r, obj_get chs k = Some r -> ch_locked r = false ->
                    checkIfFolderExists (exampleWorld ["1"; "2"]) k = true)
    /\ (forall k r, obj_get chs k = Some r ->
                    checkIfFolderExists (exampleWorld ["1"; "2"]) k = false ->
                    ch_locked r = true).
Proof.
  apply C10_unlocked_records_have_folders;
    [apply exampleWorld_consistent | intros [H | [H | []]]; discriminate H].
Defined.

(** ** Which previous records disappear *)

(** C1, as the code has it.  The new map's identities are the enumerated
    folders and the [lockedChapters] and nothing else, so a previous record
    is missing from it exactly when its identity is in neither list.  That
    covers every identity the pre-pass reports (previous [locked], folder
    gone, not in [lockedChapters]) when the storage is one snapshot, and the
    pre-pass reports exactly the previous records of that kind.  The
    [lockedChapters] are taken not to name [__proto__]: assigning that
    property creates no key. *)
Theorem C1_absent_iff_outside_working_set :
  forall (w : World) (config : Config) (oldMangaData : option MangaJSON)
         (isFirstTime : bool) (t : nat),
  ~ In "__proto__" (cfg_lockedChapters config) ->
  exists chs last t',
    V62.generateChaptersData w config oldMangaData isFirstTime t
      = (Normal (chs, last), t')
    /\ (forall k oldChapter,
          oldChapterOf oldMangaData k = Some oldChapter ->
          (obj_get chs k = None <->
           ~ In k (getChapterFolders w)
           /\ ~ In k (cfg_lockedChapters config)))
    /\ (forall k oldChapter,
          oldChapterOf oldMangaData k = Some oldChapter ->
          (In k (removedLockedChapters w config oldMangaData) <->
           ch_locked oldChapter = true
           /\ checkIfFolderExists w k = false
           /\ ~ In k (cfg_lockedChapters config)))
    /\ (fs_consistent w ->
        forall k, In k (removedLockedChapters w config oldMangaData) ->
                  obj_get chs k = None).
Proof.
  intros w config old ft t _.
  rewrite V62_generateChaptersData_unfold.
  destruct (generateChaptersDataWith_records w
              (fun n => if ft then JNum 0 else V62.getOldChapterViews n old)
              config old t)
    as (chs & last & t1 & t' & Hrun & _ & _ & _ & _ & Hkeys & _ & _).
  exists chs, last, t'. split; [exact Hrun |].
  assert (A : forall k, obj_get chs k = None <->
                ~ In k (getChapterFolders w)
                /\ ~ In k (cfg_lockedChapters config)).
  { intros k. rewrite obj_get_None, Hkeys. tauto. }
  split; [| split].
  - intros k oc _. apply A.
  - intros k oc Hold. split.
    + intros H. apply removedLockedChapters_In in H.
      destruct H as (oc' & Hold' & Hl & Hf & Hc).
      rewrite Hold in Hold'. injection Hold' as <-.
      apply includes_false in Hc. auto.
    + intros (Hl & Hf & Hc). apply includes_false in Hc.
      unfold removedLockedChapters. unfold oldChapterOf in Hold.
      destruct old as [o |]; [| discriminate].
      destruct (chapters o) as [ochs |]; [| discriminate].
      apply filter_In. split.
      * apply Object_keys_In. apply obj_get_In in Hold.
        change k with (fst (k, oc)). now apply in_map.
      * rewrite Hold, Hl, Hf, Hc. reflexivity.
  - intros Hfs k H. apply removedLockedChapters_In in H.
    destruct H as (oc & _ & _ & Hf & Hc). apply A. split.
    + intros Hin. apply (getChapterFolders_exist w k Hfs) in Hin. congruence.
    + now apply includes_false.
Qed.

(** C1 on the scenario of chapter 5: previously locked, folder gone, no
    longer in [lockedChapters]. *)
Lemma C1_witness :
  exists chs last t',
    V62.generateChaptersData (exampleWorld ["1"]) (exampleConfig [])
      (Some (exampleCatalog [("5", exampleRecord "5" true 40)])) false 0%nat
      = (Normal (chs, last), t')
    /\ In "5" (removedLockedChapters (exampleWorld ["1"]) (exampleConfig [])
                 (Some (exampleCatalog [("5", exampleRecord "5" true 40)])))
    /\ obj_get chs "5" = None
    /\ obj_get chs "1" <> None.
Proof.
  destruct (C1_absent_iff_outside_working_set (exampleWorld ["1"])
              (exampleConfig [])
              (Some (exampleCatalog [("5", exampleRecord "5" true 40)]))
              false 0%nat (fun H => H))
    as (chs & last & t' & Hrun & _ & _ & Hstale).
  exists chs, last, t'. split; [exact Hrun |].
  assert (H5 : In "5" (removedLockedChapters (exampleWorld ["1"])
                 (exampleConfig [])
                 (Some (exampleCatalog [("5", exampleRecord "5" true 40)]))))
    by (left; reflexivity).
  split; [exact H5 |].
  split; [apply Hstale; [apply exampleWorld_consistent | exact H5] |].
  vm_compute in Hrun. injection Hrun as <- <- <-. discriminate.
Defined.

(** C1 as stated fails: chapter 1 was in the previous catalog, not locked;
    its folder is gone and it is in no [lockedChapters]; the new map does
    not have it, although the pre-pass reports nothing. *)
Lemma C1_counterexample :
  oldChapterOf (Some (exampleCatalog [("1", exampleRecord "1" false 12)])) "1"
    = Some (exampleRecord "1" false 12)
  /\ ch_locked (exampleRecord "1" false 12) = false
  /\ removedLockedChapters (exampleWorld []) (exampleConfig [])
       (Some (exampleCatalog [("1", exampleRecord "1" false 12)])) = []
  /\ exists last t',
       V62.generateChaptersData (exampleWorld []) (exampleConfig [])
         (Some (exampleCatalog [("1", exampleRecord "1" false 12)])) false 0%nat
         = (Normal ([], last), t')
       /\ obj_get (@nil (string * ChapterRecord)) "1" = None.
Proof.
  repeat split.
  exists (Some "2025-06-01T00:00:00+07:00"), 1%nat. split; reflexivity.
Qed.

(** ** Locked identities without a folder *)

Lemma V62_getOldChapterViews_number (oldMangaData : option MangaJSON)
  (k : string) (oldChapter : ChapterRecord) (n : Z) :
  oldChapterOf oldMangaData k = Some oldChapter ->
  ch_views oldChapter = JNum n ->
  V62.getOldChapterViews k oldMangaData = JNum n.
Proof.
  unfold oldChapterOf, V62.getOldChapterViews.
  destruct oldMangaData as [old |]; [| discriminate].
  destruct (chapters old) as [chs |]; [| discriminate].
  intros -> ->. simpl. destruct (Z.eqb_spec n 0) as [-> |]; reflexivity.
Qed.

Lemma V62_getOldChapterViews_none (oldMangaData : option MangaJSON) (k : string) :
  oldChapterOf oldMangaData k = None ->
  V62.getOldChapterViews k oldMangaData = JNum 0.
Proof.
  unfold oldChapterOf, V62.getOldChapterViews.
  destruct oldMangaData as [old |]; [| reflexivity].
  destruct (chapters old) as [chs |]; [| reflexivity].
  now intros ->.
Qed.

(** C3.  With [isFirstTime = false], an identity that is in
    [lockedChapters] and has no folder gets a record with 0 pages; when the
    previous catalog has a record for it, the new record carries that
    record's upload date and its view count; when it has none, the date is
    one the clock gave during this run and the views are 0.  The identity
    is not [__proto__], for which the assignment creates no record. *)
Theorem C3_locked_absent_keeps_history :
  forall (w : World) (config : Config) (oldMangaData : option MangaJSON)
         (t : nat) (k : string),
    includes (cfg_lockedChapters config) k = true ->
    checkIfFolderExists w k = false ->
    k <> "__proto__" ->
    exists chs last t' r,
      V62.generateChaptersData w config oldMangaData false t
        = (Normal (chs, last), t')
      /\ obj_get chs k = Some r
      /\ ch_totalPages r = JNum 0
      /\ ch_locked r = true
      /\ (forall oldChapter d,
            oldChapterOf oldMangaData k = Some oldChapter ->
            ch_uploadDate oldChapter = Some d -> d <> "" ->
            ch_uploadDate r = Some d
            /\ forall n, ch_views oldChapter = JNum n -> ch_views r = JNum n)
      /\ (oldChapterOf oldMangaData k = None ->
            (exists n, (t <= n < t')%nat /\ ch_uploadDate r = Some (clock w n))
            /\ ch_views r = JNum 0).
Proof.
  intros w config old t k Hl Hf _.
  rewrite V62_generateChaptersData_unfold.
  destruct (generateChaptersDataWith_records w
              (fun n => V62.getOldChapterViews n old) config old t)
    as (chs & last & t1 & t' & Hrun & _ & _ & Ht1 & _ & Hkeys & Hrec & _).
  destruct (obj_get chs k) as [r |] eqn:Hget.
  2: { exfalso. apply obj_get_None in Hget. apply Hget, Hkeys. right.
       now apply includes_In. }
  exists chs, last, t', r. split; [exact Hrun |]. split; [exact Hget |].
  destruct (Hrec k r Hget) as (d0 & ta & tb & -> & Hdate & Hta & Htb).
  rewrite (chooseUploadDate_locked_absent w config old k ta Hl Hf) in Hdate.
  unfold recordFor. simpl. rewrite Hf, Hl.
  split; [reflexivity |]. split; [reflexivity |]. split.
  - intros oc d Hold Hd Hne. rewrite Hold, Hd in Hdate. simpl in Hdate.
    apply String.eqb_neq in Hne. unfold truthy_str in Hdate.
    rewrite Hne in Hdate. simpl in Hdate. injection Hdate as <- <-.
    split; [reflexivity |].
    intros n Hn. now apply V62_getOldChapterViews_number with oc.
  - intros Hold. rewrite Hold in Hdate. injection Hdate as <- <-. split.
    + exists ta. split; [lia | reflexivity].
    + now apply V62_getOldChapterViews_none.
Qed.

(** C3 on the scenario of chapter 5: locked, folder gone, previous record
    dated 1 March 2023 with 40 views. *)
Lemma C3_witness :
  exists chs last t' r,
    V62.generateChaptersData (exampleWorld ["1"]) (exampleConfig ["5"])
      (Some (exampleCatalog [("5", exampleRecord "5" true 40)])) false 0%nat
      = (Normal (chs, last), t')
    /\ obj_get chs "5" = Some r
    /\ ch_totalPages r = JNum 0
    /\ ch_locked r = true
    /\ (forall oldChapter d,
          oldChapterOf
            (Some (exampleCatalog [("5", exampleRecord "5" true 40)])) "5"
            = Some oldChapter ->
          ch_uploadDate oldChapter = Some d -> d <> "" ->
          ch_uploadDate r = Some d
          /\ forall n, ch_views oldChapter = JNum n -> ch_views r = JNum n)
    /\ (oldChapterOf
          (Some (exampleCatalog [("5", exampleRecord "5" true 40)])) "5" = None ->
          (exists n, (0 <= n < t')%nat
                     /\ ch_uploadDate r = Some (clock (exampleWorld ["1"]) n))
          /\ ch_views r = JNum 0).
Proof.
  apply (C3_locked_absent_keeps_history (exampleWorld ["1"])
           (exampleConfig ["5"])
           (Some (exampleCatalog [("5", exampleRecord "5" true 40)]))
           0%nat "5"); [reflexivity | reflexivity | discriminate].
Defined.

(** ** The last chapter update *)

Lemma num_neg_sub_inject (a b : Z) :
  num_neg (num_sub (Fin (inject_Z a)) (Fin (inject_Z b))) = (a <? b).
Proof.
  simpl. destruct (Z.ltb_spec (a * 1 + - b * 1) 0), (Z.ltb_spec a b);
    try reflexivity; lia.
Qed.

Lemma dateNum_instant (w : World) (d : option string) (z : Z) :
  instant w d = Some z -> dateNum w d = Fin (inject_Z z).
Proof.
  destruct d as [s |]; simpl.
  - now intros ->.
  - now intros [= <-].
Qed.

Lemma byDateDesc_sorted (w : World) (dates : list ChapterDate) :
  Forall (fun cd => instant w (cd_uploadDate cd) <> None) dates ->
  StronglySorted (notEarlier w) (Array_sort (byDateDesc w) dates).
Proof.
  apply Array_sort_sorted.
  - intros x y z (a & b & Ha & Hb & Hab) (b' & c & Hb' & Hc & Hbc).
    rewrite Hb in Hb'. injection Hb' as <-.
    exists a, c. repeat split; auto. lia.
  - intros x y Hx Hy H.
    destruct (instant w (cd_uploadDate x)) as [zx |] eqn:Ex; [| contradiction].
    destruct (instant w (cd_uploadDate y)) as [zy |] eqn:Ey; [| contradiction].
    unfold byDateDesc in H.
    rewrite (dateNum_instant _ _ _ Ex), (dateNum_instant _ _ _ Ey) in H.
    rewrite num_neg_sub_inject in H. apply Z.ltb_lt in H.
    exists zx, zy. repeat split; auto. lia.
  - intros x y Hx Hy H.
    destruct (instant w (cd_uploadDate x)) as [zx |] eqn:Ex; [| contradiction].
    destruct (instant w (cd_uploadDate y)) as [zy |] eqn:Ey; [| contradiction].
    unfold byDateDesc in H.
    rewrite (dateNum_instant _ _ _ Ex), (dateNum_instant _ _ _ Ey) in H.
    rewrite num_neg_sub_inject in H. apply Z.ltb_ge in H.
    exists zy, zx. repeat split; auto.
Qed.

(** On a map that is not empty the closing statements return the date of
    one of its records, and do not read the clock. *)
Lemma lastChapterUpdateOf_member (w : World) (chs : JSObject ChapterRecord)
  (t t' : nat) (last : option string) :
  NoDup (map fst chs) -> chs <> [] ->
  lastChapterUpdateOf w chs t = (Normal last, t') ->
  t' = t /\ exists k r, obj_get chs k = Some r /\ last = ch_uploadDate r.
Proof.
  intros Hnd Hne. unfold lastChapterUpdateOf.
  set (toDate := fun ch => {| cd_chapterName := ch_folder ch;
                              cd_uploadDate := ch_uploadDate ch;
                              cd_locked := ch_locked ch |}).
  set (dates := map toDate (Object_values chs)).
  assert (Hlen : (0 <? List.length dates)%nat = true).
  { apply Nat.ltb_lt. unfold dates, Object_values.
    rewrite !length_map, (Permutation_length (Object_entries_perm chs)).
    destruct chs; [contradiction | simpl; lia]. }
  rewrite Hlen.
  pose proof (Array_sort_perm (byDateDesc w) dates) as Hp.
  destruct (Array_sort (byDateDesc w) dates) as [| first tl] eqn:Es.
  { unfold throw. discriminate. }
  unfold ret. intros [= <- <-]. split; [reflexivity |].
  assert (Hfirst : In first dates) by (apply (Permutation_in _ Hp); now left).
  apply in_map_iff in Hfirst. destruct Hfirst as (r & <- & Hin).
  apply Object_values_In in Hin. destruct Hin as [k Hin].
  exists k, r. split; [now apply In_obj_get | reflexivity].
Qed.

(** What the closing statements return on a map whose dates all denote
    points in time: the date of one of its records, no earlier than any. *)
Lemma lastChapterUpdateOf_max (w : World) (chs : JSObject ChapterRecord)
  (t t' : nat) (last : option string) :
  NoDup (map fst chs) -> chs <> [] ->
  (forall k r, obj_get chs k = Some r -> instant w (ch_uploadDate r) <> None) ->
  lastChapterUpdateOf w chs t = (Normal last, t') ->
  t' = t
  /\ exists k r z,
       obj_get chs k = Some r /\ last = ch_uploadDate r
       /\ instant w last = Some z
       /\ forall k' r' z', obj_get chs k' = Some r' ->
            instant w (ch_uploadDate r') = Some z' -> z' <= z.
Proof.
  intros Hnd Hne Hvalid. unfold lastChapterUpdateOf.
  set (toDate := fun ch => {| cd_chapterName := ch_folder ch;
                              cd_uploadDate := ch_uploadDate ch;
                              cd_locked := ch_locked ch |}).
  set (dates := map toDate (Object_values chs)).
  assert (Hlen : (0 <? List.length dates)%nat = true).
  { apply Nat.ltb_lt. unfold dates, Object_values.
    rewrite !length_map, (Permutation_length (Object_entries_perm chs)).
    destruct chs; [contradiction | simpl; lia]. }
  rewrite Hlen.
  assert (Hall : Forall (fun cd => instant w (cd_uploadDate cd) <> None) dates).
  { apply Forall_forall. intros cd Hcd. apply in_map_iff in Hcd.
    destruct Hcd as (r & <- & Hr). apply Object_values_In in Hr.
    destruct Hr as [k Hr]. apply (Hvalid k). now apply In_obj_get. }
  pose proof (byDateDesc_sorted w dates Hall) as Hs.
  pose proof (Array_sort_perm (byDateDesc w) dates) as Hp.
  destruct (Array_sort (byDateDesc w) dates) as [| first tl] eqn:Es.
  { unfold throw. discriminate. }
  unfold ret. intros [= <- <-]. split; [reflexivity |].
  assert (Hfirst : In first dates).
  { apply (Permutation_in _ Hp). now left. }
  apply in_map_iff in Hfirst. destruct Hfirst as (r & Hr & Hin).
  apply Object_values_In in Hin. destruct Hin as [k Hin].
  apply (In_obj_get _ _ _ Hnd) in Hin.
  destruct (instant w (ch_uploadDate r)) as [z |] eqn:Ez;
    [| exfalso; now apply (Hvalid k r Hin)].
  exists k, r, z. subst first. simpl. repeat split; auto.
  intros k' r' z' Hget' Ez'.
  assert (Hin' : In (toDate r') (toDate r :: tl)).
  { apply (Permutation_in _ (Permutation_sym Hp)). unfold dates.
    apply in_map, Object_values_In. exists k'. now apply obj_get_In. }
  destruct Hin' as [Heq | Hin'].
  - assert (E : ch_uploadDate r' = ch_uploadDate r).
    { change (cd_uploadDate (toDate r') = cd_uploadDate (toDate r)).
      now rewrite Heq. }
    rewrite E, Ez in Ez'. injection Ez' as <-. lia.
  - apply StronglySorted_inv in Hs. destruct Hs as [_ Hs].
    rewrite Forall_forall in Hs. destruct (Hs _ Hin') as (za & zb & Ha & Hb & Hab).
    simpl in Ha, Hb. rewrite Ez in Ha. rewrite Ez' in Hb.
    injection Ha as <-. injection Hb as <-. exact Hab.
Qed.

(** C4.  A run returns as [lastChapterUpdate] the upload date of one of the
    records of the map it generated, and that date is no earlier than the
    date of any record whenever the dates in the map denote points in time;
    on an empty map it returns the clock's reading at that moment, the first
    of the run.  The [lockedChapters] are taken not to name [__proto__]:
    that entry is processed, reads the clock, and leaves no record. *)
Theorem C4_lastChapterUpdate_is_latest :
  forall (w : World) (config : Config) (oldMangaData : option MangaJSON)
         (isFirstTime : bool) (t : nat),
  ~ In "__proto__" (cfg_lockedChapters config) ->
  exists chs last t',
    V62.generateChaptersData w config oldMangaData isFirstTime t
      = (Normal (chs, last), t')
    /\ (chs = [] -> last = Some (clock w t) /\ t' = S t)
    /\ (chs <> [] ->
        exists k r, obj_get chs k = Some r /\ last = ch_uploadDate r)
    /\ (chs <> [] ->
        (forall k r, obj_get chs k = Some r ->
                     instant w (ch_uploadDate r) <> None) ->
        exists k r z,
          obj_get chs k = Some r /\ last = ch_uploadDate r
          /\ instant w last = Some z
          /\ forall k' r' z', obj_get chs k' = Some r' ->
               instant w (ch_uploadDate r') = Some z' -> z' <= z).
Proof.
  intros w config old ft t _.
  rewrite V62_generateChaptersData_unfold.
  destruct (generateChaptersDataWith_records w
              (fun n => if ft then JNum 0 else V62.getOldChapterViews n old)
              config old t)
    as (chs & last & t1 & t' & Hrun & Hlast & _ & _ & Hnd & _ & _ & Hempty).
  exists chs, last, t'. split; [exact Hrun |]. split; [| split].
  - intros ->. rewrite (Hempty eq_refl) in Hlast.
    cbv in Hlast. now injection Hlast as <- <-.
  - intros Hne.
    now destruct (lastChapterUpdateOf_member w chs t1 t' last Hnd Hne Hlast).
  - intros Hne Hvalid.
    now destruct (lastChapterUpdateOf_max w chs t1 t' last Hnd Hne Hvalid Hlast).
Qed.

(** C4 on a run that keeps three chapters: folders 1 and 2, committed in
    2024, and the locked chapter 5, dated 2023. *)
Lemma C4_witness :
  exists chs last t',
    V62.generateChaptersData (exampleWorld ["1"; "2"]) (exampleConfig ["5"])
      (Some (exampleCatalog [("5", exampleRecord "5" true 40)])) false 0%nat
      = (Normal (chs, last), t')
    /\ last = Some "2024-01-05T10:00:00+07:00"
    /\ exists k r z,
         obj_get chs k = Some r /\ last = ch_uploadDate r
         /\ instant (exampleWorld ["1"; "2"]) last = Some z
         /\ forall k' r' z', obj_get chs k' = Some r' ->
              instant (exampleWorld ["1"; "2"]) (ch_uploadDate r') = Some z' ->
              z' <= z.
Proof.
  destruct (C4_lastChapterUpdate_is_latest (exampleWorld ["1"; "2"])
              (exampleConfig ["5"])
              (Some (exampleCatalog [("5", exampleRecord "5" true 40)]))
              false 0%nat
              ltac:(intros [H | []]; discriminate H))
    as (chs & last & t' & Hrun & _ & _ & Hmax).
  exists chs, last, t'. split; [exact Hrun |].
  vm_compute in Hrun. injection Hrun as <- <- <-.
  split; [reflexivity |]. apply Hmax; [discriminate |].
  intros k r H. cbn [obj_get] in H.
  repeat match type of H with
         | (if ?b then _ else _) = _ => destruct b
         end;
    try discriminate H; injection H as <-; discriminate.
Defined.

(** ** The identity resolver *)

Lemma is_digit_cases (c : ascii) :
  is_digit c = true ->
  In c ["0"; "1"; "2"; "3"; "4"; "5"; "6"; "7"; "8"; "9"]%char.
Proof.
  destruct c as [[] [] [] [] [] [] [] []]; intros H; try discriminate H;
    simpl; tauto.
Qed.

Ltac digit_cases c H :=
  let D := fresh "D" in
  pose proof (is_digit_cases c H) as D; simpl in D;
  repeat (destruct D as [D | D]; [subst c |]); [.. | contradiction].

Lemma digit_val_nonneg (c : ascii) : is_digit c = true -> 0 <= digit_val c.
Proof. intros H. digit_cases c H; now cbv. Qed.

Lemma span_digits_all_digits (s : string) :
  all_digits (fst (span_digits s)) = true.
Proof.
  induction s as [| c rest IH]; simpl; [reflexivity |].
  destruct (is_digit c) eqn:E; [| reflexivity].
  destruct (span_digits rest) as [ds tl]. simpl in *. now rewrite E, IH.
Qed.

Lemma all_digits_app (a b : string) :
  all_digits (a ++ b) = all_digits a && all_digits b.
Proof.
  induction a as [| c rest IH]; simpl; [reflexivity |].
  now rewrite IH, andb_assoc.
Qed.

Lemma digits_val_nonneg (ds : string) :
  forall acc, 0 <= acc -> all_digits ds = true -> 0 <= digits_val acc ds.
Proof.
  induction ds as [| c rest IH]; cbn [digits_val all_digits];
    intros acc Hacc H; [assumption |].
  apply andb_prop in H. destruct H as [Hc Hrest].
  apply IH; [| assumption]. pose proof (digit_val_nonneg c Hc). lia.
Qed.

Lemma pow10_num_nonneg (e : Z) : 0 <= Qnum (pow10 e).
Proof.
  unfold pow10. destruct (0 <=? e) eqn:E.
  - simpl. apply Z.pow_nonneg. lia.
  - pose proof (Z.pow_nonneg 10 (- e)) as H.
    unfold Qinv, inject_Z. simpl Qnum at 2.
    destruct (10 ^ (- e)) eqn:E'; simpl; lia.
Qed.

Lemma isNumericChapter_head (s : string) :
  isNumericChapter s = true ->
  exists c rest, s = String c rest /\ is_digit c = true.
Proof.
  unfold isNumericChapter. destruct s as [| c rest]; simpl; [discriminate |].
  destruct (is_digit c) eqn:E; [| discriminate]. intros _. now exists c, rest.
Qed.

(** On a string that starts with a digit, [parseFloat] finds a number that
    is not negative. *)
Lemma parseFloat_digit (c : ascii) (rest : string) :
  is_digit c = true ->
  exists q, parseFloat (String c rest) = Fin q /\ 0 <= Qnum q.
Proof.
  intros H.
  assert (G : exists ip r,
             span_digits (String c rest) = (String c ip, r)
             /\ all_digits (String c ip) = true).
  { pose proof (span_digits_all_digits rest) as A.
    cbn [span_digits]. rewrite H.
    destruct (span_digits rest) as [ds tl]. exists ds, tl.
    split; [reflexivity |]. cbn [all_digits fst] in *. now rewrite H, A. }
  destruct G as (ip & r & Hspan & Hip).
  assert (E : parseFloat (String c rest) =
              let (fp, r') :=
                match after_char "." r with
                | Some r1 => span_digits r1
                | None => (EmptyString, r)
                end in
              Fin (inject_Z (digits_val 0 (String c ip ++ fp))
                   * pow10 (parse_exponent r' - Z.of_nat (String.length fp)))).
  { assert (E1 : skip_ws (String c rest) = String c rest)
      by (digit_cases c H; reflexivity).
    assert (E2 : after_char "-" (String c rest) = None)
      by (digit_cases c H; reflexivity).
    assert (E3 : after_char "+" (String c rest) = None)
      by (digit_cases c H; reflexivity).
    assert (E4 : startsWith (String c rest) "Infinity" = false)
      by (digit_cases c H; reflexivity).
    unfold parseFloat. rewrite E1. cbv zeta. rewrite E2, E3.
    unfold parse_unsigned. rewrite E4, Hspan.
    destruct (match after_char "." r with
              | Some r1 => span_digits r1
              | None => (EmptyString, r) end); reflexivity. }
  rewrite E.
  assert (F : forall fp r', all_digits fp = true ->
            0 <= Qnum (inject_Z (digits_val 0 (String c ip ++ fp))
                       * pow10 (parse_exponent r' - Z.of_nat (String.length fp)))).
  { intros fp r' Hfp. unfold Qmult. cbn [Qnum inject_Z].
    apply Z.mul_nonneg_nonneg; [| apply pow10_num_nonneg].
    apply digits_val_nonneg; [lia |].
    change (String c ip ++ fp)%string with (String c (ip ++ fp)).
    cbn [all_digits] in Hip |- *. apply andb_prop in Hip.
    destruct Hip as [-> Hip]. now rewrite all_digits_app, Hip, Hfp. }
  destruct (after_char "." r) as [r1 |].
  - pose proof (span_digits_all_digits r1) as A.
    destruct (span_digits r1) as [fp r']. eexists. split; [reflexivity |].
    now apply F.
  - eexists. split; [reflexivity |]. now apply F.
Qed.

Lemma numeric_not_oneshot (s : string) :
  isNumericChapter s = true -> isOneshotFolder s = false.
Proof.
  intros H. destruct (isNumericChapter_head s H) as (c & rest & -> & Hc).
  unfold isOneshotFolder. digit_cases c Hc; reflexivity.
Qed.

Lemma numeric_sort_value (s : string) :
  isNumericChapter s = true ->
  exists q, parseFloat s = Fin q /\ 0 <= Qnum q
            /\ getChapterSortValue s = Fin q /\ getChapterNumber s = Fin q.
Proof.
  intros H. pose proof (numeric_not_oneshot s H) as Hn.
  destruct (isNumericChapter_head s H) as (c & rest & -> & Hc).
  destruct (parseFloat_digit c rest Hc) as (q & Hq & Hpos).
  exists q. unfold getChapterSortValue, getChapterNumber. rewrite Hn. auto.
Qed.

Lemma num_neg_sub_Fin (p q : Q) :
  num_neg (num_sub (Fin p) (Fin q))
  = (Qnum p * QDen q + - Qnum q * QDen p <? 0).
Proof. reflexivity. Qed.

Lemma valid_sort_value_finite (name : string) :
  validIdentity name = true -> exists q, getChapterSortValue name = Fin q.
Proof.
  unfold validIdentity. intros H.
  destruct (isNumericChapter name) eqn:E.
  - destruct (numeric_sort_value name E) as (q & _ & _ & Hq & _). now exists q.
  - simpl in H. unfold getChapterSortValue. rewrite H. now eexists.
Qed.

Lemma bySortValue_sorted (names : list string) :
  Forall (fun n => exists q, getChapterSortValue n = Fin q) names ->
  StronglySorted sortLe (Array_sort bySortValue names).
Proof.
  apply Array_sort_sorted.
  - intros x y z (a & b & Ha & Hb & Hab) (b' & c & Hb' & Hc & Hbc).
    rewrite Hb in Hb'. injection Hb' as <-.
    exists a, c. repeat split; auto. now apply Qle_trans with b.
  - intros x y [p Hp] [q Hq] H. exists p, q. repeat split; auto.
    unfold bySortValue in H. rewrite Hp, Hq in H. simpl in H.
    apply Z.ltb_lt in H. unfold Qle. lia.
  - intros x y [p Hp] [q Hq] H. exists q, p. repeat split; auto.
    unfold bySortValue in H. rewrite Hp, Hq in H. simpl in H.
    apply Z.ltb_ge in H. unfold Qle. lia.
Qed.

Lemma StronglySorted_after {A : Type} (R : A -> A -> Prop)
  (before after : list A) (x : A) :
  StronglySorted R (before ++ x :: after)%list -> Forall (R x) after.
Proof.
  induction before as [| y rest IH]; simpl; intros H;
    apply StronglySorted_inv in H; destruct H as [Hs Hall]; auto.
Qed.

(** In a sorted array of names with finite sort values, no oneshot name
    comes after a numbered one. *)
Lemma oneshot_never_after_numbered (names before after : list string)
  (special numbered : string) :
  Forall (fun n => exists q, getChapterSortValue n = Fin q) names ->
  isOneshotFolder special = true -> isNumericChapter numbered = true ->
  Array_sort bySortValue names = (before ++ numbered :: after)%list ->
  ~ In special after.
Proof.
  intros Hfin Hs Hn Hsplit Hin.
  pose proof (bySortValue_sorted names Hfin) as Hsorted.
  rewrite Hsplit in Hsorted. apply StronglySorted_after in Hsorted.
  rewrite Forall_forall in Hsorted.
  destruct (Hsorted special Hin) as (p & q & Hp & Hq & Hpq).
  destruct (numeric_sort_value numbered Hn) as (p' & _ & Hpos & Hp' & _).
  rewrite Hp in Hp'. injection Hp' as <-.
  unfold getChapterSortValue in Hq. rewrite Hs in Hq. injection Hq as <-.
  unfold Qle in Hpq. simpl in Hpq. lia.
Qed.

(** C6.  A oneshot identity has sort value -1, chapter number 0 and the
    title 'Oneshot'; a numbered identity has what [parseFloat] makes of
    it, which is a number and is not negative, as sort value and as chapter
    number, and the title 'Chapter ' followed by the identifier as written.  The comparator puts the oneshot
    identity first, and in the sorted folder list, and in the sorted working
    set when every [lockedChapters] entry is a valid identity, no oneshot
    identity comes after a numbered one. *)
Theorem C6_identity_resolver :
  forall special numbered : string,
    isOneshotFolder special = true ->
    isNumericChapter numbered = true ->
    getChapterSortValue special = Fin (-1 # 1)
    /\ getChapterNumber special = Fin 0
    /\ getChapterTitle special = "Oneshot"
    /\ parseFloat numbered <> NaN
    /\ num_neg (parseFloat numbered) = false
    /\ getChapterSortValue numbered = parseFloat numbered
    /\ getChapterNumber numbered = parseFloat numbered
    /\ getChapterTitle numbered = "Chapter " ++ numbered
    /\ num_neg (bySortValue special numbered) = true
    /\ num_neg (bySortValue numbered special) = false
    /\ (forall w before after,
          getChapterFolders w = (before ++ numbered :: after)%list ->
          ~ In special after)
    /\ (forall w config before after,
          Forall (fun n => validIdentity n = true) (cfg_lockedChapters config) ->
          sortedChapterNames w config = (before ++ numbered :: after)%list ->
          ~ In special after).
Proof.
  intros special numbered Hs Hn.
  pose proof (numeric_not_oneshot numbered Hn) as Hno.
  destruct (numeric_sort_value numbered Hn) as (q & Hq & Hpos & Hsv & Hcn).
  assert (Ss : getChapterSortValue special = Fin (-1 # 1))
    by (unfold getChapterSortValue; now rewrite Hs).
  split; [exact Ss |].
  split; [unfold getChapterNumber; now rewrite Hs |].
  split; [unfold getChapterTitle; now rewrite Hs |].
  split; [rewrite Hq; discriminate |].
  split; [rewrite Hq; now apply Z.ltb_ge |].
  split; [now rewrite Hsv, Hq |].
  split; [now rewrite Hcn, Hq |].
  split; [unfold getChapterTitle; now rewrite Hno |].
  split.
  { unfold bySortValue. rewrite Ss, Hsv, num_neg_sub_Fin.
    apply Z.ltb_lt. cbn [Qnum Qden]. lia. }
  split.
  { unfold bySortValue. rewrite Ss, Hsv, num_neg_sub_Fin.
    apply Z.ltb_ge. cbn [Qnum Qden]. lia. }
  split.
  - intros w before after Hsplit.
    unfold getChapterFolders in Hsplit.
    destruct (readdirSync w) as [dirents |];
      [| now destruct before; discriminate].
    match type of Hsplit with
    | Array_sort _ ?l = _ =>
        apply (oneshot_never_after_numbered l before after special numbered);
          [| assumption | assumption | assumption]
    end.
    apply Forall_forall. intros n Hin. apply filter_In in Hin.
    now apply valid_sort_value_finite.
  - intros w config before after Hvalid Hsplit.
    unfold sortedChapterNames in Hsplit.
    match type of Hsplit with
    | Array_sort _ ?l = _ =>
        apply (oneshot_never_after_numbered l before after special numbered);
          [| assumption | assumption | assumption]
    end.
    apply Forall_forall. intros n Hin. apply Set_from_In, in_app_iff in Hin.
    apply valid_sort_value_finite. destruct Hin as [Hin | Hin].
    + now apply getChapterFolders_valid with w.
    + rewrite Forall_forall in Hvalid. now apply Hvalid.
Qed.

(** C6 for the identities 'Oneshot' and '12.5'. *)
Lemma C6_witness :
  getChapterSortValue "Oneshot" = Fin (-1 # 1)
  /\ getChapterNumber "Oneshot" = Fin 0
  /\ getChapterTitle "Oneshot" = "Oneshot"
  /\ parseFloat "12.5" <> NaN
  /\ num_neg (parseFloat "12.5") = false
  /\ getChapterSortValue "12.5" = parseFloat "12.5"
  /\ getChapterNumber "12.5" = parseFloat "12.5"
  /\ getChapterTitle "12.5" = "Chapter " ++ "12.5"
  /\ num_neg (bySortValue "Oneshot" "12.5") = true
  /\ num_neg (bySortValue "12.5" "Oneshot") = false
  /\ (forall w before after,
        getChapterFolders w = (before ++ "12.5" :: after)%list ->
        ~ In "Oneshot" after)
  /\ (forall w config before after,
        Forall (fun n => validIdentity n = true) (cfg_lockedChapters config) ->
        sortedChapterNames w config = (before ++ "12.5" :: after)%list ->
        ~ In "Oneshot" after).
Proof.
  apply (C6_identity_resolver "Oneshot" "12.5"); reflexivity.
Defined.

(** ** The upload date resolver *)

Lemma truthy_str_true (s : string) : s <> "" -> truthy_str s = true.
Proof.
  intros H. unfold truthy_str. apply String.eqb_neq in H. now rewrite H.
Qed.

(** C5, as the code has it.  The resolver always returns a date and never
    throws.  An answer that is empty passes the question to the next source
    in the order manifest history (unlocked chapters only), folder history,
    folder modification time; the first answer that is not empty is
    converted and returned.  A source that throws ends the search: the
    result is then the clock's reading, whatever the later sources hold. *)
Theorem C5_upload_date_sources :
  forall (w : World) (folderName : string) (isLocked : bool) (t : nat),
    (exists d t',
        getUploadDate w folderName isLocked t = (Normal (Some d), t')
        /\ (t' = t \/ (t' = S t /\ d = clock w t)))
    /\ (forall out,
          isLocked = false ->
          gitLogManifest w folderName = ExecOutput out -> trim out <> "" ->
          getUploadDate w folderName isLocked t
            = (Normal (Some (wibFormat w (trim out))), t))
    /\ (forall out,
          manifestHistoryEmpty w folderName isLocked ->
          gitLogFolder w folderName = ExecOutput out -> trim out <> "" ->
          getUploadDate w folderName isLocked t
            = (Normal (Some (wibFormat w (trim out))), t))
    /\ (forall out c rest,
          manifestHistoryEmpty w folderName isLocked ->
          gitLogFolder w folderName = ExecOutput out -> trim out = "" ->
          statMtime w folderName = Some (c, rest) ->
          getUploadDate w folderName isLocked t
            = (Normal (Some (wibFormat w (String c rest))), t))
    /\ (isLocked = false -> gitLogManifest w folderName = ExecThrows ->
          getUploadDate w folderName isLocked t
            = (Normal (Some (clock w t)), S t))
    /\ (manifestHistoryEmpty w folderName isLocked ->
          gitLogFolder w folderName = ExecThrows ->
          getUploadDate w folderName isLocked t
            = (Normal (Some (clock w t)), S t))
    /\ (forall out,
          manifestHistoryEmpty w folderName isLocked ->
          gitLogFolder w folderName = ExecOutput out -> trim out = "" ->
          statMtime w folderName = None ->
          getUploadDate w folderName isLocked t
            = (Normal (Some (clock w t)), S t)).
Proof.
  intros w folderName isLocked t.
  assert (Skip : manifestHistoryEmpty w folderName isLocked ->
            getUploadDate w folderName isLocked t =
            tryCatch
              (folderResult <- execSync (gitLogFolder w folderName) ;;
               if truthy_str folderResult then ret (convertToWIB w folderResult)
               else mtime <- statSync_mtime w folderName ;;
                    ret (convertToWIB w mtime))
              (now <- getWIBTimestamp w ;; ret (Some now)) t).
  { intros [-> | (out & -> & Hm & He)]; [reflexivity |].
    unfold getUploadDate, tryCatch, bind. simpl. rewrite Hm. simpl.
    rewrite He. reflexivity. }
  split; [| split; [| split; [| split; [| split; [| split]]]]].
  - unfold getUploadDate, tryCatch, bind, execSync, statSync_mtime,
      convertToWIB, getWIBTimestamp, ret, throw.
    destruct isLocked; simpl;
      repeat match goal with
        | |- context [match ?x with ExecThrows => _ | ExecOutput _ => _ end] =>
            destruct x; simpl
        | |- context [truthy_str ?s] => destruct (truthy_str s) eqn:?; simpl
        | |- context [statMtime ?a ?b] =>
            destruct (statMtime a b) as [[? ?] |]; simpl
        end;
      do 2 eexists; (split; [reflexivity | auto]).
  - intros out -> Hm Hne.
    unfold getUploadDate, tryCatch, bind, convertToWIB. simpl. rewrite Hm.
    simpl. now rewrite (truthy_str_true _ Hne).
  - intros out Hskip Hf Hne. rewrite (Skip Hskip).
    unfold tryCatch, bind, convertToWIB. rewrite Hf. simpl.
    now rewrite (truthy_str_true _ Hne).
  - intros out c rest Hskip Hf He Hs. rewrite (Skip Hskip).
    unfold tryCatch, bind, convertToWIB, statSync_mtime. rewrite Hf. simpl.
    rewrite He, Hs. reflexivity.
  - intros -> Hm.
    unfold getUploadDate, tryCatch, bind. simpl. rewrite Hm. reflexivity.
  - intros Hskip Hf. rewrite (Skip Hskip).
    unfold tryCatch, bind. rewrite Hf. reflexivity.
  - intros out Hskip Hf He Hs. rewrite (Skip Hskip).
    unfold tryCatch, bind, statSync_mtime. rewrite Hf. simpl.
    rewrite He, Hs. reflexivity.
Qed.

(** C5 on an unlocked chapter whose manifest history is empty and whose
    folder history has a date. *)
Lemma C5_witness :
  getUploadDate (exampleWorld ["1"]) "1" false 0%nat
  = (Normal (Some "2024-01-05T10:00:00+07:00"), 0%nat).
Proof.
  destruct (C5_upload_date_sources (exampleWorld ["1"]) "1" false 0%nat)
    as (_ & _ & Hfolder & _).
  apply (Hfolder "2024-01-05T03:00:00Z ").
  - right. exists "". repeat split.
  - reflexivity.
  - discriminate.
Defined.

(** C5 as stated fails: the first source throws, the second one has a date,
    and the resolver returns the clock's reading, not that date. *)
Lemma C5_counterexample :
  gitLogManifest exampleWorldNoManifestLog "1" = ExecThrows
  /\ gitLogFolder exampleWorldNoManifestLog "1"
       = ExecOutput "2024-01-05T03:00:00Z "
  /\ convertToWIB exampleWorldNoManifestLog (trim "2024-01-05T03:00:00Z ")
       = Some "2024-01-05T10:00:00+07:00"
  /\ clock exampleWorldNoManifestLog 0 = "2025-06-01T00:00:00+07:00"
  /\ getUploadDate exampleWorldNoManifestLog "1" false 0%nat
       = (Normal (Some "2025-06-01T00:00:00+07:00"), 1%nat).
Proof. repeat split. Qed.

(** ** The work's view counter *)

Lemma V62_commandGenerate_returns (w : World) (config : Config)
  (oldMangaData : option MangaJSON) (t : nat) :
  exists chs last t1,
    V62.commandGenerate w config oldMangaData t =
      (Normal
         {| manga := Some (mangaInfoOf config
              match oldMangaData with
              | Some old =>
                  match manga old with
                  | Some oldManga => js_or (m_views oldManga) (JNum 0)
                  | None => js_or (cfg_views config) (JNum 0)
                  end
              | None => js_or (cfg_views config) (JNum 0)
              end);
            chapters := Some chs;
            lastUpdated := Some (clock w t1);
            lastChapterUpdate := last |}, S t1).
Proof.
  unfold V62.commandGenerate.
  set (ft := match oldMangaData with
             | Some old => match manga old with Some _ => false | None => true end
             | None => true end).
  rewrite V62_generateChaptersData_unfold.
  destruct (generateChaptersDataWith_records w
              (fun n => if ft then JNum 0
                        else V62.getOldChapterViews n oldMangaData)
              config oldMangaData t)
    as (chs & last & _ & t1 & Hrun & _).
  exists chs, last, t1. unfold bind. rewrite Hrun. reflexivity.
Qed.

Lemma V70_commandGenerate_returns (w : World) (config : Config)
  (oldMangaData : option MangaJSON) (t : nat) :
  exists chs last t1,
    V70.commandGenerate w config oldMangaData t =
      (Normal
         {| manga := Some (mangaInfoOf config
              match oldMangaData with
              | Some old =>
                  match manga old with
                  | Some oldManga =>
                      match m_views oldManga with
                      | JUndefined => js_or (cfg_views config) (JNum 0)
                      | views => views
                      end
                  | None => js_or (cfg_views config) (JNum 0)
                  end
              | None => js_or (cfg_views config) (JNum 0)
              end);
            chapters := Some chs;
            lastUpdated := Some (clock w t1);
            lastChapterUpdate := last |}, S t1).
Proof.
  unfold V70.commandGenerate.
  rewrite V70_generateChaptersData_unfold.
  destruct (generateChaptersDataWith_records w
              (fun n => V70.getOldChapterViews n oldMangaData)
              config oldMangaData t)
    as (chs & last & _ & t1 & Hrun & _).
  exists chs, last, t1. unfold bind. rewrite Hrun. reflexivity.
Qed.

(** The configuration's [views], or 0 when there is none. *)
Lemma js_or_views_default (v : JSVal) :
  (v = JUndefined -> js_or v (JNum 0) = JNum 0)
  /\ (forall n, v = JNum n -> js_or v (JNum 0) = JNum n).
Proof.
  split.
  - now intros ->.
  - intros n ->. unfold js_or. simpl.
    destruct (Z.eqb_spec n 0) as [-> |]; reflexivity.
Qed.

(** C8.  In the document either script builds, the work's [views] is the
    previous catalog's [views] number whenever the previous catalog has a
    [manga] object; without a previous catalog (none loaded, or one without
    [manga]) it is the configuration's [views], 0 when that is absent. *)
Theorem C8_work_views_carried_forward :
  forall (w : World) (config : Config) (oldMangaData : option MangaJSON)
         (t : nat),
    (exists doc info t',
        V62.commandGenerate w config oldMangaData t = (Normal doc, t')
        /\ manga doc = Some info
        /\ (forall old oldManga n,
              oldMangaData = Some old -> manga old = Some oldManga ->
              m_views oldManga = JNum n -> m_views info = JNum n)
        /\ (oldMangaData = None
            \/ (exists old, oldMangaData = Some old /\ manga old = None) ->
            m_views info = js_or (cfg_views config) (JNum 0)
            /\ (cfg_views config = JUndefined -> m_views info = JNum 0)
            /\ (forall n, cfg_views config = JNum n -> m_views info = JNum n)))
    /\ (exists doc info t',
        V70.commandGenerate w config oldMangaData t = (Normal doc, t')
        /\ manga doc = Some info
        /\ (forall old oldManga n,
              oldMangaData = Some old -> manga old = Some oldManga ->
              m_views oldManga = JNum n -> m_views info = JNum n)
        /\ (oldMangaData = None
            \/ (exists old, oldMangaData = Some old /\ manga old = None) ->
            m_views info = js_or (cfg_views config) (JNum 0)
            /\ (cfg_views config = JUndefined -> m_views info = JNum 0)
            /\ (forall n, cfg_views config = JNum n -> m_views info = JNum n))).
Proof.
  intros w config old t.
  destruct (js_or_views_default (cfg_views config)) as [Dundef Dnum].
  split.
  - destruct (V62_commandGenerate_returns w config old t)
      as (chs & last & t1 & Hrun).
    eexists. eexists. eexists. split; [exact Hrun |].
    split; [reflexivity |]. cbn [m_views mangaInfoOf]. split.
    + intros o om n -> -> ->. unfold js_or. simpl.
      destruct (Z.eqb_spec n 0) as [-> |]; reflexivity.
    + intros [-> | (o & -> & ->)]; repeat split; auto.
  - destruct (V70_commandGenerate_returns w config old t)
      as (chs & last & t1 & Hrun).
    eexists. eexists. eexists. split; [exact Hrun |].
    split; [reflexivity |]. cbn [m_views mangaInfoOf]. split.
    + intros o om n -> -> ->. reflexivity.
    + intros [-> | (o & -> & ->)]; repeat split; auto.
Qed.

(** C8 on a previous catalog with 7 work views. *)
Lemma C8_witness :
  (exists doc info t',
      V62.commandGenerate (exampleWorld ["1"]) (exampleConfig [])
        (Some (exampleCatalog [])) 0%nat = (Normal doc, t')
      /\ manga doc = Some info /\ m_views info = JNum 7)
  /\ (exists doc info t',
      V70.commandGenerate (exampleWorld ["1"]) (exampleConfig [])
        (Some (exampleCatalog [])) 0%nat = (Normal doc, t')
      /\ manga doc = Some info /\ m_views info = JNum 7).
Proof.
  destruct (C8_work_views_carried_forward (exampleWorld ["1"])
              (exampleConfig []) (Some (exampleCatalog [])) 0%nat)
    as ((d1 & i1 & t1 & R1 & M1 & K1 & _) & (d2 & i2 & t2 & R2 & M2 & K2 & _)).
  split.
  - exists d1, i1, t1. repeat split; auto.
    now apply (K1 (exampleCatalog [])
                 (mangaInfoOf (exampleConfig []) (JNum 7)) 7).
  - exists d2, i2, t2. repeat split; auto.
    now apply (K2 (exampleCatalog [])
                 (mangaInfoOf (exampleConfig []) (JNum 7)) 7).
Defined.

(** ** The two scripts agree *)

Lemma forEach_ext {S : Type} (f g : string -> S -> M S) :
  (forall x acc t, f x acc t = g x acc t) ->
  forall arr acc t, forEach arr f acc t = forEach arr g acc t.
Proof.
  intros H arr. induction arr as [| x rest IH]; intros acc t; simpl;
    [reflexivity |].
  unfold bind. rewrite H. destruct (g x acc t) as [[acc' |] t']; auto.
Qed.

Lemma generateChaptersDataWith_ext (w : World) (v1 v2 : string -> JSVal)
  (config : Config) (oldMangaData : option MangaJSON) :
  (forall name, v1 name = v2 name) ->
  forall t, generateChaptersDataWith w v1 config oldMangaData t
            = generateChaptersDataWith w v2 config oldMangaData t.
Proof.
  intros H t. unfold generateChaptersDataWith, bind.
  rewrite (forEach_ext (processChapterWith w v1 config oldMangaData)
             (processChapterWith w v2 config oldMangaData)); [reflexivity |].
  intros x acc t0. unfold processChapterWith, recordFor. now rewrite H.
Qed.

(** The two [getOldChapterViews] agree on a chapter whose previous [views]
    is a number, and on a chapter without a previous record. *)
Lemma getOldChapterViews_agree (oldMangaData : option MangaJSON) (k : string) :
  (forall oldChapter, oldChapterOf oldMangaData k = Some oldChapter ->
                      exists n, ch_views oldChapter = JNum n) ->
  V62.getOldChapterViews k oldMangaData = V70.getOldChapterViews k oldMangaData.
Proof.
  unfold oldChapterOf, V62.getOldChapterViews, V70.getOldChapterViews.
  destruct oldMangaData as [old |]; [| reflexivity].
  destruct (chapters old) as [chs |]; [| reflexivity].
  destruct (obj_get chs k) as [oc |]; [| reflexivity].
  intros H. destruct (H oc eq_refl) as [n ->]. simpl.
  destruct (Z.eqb_spec n 0) as [-> |]; reflexivity.
Qed.

(** C9.  When every chapter record of the previous catalog has a
    non-negative integer as [views], the v6.2 [generateChaptersData] called
    with [isFirstTime = false] and the v7.0 [generateChaptersData] do the
    same on the same inputs: the same map, the same [lastChapterUpdate], the
    same number of clock readings. *)
Theorem C9_versions_agree :
  forall (w : World) (config : Config) (oldMangaData : option MangaJSON)
         (t : nat),
    (forall k oldChapter,
        oldChapterOf oldMangaData k = Some oldChapter ->
        exists n, 0 <= n /\ ch_views oldChapter = JNum n) ->
    V62.generateChaptersData w config oldMangaData false t
    = V70.generateChaptersData w config oldMangaData t.
Proof.
  intros w config old t Hviews.
  rewrite V62_generateChaptersData_unfold, V70_generateChaptersData_unfold.
  apply generateChaptersDataWith_ext. intros name.
  apply getOldChapterViews_agree. intros oc Hoc.
  destruct (Hviews name oc Hoc) as (n & _ & Hn). now exists n.
Qed.

(** C9 on a previous catalog whose two records have 0 and 40 views. *)
Lemma C9_witness :
  V62.generateChaptersData (exampleWorld ["1"; "3.5"]) (exampleConfig ["5"])
    (Some (exampleCatalog [("1", exampleRecord "1" false 0);
                           ("5", exampleRecord "5" true 40)])) false 0%nat
  = V70.generateChaptersData (exampleWorld ["1"; "3.5"]) (exampleConfig ["5"])
      (Some (exampleCatalog [("1", exampleRecord "1" false 0);
                             ("5", exampleRecord "5" true 40)])) 0%nat.
Proof.
  apply C9_versions_agree.
  intros k oldChapter H.
  unfold oldChapterOf, exampleCatalog in H. cbn [chapters obj_get] in H.
  destruct ("1" =? k)%string.
  - injection H as <-. exists 0. split; [lia | reflexivity].
  - destruct ("5" =? k)%string; [| discriminate].
    injection H as <-. exists 40. split; [lia | reflexivity].
Defined.

(* ================================================================= *)
(** * Further properties of the generator *)

(** ** The folder enumerator *)

Lemma valid_not_hidden (name : string) :
  validIdentity name = true -> startsWith name "." = false.
Proof.
  unfold validIdentity. intros H. apply orb_prop in H. destruct H as [H | H].
  - destruct (isNumericChapter_head name H) as (c & rest & -> & Hc).
    digit_cases c Hc; reflexivity.
  - unfold isOneshotFolder in H. destruct name as [| c rest]; [discriminate |].
    cbn [toLowerCase] in H. cbn [startsWith].
    destruct (Ascii.eqb_spec "."%char c) as [<- | Hne]; [discriminate |].
    reflexivity.
Qed.

Lemma filter_valid_hidden (dirents : list Dirent) :
  filter validIdentity
    (map d_name
       (filter (fun dirent => negb (startsWith (d_name dirent) ".")) dirents))
  = filter validIdentity (map d_name dirents).
Proof.
  induction dirents as [| d rest IH]; [reflexivity |].
  cbn [filter map].
  destruct (startsWith (d_name d) ".") eqn:E; cbn [negb filter map].
  - rewrite IH.
    destruct (validIdentity (d_name d)) eqn:V; [| reflexivity].
    rewrite (valid_not_hidden _ V) in E. discriminate.
  - now rewrite IH.
Qed.

(** The enumerator returns nothing when the listing throws; otherwise it
    returns the names of the listed directories that are valid identities,
    each as often as listed (the hidden-entry filter removes none of them),
    in non-decreasing order of sort value. *)
Theorem getChapterFolders_lists_valid_directories :
  forall w : World,
    (readdirSync w = None -> getChapterFolders w = [])
    /\ (forall dirents,
          readdirSync w = Some dirents ->
          Permutation (getChapterFolders w)
            (filter validIdentity (map d_name (filter d_isDirectory dirents)))
          /\ StronglySorted sortLe (getChapterFolders w)).
Proof.
  intros w. unfold getChapterFolders. split.
  - now intros ->.
  - intros dirents ->.
    change (fun name => isNumericChapter name || isOneshotFolder name)
      with validIdentity.
    split.
    + rewrite Array_sort_perm. now rewrite filter_valid_hidden.
    + apply bySortValue_sorted. apply Forall_forall. intros n Hin.
      apply filter_In in Hin. now apply valid_sort_value_finite.
Qed.

(** ** The identity test *)

Lemma string_app_empty (s : string) : (s ++ "")%string = s.
Proof. induction s as [| c r IH]; simpl; [reflexivity | now rewrite IH]. Qed.

Lemma span_digits_split (s : string) :
  s = (fst (span_digits s) ++ snd (span_digits s))%string.
Proof.
  induction s as [| c rest IH]; [reflexivity |]. cbn [span_digits].
  destruct (is_digit c); [| reflexivity].
  destruct (span_digits rest) as [ds tl]. cbn [fst snd] in *.
  simpl. now rewrite <- IH.
Qed.

Lemma span_digits_stops (s : string) (c : ascii) (r : string) :
  snd (span_digits s) = String c r -> is_digit c = false.
Proof.
  induction s as [| c0 rest IH]; cbn [span_digits]; [discriminate |].
  destruct (is_digit c0) eqn:E.
  - destruct (span_digits rest) as [ds tl]. cbn [snd] in *. exact IH.
  - cbn [snd]. now intros [= <- <-].
Qed.

Lemma span_digits_prefix (a rest : string) :
  all_digits a = true ->
  fst (span_digits rest) = "" ->
  span_digits (a ++ rest) = (a, rest).
Proof.
  intros Ha Hrest. induction a as [| c a' IH]; simpl.
  - pose proof (span_digits_split rest) as S. rewrite Hrest in S.
    destruct (span_digits rest) as [ds tl]. cbn [fst snd] in *. now subst.
  - cbn [all_digits] in Ha. apply andb_prop in Ha. destruct Ha as [Hc Ha].
    rewrite Hc, (IH Ha). reflexivity.
Qed.

(** [isNumericChapter] accepts exactly the strings of the form digits, or
    digits '.' digits, with at least one digit in each group: the language
    of the pattern at line 92. *)
Theorem isNumericChapter_language :
  forall s : string,
    isNumericChapter s = true <->
    exists a,
      a <> "" /\ all_digits a = true
      /\ (s = a
          \/ exists b, b <> "" /\ all_digits b = true
                       /\ s = (a ++ "." ++ b)%string).
Proof.
  intros s. split.
  - unfold isNumericChapter. intros H.
    pose proof (span_digits_split s) as S.
    pose proof (span_digits_all_digits s) as A.
    destruct (span_digits s) as [ds tl]. cbn [fst snd] in *.
    destruct ds as [| c ds']; [discriminate |].
    exists (String c ds'). split; [discriminate |]. split; [exact A |].
    destruct tl as [| d r].
    + left. now rewrite string_app_empty in S.
    + right. cbn [after_char] in H.
      destruct (Ascii.eqb_spec d "."%char) as [-> | ]; [| discriminate].
      pose proof (span_digits_split r) as S'.
      pose proof (span_digits_all_digits r) as A'.
      destruct (span_digits r) as [fs tl']. cbn [fst snd] in *.
      destruct fs as [| f fs']; [discriminate |].
      destruct tl'; [| discriminate].
      rewrite string_app_empty in S'. subst r.
      exists (String f fs'). split; [discriminate |]. split; [exact A' |].
      exact S.
  - intros (a & Hne & Ha & [-> | (b & Hbne & Hb & ->)]).
    + unfold isNumericChapter.
      rewrite <- (string_app_empty a) at 1.
      rewrite (span_digits_prefix a "" Ha eq_refl).
      destruct a; [contradiction | reflexivity].
    + unfold isNumericChapter.
      change (a ++ "." ++ b)%string with (a ++ String "."%char b)%string.
      rewrite (span_digits_prefix a (String "."%char b) Ha eq_refl).
      destruct a as [| c a']; [contradiction |].
      cbn [after_char]. rewrite Ascii.eqb_refl.
      rewrite <- (string_app_empty b).
      rewrite (span_digits_prefix b "" Hb eq_refl).
      destruct b; [contradiction | reflexivity].
Qed.

(** ** The working set and the records *)

Lemma obj_set_fresh {V : Type} (o : JSObject V) (k : string) (v : V) :
  ~ In k (map fst o) -> obj_set o k v = (o ++ [(k, v)])%list.
Proof.
  induction o as [| [k0 v0] rest IH]; simpl; intros H; [reflexivity |].
  destruct (String.eqb_spec k0 k) as [-> | Hne]; [exfalso; auto |].
  rewrite IH; auto.
Qed.

Lemma sortedChapterNames_NoDup (w : World) (config : Config) :
  NoDup (sortedChapterNames w config).
Proof.
  unfold sortedChapterNames.
  apply (Permutation_NoDup (Permutation_sym (Array_sort_perm _ _))).
  apply Set_from_NoDup.
Qed.

(** Names that are new to the object are appended in the order the loop
    visits them. *)
Lemma forEach_processChapterWith_keys (w : World) (viewsOf : string -> JSVal)
  (config : Config) (oldMangaData : option MangaJSON) (names : list string) :
  forall (chs chs' : JSObject ChapterRecord) (t t' : nat),
    NoDup names ->
    (forall k, In k names -> ~ In k (map fst chs)) ->
    forEach names (processChapterWith w viewsOf config oldMangaData) chs t
      = (Normal chs', t') ->
    map fst chs' = (map fst chs ++ names)%list.
Proof.
  induction names as [| x rest IH]; intros chs chs' t t' Hnd Hfresh Hrun.
  - simpl in Hrun. unfold ret in Hrun. injection Hrun as <- <-.
    now rewrite app_nil_r.
  - destruct (chooseUploadDate_returns w config oldMangaData x t)
      as (d & t1 & Hd & _).
    simpl in Hrun. unfold bind at 1 in Hrun.
    unfold processChapterWith at 1 in Hrun. unfold bind at 1 in Hrun.
    rewrite Hd in Hrun. simpl in Hrun.
    inversion Hnd as [| ? ? Hx Hnd']; subst.
    apply IH in Hrun; [| assumption |].
    + rewrite Hrun, obj_set_fresh by (apply Hfresh; now left).
      rewrite map_app. simpl. now rewrite <- app_assoc.
    + intros k Hk. rewrite obj_set_keys. intros [-> | Hin]; [contradiction |].
      apply (Hfresh k); [now right | assumption].
Qed.

Lemma generateChaptersDataWith_keys (w : World) (viewsOf : string -> JSVal)
  (config : Config) (oldMangaData : option MangaJSON) (t t' : nat)
  (chs : JSObject ChapterRecord) (last : option string) :
  generateChaptersDataWith w viewsOf config oldMangaData t
    = (Normal (chs, last), t') ->
  map fst chs = sortedChapterNames w config.
Proof.
  intros Hrun.
  destruct (generateChaptersDataWith_returns w viewsOf config oldMangaData t)
    as (chs0 & last0 & t1 & t0 & Hrun0 & Hloop & _).
  rewrite Hrun in Hrun0. injection Hrun0 as <- <- <-.
  apply forEach_processChapterWith_keys in Hloop;
    [exact Hloop | apply sortedChapterNames_NoDup | intros k _ []].
Qed.

(** Every identity is processed once, however often it is listed: the
    working set has no repetition (a folder that is also in
    [lockedChapters], or an entry written twice there, counts once), and the
    map either script builds has one record per element of the working set,
    created in processing order.  The [lockedChapters] are taken not to name
    [__proto__], which is processed as well but leaves no key. *)
Theorem working_set_processed_once :
  forall (w : World) (config : Config) (oldMangaData : option MangaJSON)
         (isFirstTime : bool) (t : nat),
    ~ In "__proto__" (cfg_lockedChapters config) ->
    NoDup (sortedChapterNames w config)
    /\ (forall k, In k (sortedChapterNames w config) <->
                  In k (getChapterFolders w)
                  \/ In k (cfg_lockedChapters config))
    /\ (exists chs last t',
          V62.generateChaptersData w config oldMangaData isFirstTime t
            = (Normal (chs, last), t')
          /\ map fst chs = sortedChapterNames w config)
    /\ (exists chs last t',
          V70.generateChaptersData w config oldMangaData t
            = (Normal (chs, last), t')
          /\ map fst chs = sortedChapterNames w config).
Proof.
  intros w config old ft t _.
  split; [apply sortedChapterNames_NoDup |].
  split; [intros k; apply sortedChapterNames_In |].
  split.
  - rewrite V62_generateChaptersData_unfold.
    destruct (generateChaptersDataWith_returns w
                (fun n => if ft then JNum 0 else V62.getOldChapterViews n old)
                config old t) as (chs & last & t1 & t' & Hrun & _).
    exists chs, last, t'. split; [exact Hrun |].
    now apply generateChaptersDataWith_keys in Hrun.
  - rewrite V70_generateChaptersData_unfold.
    destruct (generateChaptersDataWith_returns w
                (fun n => V70.getOldChapterViews n old) config old t)
      as (chs & last & t1 & t' & Hrun & _).
    exists chs, last, t'. split; [exact Hrun |].
    now apply generateChaptersDataWith_keys in Hrun.
Qed.

(** Folders 1 and 2 and the locked chapter 5 give three records, in that
    order. *)
Lemma working_set_processed_once_witness :
  exists chs last t',
    V62.generateChaptersData (exampleWorld ["1"; "2"]) (exampleConfig ["5"])
      (Some (exampleCatalog [("5", exampleRecord "5" true 40)])) false 0%nat
      = (Normal (chs, last), t')
    /\ map fst chs = ["1"; "2"; "5"].
Proof.
  destruct (working_set_processed_once (exampleWorld ["1"; "2"])
              (exampleConfig ["5"])
              (Some (exampleCatalog [("5", exampleRecord "5" true 40)]))
              false 0%nat
              ltac:(intros [H | []]; discriminate H))
    as (_ & _ & (chs & last & t' & Hrun & Hkeys) & _).
  exists chs, last, t'. split; [exact Hrun |].
  rewrite Hkeys. reflexivity.
Defined.

(** Every record of the generated map describes its own key: [folder] is
    the key, [title] and [chapter] are the resolver's values for it, [pages]
    repeats [totalPages], and [uploadDate] is a string, never [null]. *)
Theorem generated_records_describe_their_key :
  forall (w : World) (config : Config) (oldMangaData : option MangaJSON)
         (isFirstTime : bool) (t : nat),
    (exists chs last t',
        V62.generateChaptersData w config oldMangaData isFirstTime t
          = (Normal (chs, last), t')
        /\ forall k r, obj_get chs k = Some r ->
             ch_folder r = k
             /\ ch_title r = getChapterTitle k
             /\ ch_chapter r = getChapterNumber k
             /\ ch_pages r = ch_totalPages r
             /\ ch_uploadDate r <> None)
    /\ (exists chs last t',
        V70.generateChaptersData w config oldMangaData t
          = (Normal (chs, last), t')
        /\ forall k r, obj_get chs k = Some r ->
             ch_folder r = k
             /\ ch_title r = getChapterTitle k
             /\ ch_chapter r = getChapterNumber k
             /\ ch_pages r = ch_totalPages r
             /\ ch_uploadDate r <> None).
Proof.
  intros w config old ft t. split.
  - rewrite V62_generateChaptersData_unfold.
    destruct (generateChaptersDataWith_records w
                (fun n => if ft then JNum 0 else V62.getOldChapterViews n old)
                config old t)
      as (chs & last & t1 & t' & Hrun & _ & _ & _ & _ & _ & Hrec & _).
    exists chs, last, t'. split; [exact Hrun |].
    intros k r Hget. destruct (Hrec k r Hget) as (d & ? & ? & -> & _).
    repeat split. discriminate.
  - rewrite V70_generateChaptersData_unfold.
    destruct (generateChaptersDataWith_records w
                (fun n => V70.getOldChapterViews n old) config old t)
      as (chs & last & t1 & t' & Hrun & _ & _ & _ & _ & _ & Hrec & _).
    exists chs, last, t'. split; [exact Hrun |].
    intros k r Hget. destruct (Hrec k r Hget) as (d & ? & ? & -> & _).
    repeat split. discriminate.
Qed.

(** A chapter whose folder exists takes its date from the resolver, asked
    with [isLocked] set to the chapter's membership in [lockedChapters];
    the previous catalog's date for it is not consulted, locked or not. *)
Theorem present_folder_date_comes_from_resolver :
  forall (w : World) (config : Config) (oldMangaData : option MangaJSON)
         (isFirstTime : bool) (t : nat),
  exists chs last t',
    V62.generateChaptersData w config oldMangaData isFirstTime t
      = (Normal (chs, last), t')
    /\ forall k r,
         obj_get chs k = Some r -> checkIfFolderExists w k = true ->
         exists ta tb,
           getUploadDate w k (includes (cfg_lockedChapters config) k) ta
             = (Normal (ch_uploadDate r), tb)
           /\ (t <= ta)%nat /\ (tb <= t')%nat.
Proof.
  intros w config old ft t.
  rewrite V62_generateChaptersData_unfold.
  destruct (generateChaptersDataWith_records w
              (fun n => if ft then JNum 0 else V62.getOldChapterViews n old)
              config old t)
    as (chs & last & t1 & t' & Hrun & _ & _ & Hle & _ & _ & Hrec & _).
  exists chs, last, t'. split; [exact Hrun |].
  intros k r Hget Hf.
  destruct (Hrec k r Hget) as (d & ta & tb & -> & Hdate & Hta & Htb).
  exists ta, tb. unfold chooseUploadDate in Hdate. rewrite Hf in Hdate.
  rewrite andb_false_r in Hdate. cbn [recordFor ch_uploadDate].
  split; [exact Hdate |]. split; lia.
Qed.

(** ** Chapter view counters across a run *)

Lemma V62_getOldChapterViews_cases (oldMangaData : option MangaJSON)
  (k : string) :
  V62.getOldChapterViews k oldMangaData =
    match oldChapterOf oldMangaData k with
    | Some oldChapter =>
        if truthy (ch_views oldChapter) then ch_views oldChapter else JNum 0
    | None => JNum 0
    end.
Proof.
  unfold V62.getOldChapterViews, oldChapterOf.
  destruct oldMangaData as [old |]; [| reflexivity].
  destruct (chapters old); reflexivity.
Qed.

Lemma V70_getOldChapterViews_cases (oldMangaData : option MangaJSON)
  (k : string) :
  V70.getOldChapterViews k oldMangaData =
    match oldChapterOf oldMangaData k with
    | Some oldChapter =>
        match ch_views oldChapter with
        | JUndefined => JNum 0
        | views => views
        end
    | None => JNum 0
    end.
Proof.
  unfold V70.getOldChapterViews, oldChapterOf.
  destruct oldMangaData as [old |]; [| reflexivity].
  destruct (chapters old); reflexivity.
Qed.

(** In v6.2 a first-time run gives every record 0 views, whatever the
    previous catalog holds for the chapter; any other run keeps a previous
    [views] that is truthy and turns every other case (no previous record,
    or a [views] that is absent, 0, [null], [false] or empty) into 0. *)
Theorem V62_chapter_views_rule :
  forall (w : World) (config : Config) (oldMangaData : option MangaJSON)
         (isFirstTime : bool) (t : nat),
  exists chs last t',
    V62.generateChaptersData w config oldMangaData isFirstTime t
      = (Normal (chs, last), t')
    /\ forall k r, obj_get chs k = Some r ->
         (isFirstTime = true -> ch_views r = JNum 0)
         /\ (isFirstTime = false ->
             oldChapterOf oldMangaData k = None -> ch_views r = JNum 0)
         /\ (isFirstTime = false ->
             forall oldChapter,
               oldChapterOf oldMangaData k = Some oldChapter ->
               (truthy (ch_views oldChapter) = true ->
                ch_views r = ch_views oldChapter)
               /\ (truthy (ch_views oldChapter) = false ->
                   ch_views r = JNum 0)).
Proof.
  intros w config old ft t.
  rewrite V62_generateChaptersData_unfold.
  destruct (generateChaptersDataWith_records w
              (fun n => if ft then JNum 0 else V62.getOldChapterViews n old)
              config old t)
    as (chs & last & t1 & t' & Hrun & _ & _ & _ & _ & _ & Hrec & _).
  exists chs, last, t'. split; [exact Hrun |].
  intros k r Hget. destruct (Hrec k r Hget) as (d & ? & ? & -> & _).
  cbn [recordFor ch_views]. rewrite V62_getOldChapterViews_cases.
  split; [now intros -> |]. split.
  - intros -> ->. reflexivity.
  - intros -> oc ->. split; now intros ->.
Qed.

(** In v7.0 a record's [views] is the previous record's [views] whenever
    that property is present, whatever its value ([null] and 0 included) and
    whether or not the previous catalog has a [manga] object; it is 0 when
    there is no previous record or the property is absent. *)
Theorem V70_chapter_views_rule :
  forall (w : World) (config : Config) (oldMangaData : option MangaJSON)
         (t : nat),
  exists chs last t',
    V70.generateChaptersData w config oldMangaData t
      = (Normal (chs, last), t')
    /\ forall k r, obj_get chs k = Some r ->
         (oldChapterOf oldMangaData k = None -> ch_views r = JNum 0)
         /\ (forall oldChapter,
               oldChapterOf oldMangaData k = Some oldChapter ->
               (ch_views oldChapter <> JUndefined ->
                ch_views r = ch_views oldChapter)
               /\ (ch_views oldChapter = JUndefined -> ch_views r = JNum 0)).
Proof.
  intros w config old t.
  rewrite V70_generateChaptersData_unfold.
  destruct (generateChaptersDataWith_records w
              (fun n => V70.getOldChapterViews n old) config old t)
    as (chs & last & t1 & t' & Hrun & _ & _ & _ & _ & _ & Hrec & _).
  exists chs, last, t'. split; [exact Hrun |].
  intros k r Hget. destruct (Hrec k r Hget) as (d & ? & ? & -> & _).
  cbn [recordFor ch_views]. rewrite V70_getOldChapterViews_cases.
  split; [now intros -> |].
  intros oc ->. split.
  - intros Hne. destruct (ch_views oc); congruence.
  - now intros ->.
Qed.

(** ** The order in which the chapters are enumerated *)

Lemma partition_as_filters {A : Type} (f : A -> bool) (l : list A) :
  partition f l = (filter f l, filter (fun x => negb (f x)) l).
Proof.
  induction l as [| x rest IH]; [reflexivity |]. simpl. rewrite IH.
  destruct (f x); reflexivity.
Qed.

Lemma map_fst_filter {V : Type} (f : string -> bool) (o : JSObject V) :
  map fst (filter (fun kv => f (fst kv)) o) = filter f (map fst o).
Proof.
  induction o as [| [k v] rest IH]; [reflexivity |]. simpl.
  destruct (f k); simpl; now rewrite IH.
Qed.

Lemma map_fst_sort_insert {V : Type} (c : string -> string -> JSNum)
  (x : string * V) (l : list (string * V)) :
  map fst (sort_insert (fun a b => c (fst a) (fst b)) x l)
  = sort_insert c (fst x) (map fst l).
Proof.
  induction l as [| y rest IH]; [reflexivity |]. simpl.
  destruct (num_neg (c (fst x) (fst y))); simpl; [reflexivity |].
  now rewrite IH.
Qed.

Lemma map_fst_Array_sort {V : Type} (c : string -> string -> JSNum)
  (l : list (string * V)) :
  map fst (Array_sort (fun a b => c (fst a) (fst b)) l)
  = Array_sort c (map fst l).
Proof.
  unfold Array_sort.
  assert (G : forall acc : list (string * V),
            map fst (fold_left
                       (fun acc x =>
                          sort_insert (fun a b => c (fst a) (fst b)) x acc)
                       l acc)
            = fold_left (fun acc x => sort_insert c x acc) (map fst l)
                (map fst acc)).
  { induction l as [| x rest IH]; intros acc; [reflexivity |]. simpl.
    now rewrite IH, map_fst_sort_insert. }
  apply (G []).
Qed.

Lemma Object_keys_order {V : Type} (o : JSObject V) :
  Object_keys o =
    (Array_sort indexOrder (filter is_array_index (map fst o))
     ++ filter (fun k => negb (is_array_index k)) (map fst o))%list.
Proof.
  unfold Object_keys, Object_entries. rewrite partition_as_filters.
  rewrite map_app.
  change (fun a b : string * V =>
            Fin (inject_Z (digits_val 0 (fst a) - digits_val 0 (fst b))))
    with (fun a b : string * V => indexOrder (fst a) (fst b)).
  rewrite (map_fst_Array_sort indexOrder).
  rewrite (map_fst_filter is_array_index).
  now rewrite (map_fst_filter (fun k => negb (is_array_index k))).
Qed.

Lemma indexOrder_sorted (keys : list string) :
  StronglySorted (fun a b => digits_val 0 a <= digits_val 0 b)
    (Array_sort indexOrder keys).
Proof.
  apply Array_sort_sorted with (P := fun _ => True).
  - intros x y z. lia.
  - intros x y _ _ H. unfold indexOrder in H. simpl in H.
    apply Z.ltb_lt in H. lia.
  - intros x y _ _ H. unfold indexOrder in H. simpl in H.
    apply Z.ltb_ge in H. lia.
  - apply Forall_forall. auto.
Qed.

Lemma oneshot_not_array_index (name : string) :
  isOneshotFolder name = true -> is_array_index name = false.
Proof.
  unfold isOneshotFolder, is_array_index.
  destruct name as [| c rest]; [discriminate |].
  cbn [toLowerCase span_digits]. intros H.
  destruct (is_digit c) eqn:E; [| reflexivity].
  exfalso. digit_cases c E; discriminate H.
Qed.

(** [Object.keys] of the generated map, the order in which the document is
    written: first the identities that are canonical integers, in ascending
    numeric order, then every other identity (decimals such as 3.5, and the
    oneshot identity, although it is processed first) in processing order.
    The [lockedChapters] are taken not to name [__proto__], which leaves no
    key in the map. *)
Theorem generated_chapters_enumeration_order :
  forall (w : World) (config : Config) (oldMangaData : option MangaJSON)
         (isFirstTime : bool) (t : nat),
    ~ In "__proto__" (cfg_lockedChapters config) ->
    (forall special,
        isOneshotFolder special = true -> is_array_index special = false)
    /\ exists chs last t',
         V62.generateChaptersData w config oldMangaData isFirstTime t
           = (Normal (chs, last), t')
         /\ Object_keys chs =
              (Array_sort indexOrder
                 (filter is_array_index (sortedChapterNames w config))
               ++ filter (fun k => negb (is_array_index k))
                    (sortedChapterNames w config))%list
         /\ StronglySorted (fun a b => digits_val 0 a <= digits_val 0 b)
              (Array_sort indexOrder
                 (filter is_array_index (sortedChapterNames w config))).
Proof.
  intros w config old ft t _.
  split; [exact oneshot_not_array_index |].
  rewrite V62_generateChaptersData_unfold.
  destruct (generateChaptersDataWith_returns w
              (fun n => if ft then JNum 0 else V62.getOldChapterViews n old)
              config old t) as (chs & last & t1 & t' & Hrun & _).
  exists chs, last, t'. split; [exact Hrun |].
  apply generateChaptersDataWith_keys in Hrun.
  split; [| apply indexOrder_sorted].
  now rewrite Object_keys_order, Hrun.
Qed.

(** With the folders Oneshot, 2 and 10 and the locked chapter 3.5, the
    records are created for Oneshot, 2, 3.5 and 10 in that order, and the
    document lists 2, 10, Oneshot, 3.5. *)
Lemma generated_chapters_enumeration_order_witness :
  exists chs last t',
    V62.generateChaptersData (exampleWorld ["10"; "2"; "Oneshot"])
      (exampleConfig ["3.5"]) None true 0%nat
      = (Normal (chs, last), t')
    /\ map fst chs = ["Oneshot"; "2"; "3.5"; "10"]
    /\ Object_keys chs = ["2"; "10"; "Oneshot"; "3.5"].
Proof.
  destruct (generated_chapters_enumeration_order
              (exampleWorld ["10"; "2"; "Oneshot"]) (exampleConfig ["3.5"])
              None true 0%nat
              ltac:(intros [H | []]; discriminate H))
    as (_ & chs & last & t' & Hrun & Hkeys & _).
  exists chs, last, t'. split; [exact Hrun |].
  split; [| rewrite Hkeys; reflexivity].
  vm_compute in Hrun. injection Hrun as <- _ _. reflexivity.
Defined.

(** ** The document [commandGenerate] saves *)

Lemma endChapterOf_iff (config : Config) (e : JSVal) :
  endChapterOf config = Some e <->
  cfg_status config = JStr "END"
  /\ truthy (cfg_endChapter config) = true
  /\ e = cfg_endChapter config.
Proof.
  unfold endChapterOf. split.
  - destruct (cfg_status config) as [| | | | s | |]; try discriminate.
    destruct (String.eqb_spec s "END") as [-> |]; [| discriminate].
    destruct (truthy (cfg_endChapter config)); [| discriminate].
    intros [= <-]. auto.
  - intros (-> & -> & ->). reflexivity.
Qed.

(** The document either [commandGenerate] hands to [saveJSON] holds the map
    and the [lastChapterUpdate] that [generateChaptersData] returned,
    [lastUpdated] is the clock reading taken after them, [lockedChapters]
    is the configuration's list, and [endChapter] is present exactly when
    [status] is the string 'END' and the configuration's [endChapter] is
    truthy, and is then that value. *)
Theorem commandGenerate_document :
  forall (w : World) (config : Config) (oldMangaData : option MangaJSON)
         (t : nat),
    (exists chs last t1 info,
        V62.generateChaptersData w config oldMangaData
          match oldMangaData with
          | Some old => match manga old with Some _ => false | None => true end
          | None => true
          end t = (Normal (chs, last), t1)
        /\ V62.commandGenerate w config oldMangaData t =
             (Normal {| manga := Some info; chapters := Some chs;
                        lastUpdated := Some (clock w t1);
                        lastChapterUpdate := last |}, S t1)
        /\ m_lockedChapters info = cfg_lockedChapters config
        /\ forall e, m_endChapter info = Some e <->
                     cfg_status config = JStr "END"
                     /\ truthy (cfg_endChapter config) = true
                     /\ e = cfg_endChapter config)
    /\ (exists chs last t1 info,
        V70.generateChaptersData w config oldMangaData t
          = (Normal (chs, last), t1)
        /\ V70.commandGenerate w config oldMangaData t =
             (Normal {| manga := Some info; chapters := Some chs;
                        lastUpdated := Some (clock w t1);
                        lastChapterUpdate := last |}, S t1)
        /\ m_lockedChapters info = cfg_lockedChapters config
        /\ forall e, m_endChapter info = Some e <->
                     cfg_status config = JStr "END"
                     /\ truthy (cfg_endChapter config) = true
                     /\ e = cfg_endChapter config).
Proof.
  intros w config old t. split.
  - set (ft := match old with
               | Some o => match manga o with Some _ => false | None => true end
               | None => true end).
    destruct (generateChaptersDataWith_returns w
                (fun n => if ft then JNum 0 else V62.getOldChapterViews n old)
                config old t) as (chs & last & _ & t1 & Hrun & _).
    rewrite <- V62_generateChaptersData_unfold in Hrun.
    exists chs, last, t1. eexists. split; [exact Hrun |].
    split.
    { unfold V62.commandGenerate, bind. fold ft. rewrite Hrun. reflexivity. }
    split; [reflexivity | intros e; apply endChapterOf_iff].
  - destruct (generateChaptersDataWith_returns w
                (fun n => V70.getOldChapterViews n old) config old t)
      as (chs & last & _ & t1 & Hrun & _).
    rewrite <- V70_generateChaptersData_unfold in Hrun.
    exists chs, last, t1. eexists. split; [exact Hrun |].
    split.
    { unfold V70.commandGenerate, bind. rewrite Hrun. reflexivity. }
    split; [reflexivity | intros e; apply endChapterOf_iff].
Qed.

(* ================================================================= *)
(** * Properties of the commands on the files *)

(** ** Creating the pending files *)


(** [ensurePendingFilesExist] always runs to its end.  It never touches
    manga.json or daily-views.json, and leaves a pending file that is there
    exactly as it is, parsable or not.  A pending file that is missing is
    created with a zero counter (an empty [chapters] object) when it can be
    written, and stays missing otherwise. *)
Theorem ensurePendingFilesExist_creates_only_missing_files :
  forall (w : World) (h : Host) (d : Disk) (t : nat),
  exists d' t',
    V62Cmd.ensurePendingFilesExist w h d t = (Goes tt, d', t')
    /\ (t <= t')%nat
    /\ manga_json d' = manga_json d
    /\ daily_views_json d' = daily_views_json d
    /\ (fileExists (pending_views_json d) = true ->
        pending_views_json d' = pending_views_json d)
    /\ (fileExists (pending_chapter_views_json d) = true ->
        pending_chapter_views_json d' = pending_chapter_views_json d)
    /\ (fileExists (pending_views_json d) = false ->
        if canWrite h PendingViewsJson
        then pending_views_json d'
             = Holds {| pv_pendingViews := Some 0;
                        pv_lastIncrement := Some (clock w t);
                        pv_lastUpdate := Some (clock w (S t)) |}
        else pending_views_json d' = Absent)
    /\ (fileExists (pending_chapter_views_json d) = false ->
        if canWrite h PendingChapterViewsJson
        then exists n, (t <= n < t')%nat
               /\ pending_chapter_views_json d'
                  = Holds {| pcv_chapters := Some [];
                             pcv_lastUpdated := Some (clock w n) |}
        else pending_chapter_views_json d' = Absent).
Proof.
  intros w h d t.
  unfold V62Cmd.ensurePendingFilesExist, cbind, readDisk, cret, now, lift,
    getWIBTimestamp, saveJSON.
  destruct d as [mj pv pcv dv]. cbn [pending_views_json].
  destruct pv as [| |pvd], pcv as [| |pcvd];
    cbn [fileExists negb];
    destruct (canWrite h PendingViewsJson) eqn:W1;
    destruct (canWrite h PendingChapterViewsJson) eqn:W2;
    cbn [fileExists negb set_pending_views_json set_pending_chapter_views_json
         pending_views_json pending_chapter_views_json manga_json
         daily_views_json];
    do 2 eexists; (split; [reflexivity |]);
    cbn [fileExists negb set_pending_views_json set_pending_chapter_views_json
         pending_views_json pending_chapter_views_json manga_json
         daily_views_json];
    repeat split; try discriminate; try lia; auto;
    intros _; eexists; (split; [| reflexivity]); lia.
Qed.

Lemma ensurePendingFilesExist_frame (w : World) (h : Host) (d : Disk) (t : nat) :
  exists d' t',
    V62Cmd.ensurePendingFilesExist w h d t = (Goes tt, d', t')
    /\ (t <= t')%nat
    /\ manga_json d' = manga_json d
    /\ daily_views_json d' = daily_views_json d
    /\ (fileExists (pending_views_json d) = true ->
        pending_views_json d' = pending_views_json d)
    /\ (fileExists (pending_chapter_views_json d) = true ->
        pending_chapter_views_json d' = pending_chapter_views_json d).
Proof.
  unfold V62Cmd.ensurePendingFilesExist, cbind, readDisk, cret, now, lift,
    getWIBTimestamp, saveJSON.
  destruct d as [mj pv pcv dv]. cbn [pending_views_json].
  destruct pv as [| |pvd], pcv as [| |pcvd];
    cbn [fileExists negb];
    destruct (canWrite h PendingViewsJson) eqn:W1;
    destruct (canWrite h PendingChapterViewsJson) eqn:W2;
    cbn [fileExists negb set_pending_views_json set_pending_chapter_views_json
         pending_views_json pending_chapter_views_json manga_json
         daily_views_json];
    do 2 eexists; (split; [reflexivity |]);
    cbn [fileExists negb set_pending_views_json set_pending_chapter_views_json
         pending_views_json pending_chapter_views_json manga_json
         daily_views_json];
    repeat split; try discriminate; try lia; auto.
Qed.

(** ** Moving the pending work views into manga.json *)

(** When both files are there, the pending counter [p] has reached the
    threshold, the work's [views] is a number [v] and both writes succeed,
    [commandUpdateViews] runs to its end with [views = v + p] in manga.json
    (nothing else in it changed) and the pending counter reset to 0: the
    sum of the two is what it was.  [lastIncrement] is kept, [lastUpdate]
    is a clock reading of this run, daily-views.json is not touched.  The
    two numbers and their sum are safe integers, on which the addition of
    the script is exact. *)
Theorem commandUpdateViews_moves_pending_into_views :
  forall (w : World) (h : Host) (d : Disk) (t : nat)
         (pendingData : PendingViews) (mangaData : MangaJSON)
         (info : MangaInfo) (v : Z),
    pending_views_json d = Holds pendingData ->
    manga_json d = Holds mangaData ->
    manga mangaData = Some info ->
    m_views info = JNum v ->
    1 <= orZero (pv_pendingViews pendingData) ->
    canWrite h MangaJson = true ->
    canWrite h PendingViewsJson = true ->
    safeInteger v ->
    safeInteger (orZero (pv_pendingViews pendingData)) ->
    safeInteger (v + orZero (pv_pendingViews pendingData)) ->
    exists d' t' n info',
      V62Cmd.commandUpdateViews w h d t = (Goes tt, d', t')
      /\ manga_json d'
         = Holds (V62Cmd.withMangaViews mangaData info
                    (orZero (pv_pendingViews pendingData)))
      /\ manga (V62Cmd.withMangaViews mangaData info
                  (orZero (pv_pendingViews pendingData))) = Some info'
      /\ m_views info' = JNum (v + orZero (pv_pendingViews pendingData))
      /\ (t <= n < t')%nat
      /\ pending_views_json d'
         = Holds {| pv_pendingViews := Some 0;
                    pv_lastIncrement := pv_lastIncrement pendingData;
                    pv_lastUpdate := Some (clock w n) |}
      /\ daily_views_json d' = daily_views_json d.
Proof.
  intros w h d t pd md info v Hpv Hm Hinfo Hv Hp Wm Wp _ _ _.
  destruct (ensurePendingFilesExist_frame w h d t)
    as (d1 & t1 & He & Hle & Hm1 & Hd1 & Hpv1 & _).
  rewrite Hpv in Hpv1. specialize (Hpv1 eq_refl). rewrite Hm in Hm1.
  exists (set_pending_views_json
            (set_manga_json d1
               (Holds (V62Cmd.withMangaViews md info
                         (orZero (pv_pendingViews pd)))))
            (Holds {| pv_pendingViews := Some 0;
                      pv_lastIncrement := pv_lastIncrement pd;
                      pv_lastUpdate := Some (clock w t1) |})),
    (S t1), t1. eexists.
  split.
  { unfold V62Cmd.commandUpdateViews, cbind. rewrite He.
    unfold loadJSON. rewrite Hpv1, Hm1.
    destruct (Z.ltb_spec (orZero (pv_pendingViews pd)) 1) as [Hlt |]; [lia |].
    rewrite Hinfo. unfold saveJSON, now, lift, getWIBTimestamp, cret.
    rewrite Wm, Wp. reflexivity. }
  split; [reflexivity |]. split; [reflexivity |].
  split; [cbn [m_views]; now rewrite Hv |].
  split; [lia |]. split; [reflexivity | exact Hd1].
Qed.

(** Seven work views and three pending ones make ten. *)
Lemma commandUpdateViews_moves_pending_into_views_witness :
  exists d' t' doc info,
    V62Cmd.commandUpdateViews (exampleWorld ["1"]) (exampleHost allWritable)
      (exampleDisk (Some 3) (Holds examplePendingChapters)) 0%nat
    = (Goes tt, d', t')
    /\ manga_json d' = Holds doc
    /\ manga doc = Some info
    /\ m_views info = JNum 10.
Proof.
  destruct (commandUpdateViews_moves_pending_into_views
              (exampleWorld ["1"]) (exampleHost allWritable)
              (exampleDisk (Some 3) (Holds examplePendingChapters)) 0%nat
              _ _ _ 7 eq_refl eq_refl eq_refl eq_refl
              ltac:(cbn [orZero pv_pendingViews]; lia) eq_refl eq_refl
              ltac:(split; reflexivity) ltac:(split; reflexivity)
              ltac:(split; reflexivity))
    as (d' & t' & n & info' & Hrun & Hm & Hinfo & Hv & _).
  exists d', t'. do 2 eexists.
  split; [exact Hrun |]. split; [exact Hm |]. split; [exact Hinfo |].
  exact Hv.
Defined.

(** [commandUpdateViews] leaves manga.json and pending-views.json as they
    are, and ends through [process.exit], when there is nothing it can
    add: exit code 0 when the pending counter is below the threshold,
    exit code 1 when manga.json is missing or unparsable or cannot be
    written. *)
Theorem commandUpdateViews_exits_without_writing :
  forall (w : World) (h : Host) (d : Disk) (t : nat)
         (pendingData : PendingViews),
    pending_views_json d = Holds pendingData ->
    exists d' t',
      manga_json d' = manga_json d
      /\ pending_views_json d' = pending_views_json d
      /\ (forall mangaData,
            manga_json d = Holds mangaData ->
            orZero (pv_pendingViews pendingData) < 1 ->
            V62Cmd.commandUpdateViews w h d t = (Exits 0, d', t'))
      /\ (forall mangaData info,
            manga_json d = Holds mangaData ->
            manga mangaData = Some info ->
            1 <= orZero (pv_pendingViews pendingData) ->
            canWrite h MangaJson = false ->
            V62Cmd.commandUpdateViews w h d t = (Exits 1, d', t'))
      /\ (manga_json d = Absent \/ manga_json d = Unparsable ->
          V62Cmd.commandUpdateViews w h d t = (Exits 1, d', t')).
Proof.
  intros w h d t pd Hpv.
  destruct (ensurePendingFilesExist_frame w h d t)
    as (d1 & t1 & He & Hle & Hm1 & Hd1 & Hpv1 & _).
  rewrite Hpv in Hpv1. specialize (Hpv1 eq_refl).
  exists d1, t1.
  split; [exact Hm1 |]. split; [now rewrite Hpv1, Hpv |].
  split; [| split].
  - intros md Em Hlt. rewrite Em in Hm1.
    unfold V62Cmd.commandUpdateViews, cbind. rewrite He.
    unfold loadJSON. rewrite Hpv1, Hm1.
    destruct (Z.ltb_spec (orZero (pv_pendingViews pd)) 1); [reflexivity | lia].
  - intros md info Em Ei Hge Wm. rewrite Em in Hm1.
    unfold V62Cmd.commandUpdateViews, cbind. rewrite He.
    unfold loadJSON. rewrite Hpv1, Hm1.
    destruct (Z.ltb_spec (orZero (pv_pendingViews pd)) 1); [lia |].
    rewrite Ei. unfold saveJSON. rewrite Wm. reflexivity.
  - intros [Em | Em]; rewrite Em in Hm1;
      unfold V62Cmd.commandUpdateViews, cbind; rewrite He;
      unfold loadJSON; rewrite Hpv1, Hm1; reflexivity.
Qed.

(** With no pending views the command ends with exit code 0 and manga.json
    as it was. *)
Lemma commandUpdateViews_exits_without_writing_witness :
  exists d' t',
    V62Cmd.commandUpdateViews (exampleWorld ["1"]) (exampleHost allWritable)
      (exampleDisk (Some 0) (Holds examplePendingChapters)) 0%nat
    = (Exits 0, d', t')
    /\ manga_json d'
       = manga_json (exampleDisk (Some 0) (Holds examplePendingChapters)).
Proof.
  destruct (commandUpdateViews_exits_without_writing
              (exampleWorld ["1"]) (exampleHost allWritable)
              (exampleDisk (Some 0) (Holds examplePendingChapters)) 0%nat
              _ eq_refl)
    as (d' & t' & Hm & _ & H0 & _).
  exists d', t'. split; [| exact Hm].
  apply (H0 _ eq_refl). cbn [orZero pv_pendingViews]. lia.
Defined.

(** When manga.json can be written and pending-views.json cannot,
    [commandUpdateViews] still runs to its end: the work's [views] has
    grown by the pending counter [p] while the counter keeps its value, so
    a second run adds [p] once more.  The numbers and the two sums are safe
    integers, on which the addition of the script is exact. *)
Theorem commandUpdateViews_counts_twice_when_reset_fails :
  forall (w : World) (h : Host) (d : Disk) (t : nat)
         (pendingData : PendingViews) (mangaData : MangaJSON)
         (info : MangaInfo) (v : Z),
    pending_views_json d = Holds pendingData ->
    manga_json d = Holds mangaData ->
    manga mangaData = Some info ->
    m_views info = JNum v ->
    1 <= orZero (pv_pendingViews pendingData) ->
    canWrite h MangaJson = true ->
    canWrite h PendingViewsJson = false ->
    safeInteger v ->
    safeInteger (orZero (pv_pendingViews pendingData)) ->
    safeInteger (v + orZero (pv_pendingViews pendingData)) ->
    safeInteger (v + orZero (pv_pendingViews pendingData)
                   + orZero (pv_pendingViews pendingData)) ->
    exists d1 t1 d2 t2 mangaData1 info1 mangaData2 info2,
      V62Cmd.commandUpdateViews w h d t = (Goes tt, d1, t1)
      /\ pending_views_json d1 = Holds pendingData
      /\ manga_json d1 = Holds mangaData1
      /\ manga mangaData1 = Some info1
      /\ m_views info1 = JNum (v + orZero (pv_pendingViews pendingData))
      /\ V62Cmd.commandUpdateViews w h d1 t1 = (Goes tt, d2, t2)
      /\ pending_views_json d2 = Holds pendingData
      /\ manga_json d2 = Holds mangaData2
      /\ manga mangaData2 = Some info2
      /\ m_views info2
         = JNum (v + orZero (pv_pendingViews pendingData)
                   + orZero (pv_pendingViews pendingData)).
Proof.
  intros w h d t pd md info v Hpv Hm Hinfo Hv Hp Wm Wp _ _ _ _.
  assert (Once : forall d t md info v,
            pending_views_json d = Holds pd ->
            manga_json d = Holds md ->
            manga md = Some info ->
            m_views info = JNum v ->
            exists d1 t1,
              V62Cmd.commandUpdateViews w h d t = (Goes tt, d1, t1)
              /\ pending_views_json d1 = Holds pd
              /\ manga_json d1
                 = Holds (V62Cmd.withMangaViews md info
                            (orZero (pv_pendingViews pd)))).
  { clear d t md info v Hpv Hm Hinfo Hv. intros d t md info v Hpv Hm Hinfo Hv.
    destruct (ensurePendingFilesExist_frame w h d t)
      as (d1 & t1 & He & Hle & Hm1 & Hd1 & Hpv1 & _).
    rewrite Hpv in Hpv1. specialize (Hpv1 eq_refl). rewrite Hm in Hm1.
    do 2 eexists. split.
    { unfold V62Cmd.commandUpdateViews, cbind. rewrite He.
      unfold loadJSON. rewrite Hpv1, Hm1.
      destruct (Z.ltb_spec (orZero (pv_pendingViews pd)) 1); [lia |].
      rewrite Hinfo. unfold saveJSON, now, lift, getWIBTimestamp, cret.
      rewrite Wm, Wp. reflexivity. }
    split; [exact Hpv1 | reflexivity]. }
  destruct (Once d t md info v Hpv Hm Hinfo Hv) as (d1 & t1 & R1 & P1 & M1).
  destruct (Once d1 t1 _ _ (v + orZero (pv_pendingViews pd)) P1 M1 eq_refl)
    as (d2 & t2 & R2 & P2 & M2).
  { cbn [m_views]. now rewrite Hv. }
  exists d1, t1, d2, t2. do 4 eexists.
  split; [exact R1 |]. split; [exact P1 |]. split; [exact M1 |].
  split; [reflexivity |]. split; [cbn [m_views]; now rewrite Hv |].
  split; [exact R2 |]. split; [exact P2 |]. split; [exact M2 |].
  split; [reflexivity |]. cbn [m_views]. now rewrite Hv.
Qed.

(** With pending-views.json read-only, two runs turn seven work views into
    thirteen. *)
Lemma commandUpdateViews_counts_twice_when_reset_fails_witness :
  exists d1 t1 d2 t2 doc info,
    V62Cmd.commandUpdateViews (exampleWorld ["1"])
      (exampleHost pendingViewsReadOnly)
      (exampleDisk (Some 3) (Holds examplePendingChapters)) 0%nat
    = (Goes tt, d1, t1)
    /\ V62Cmd.commandUpdateViews (exampleWorld ["1"])
         (exampleHost pendingViewsReadOnly) d1 t1
       = (Goes tt, d2, t2)
    /\ manga_json d2 = Holds doc
    /\ manga doc = Some info
    /\ m_views info = JNum 13.
Proof.
  destruct (commandUpdateViews_counts_twice_when_reset_fails
              (exampleWorld ["1"]) (exampleHost pendingViewsReadOnly)
              (exampleDisk (Some 3) (Holds examplePendingChapters)) 0%nat
              _ _ _ 7 eq_refl eq_refl eq_refl eq_refl
              ltac:(cbn [orZero pv_pendingViews]; lia) eq_refl eq_refl
              ltac:(split; reflexivity) ltac:(split; reflexivity)
              ltac:(split; reflexivity) ltac:(split; reflexivity))
    as (d1 & t1 & d2 & t2 & m1 & i1 & m2 & i2
        & R1 & _ & _ & _ & _ & R2 & _ & Hm & Hi & Hv).
  exists d1, t1, d2, t2, m2, i2.
  split; [exact R1 |]. split; [exact R2 |]. split; [exact Hm |].
  split; [exact Hi | exact Hv].
Defined.

(** ** Moving the pending chapter views into manga.json *)

Lemma obj_set_existing_keys {V : Type} (o : JSObject V) (k : string) (v : V) :
  In k (map fst o) -> map fst (obj_set o k v) = map fst o.
Proof.
  induction o as [| [k0 v0] rest IH]; simpl; [intros [] |].
  destruct (String.eqb_spec k0 k) as [-> | Hne]; [reflexivity |].
  intros [Heq | Hin]; [contradiction |]. simpl. now rewrite IH.
Qed.

Lemma obj_get_Some_key {V : Type} (o : JSObject V) (k : string) (v : V) :
  obj_get o k = Some v -> In k (map fst o).
Proof.
  intros H. apply obj_get_In in H. change k with (fst (k, v)).
  now apply in_map.
Qed.

Section ChapterViewsLoop.
Variable w : World.
Variable h : Host.
Variable m0 : JSObject ChapterRecord.
Variable p0 : JSObject PendingChapter.

Lemma updateChapter_loop (keys : list string) :
  (forall k, In k keys -> obj_get p0 k <> None) ->
  forall (done : list string) (st : V62Cmd.ChapterViewsState) (d : Disk) (t : nat),
    loopInvariant w m0 p0 done st ->
    exists st' t',
      cforEach keys (V62Cmd.updateChapter w) st d t = (Goes st', d, t')
      /\ (t <= t')%nat
      /\ loopInvariant w m0 p0 (done ++ keys) st'.
Proof.
  induction keys as [| x rest IH]; intros Hkeys done st d t Hinv.
  - exists st, t. rewrite app_nil_r. repeat split; auto.
  - assert (Hx : obj_get p0 x <> None) by (apply Hkeys; now left).
    assert (Hrest : forall k, In k rest -> obj_get p0 k <> None)
      by (intros k Hk; apply Hkeys; now right).
    assert (Step : exists st1 t1,
              V62Cmd.updateChapter w x st d t = (Goes st1, d, t1)
              /\ (t <= t1)%nat /\ loopInvariant w m0 p0 (done ++ [x]) st1).
    { destruct Hinv as (m & Hm & Km & Kp & Hc & Hupd & Hsame).
      unfold V62Cmd.updateChapter.
      destruct (due m0 p0 x) eqn:Edue.
      - destruct (in_dec string_dec x done) as [Hin | Hnin].
        + destruct (Hupd x Hin Edue) as (ch & pc & n & G0 & P0 & Gm & Gp).
          rewrite Gp, Hm, Gm. cbn [pc_pendingViews orZero].
          change (1 <=? 0) with false. cbv iota.
          exists st, t. split; [reflexivity |]. split; [lia |].
          exists m. split; [exact Hm |]. split; [exact Km |].
          split; [exact Kp |]. split; [| split].
          * rewrite existsb_app. simpl. rewrite Edue, Hc.
            rewrite orb_true_r.
            apply existsb_exists. exists x. auto.
          * intros k Hk Hd. apply in_app_or in Hk.
            destruct Hk as [Hk | [<- | []]]; now apply Hupd.
          * intros k Hk. apply Hsame.
            destruct Hk as [Hk | Hk]; [left | now right].
            intros Hk'. apply Hk. apply in_or_app. now left.
        + destruct (Hsame x (or_introl Hnin)) as [Sm Sp].
          unfold due in Edue.
          destruct (obj_get m0 x) as [ch |] eqn:G0; [| discriminate].
          destruct (obj_get p0 x) as [pc |] eqn:P0; [| discriminate].
          rewrite Sp, Hm, Sm, Edue.
          unfold cbind, now, lift, getWIBTimestamp, cret.
          do 2 eexists. split; [reflexivity |]. split; [lia |].
          eexists. cbn [V62Cmd.st_mangaChapters V62Cmd.st_pendingChapters V62Cmd.st_hasChanges].
          split; [reflexivity |].
          split.
          { rewrite obj_set_existing_keys; [exact Km |].
            now apply obj_get_Some_key with ch. }
          split.
          { rewrite obj_set_existing_keys; [exact Kp |].
            rewrite Kp. now apply obj_get_Some_key with pc. }
          split.
          { rewrite existsb_app. simpl. unfold due at 2. rewrite G0, P0, Edue.
            now rewrite orb_true_r. }
          split.
          * intros k Hk Hd. apply in_app_or in Hk.
            destruct (string_dec x k) as [<- | Hne].
            -- exists ch, pc, t. rewrite !obj_get_set_same. auto.
            -- destruct Hk as [Hk | [Heq | []]]; [| contradiction].
               destruct (Hupd k Hk Hd) as (ch' & pc' & n & A & B & C & D).
               exists ch', pc', n. rewrite !obj_get_set_other by assumption.
               auto.
          * intros k Hk.
            assert (Hne : x <> k).
            { intros <-. destruct Hk as [Hk | Hk].
              - apply Hk. apply in_or_app. right. now left.
              - unfold due in Hk. rewrite G0, P0, Edue in Hk. discriminate. }
            rewrite !obj_get_set_other by assumption.
            apply Hsame. destruct Hk as [Hk | Hk]; [left | now right].
            intros Hk'. apply Hk. apply in_or_app. now left.
      - destruct (Hsame x (or_intror Edue)) as [Sm Sp].
        destruct (obj_get p0 x) as [pc |] eqn:P0; [| contradiction].
        rewrite Sp, Hm, Sm.
        assert (Stay : match obj_get m0 x with
                       | Some chapter =>
                           if 1 <=? orZero (pc_pendingViews pc)
                           then cbind (now w) (fun lastUpdate =>
                                  cret {| V62Cmd.st_mangaChapters :=
                                            Some (obj_set m x
                                                    (V62Cmd.withChapterViews chapter
                                                       (orZero (pc_pendingViews pc))));
                                          V62Cmd.st_pendingChapters :=
                                            obj_set (V62Cmd.st_pendingChapters st) x
                                              {| pc_pendingViews := Some 0;
                                                 pc_lastUpdate := Some lastUpdate;
                                                 pc_rest := pc_rest pc |};
                                          V62Cmd.st_hasChanges := true |})
                           else cret st
                       | None => cret st
                       end d t = (Goes st, d, t)).
        { unfold due in Edue. rewrite P0 in Edue.
          destruct (obj_get m0 x); [rewrite Edue |]; reflexivity. }
        exists st, t. split; [exact Stay |]. split; [lia |].
        exists m. split; [exact Hm |]. split; [exact Km |].
        split; [exact Kp |]. split; [| split].
        * rewrite existsb_app. simpl. now rewrite Edue, Hc, !orb_false_r.
        * intros k Hk Hd. apply in_app_or in Hk.
          destruct Hk as [Hk | [<- | []]]; [now apply Hupd | congruence].
        * intros k Hk. apply Hsame.
          destruct Hk as [Hk | Hk]; [left | now right].
          intros Hk'. apply Hk. apply in_or_app. now left. }
    destruct Step as (st1 & t1 & Hstep & Hle & Hinv1).
    destruct (IH Hrest (done ++ [x])%list st1 d t1 Hinv1)
      as (st' & t' & Hrun & Hle' & Hinv').
    exists st', t'. split.
    { simpl. unfold cbind. now rewrite Hstep. }
    split; [lia |]. now rewrite <- app_assoc in Hinv'.
Qed.
End ChapterViewsLoop.

Lemma existsb_due_keys (m0 : JSObject ChapterRecord)
  (p0 : JSObject PendingChapter) :
  existsb (due m0 p0) (Object_keys p0) = true <->
  exists k, due m0 p0 k = true.
Proof.
  rewrite existsb_exists. split.
  - intros (k & _ & Hk). now exists k.
  - intros (k & Hk). exists k. split; [| exact Hk].
    apply Object_keys_In. unfold due in Hk.
    destruct (obj_get m0 k); [| discriminate].
    destruct (obj_get p0 k) as [pc |] eqn:E; [| discriminate].
    now apply obj_get_Some_key with pc.
Qed.

(** What [commandUpdateChapterViews] does when both files are there, each
    with its [chapters] object, and can be written, and no pending key is a
    name that objects inherit (such as [toString]), which the lookup in
    [manga.chapters] would find without a record.  It runs to its end.
    Every chapter that has a record in manga.json and a pending counter [p]
    at the threshold gets [views] grown by [p] (locked or not; the rest of
    the record is kept; the sum is the sum of integers when the numbers and
    the sum are safe integers) and its pending entry reset to 0 with a
    fresh [lastUpdate], its other properties kept.  Every other record and
    every other pending entry, those of chapters unknown to manga.json
    included, is left as it is, and no key is added to or dropped from
    either object.  The two files are written only when some counter was
    moved. *)
Theorem commandUpdateChapterViews_moves_due_counters :
  forall (w : World) (h : Host) (d : Disk) (t : nat)
         (pendingData : PendingChapterViews) (mangaData : MangaJSON)
         (m0 : JSObject ChapterRecord) (p0 : JSObject PendingChapter),
    pending_chapter_views_json d = Holds pendingData ->
    manga_json d = Holds mangaData ->
    pcv_chapters pendingData = Some p0 ->
    chapters mangaData = Some m0 ->
    canWrite h MangaJson = true ->
    canWrite h PendingChapterViewsJson = true ->
    (forall k, In k (map fst p0) -> inheritedName k = false) ->
    exists d' t' m' p',
      V62Cmd.commandUpdateChapterViews w h d t = (Goes tt, d', t')
      /\ map fst m' = map fst m0
      /\ map fst p' = map fst p0
      /\ (forall k, due m0 p0 k = false ->
            obj_get m' k = obj_get m0 k /\ obj_get p' k = obj_get p0 k)
      /\ (forall k chapter pendingChapterData,
            obj_get m0 k = Some chapter ->
            obj_get p0 k = Some pendingChapterData ->
            1 <= orZero (pc_pendingViews pendingChapterData) ->
            obj_get m' k
              = Some (V62Cmd.withChapterViews chapter
                        (orZero (pc_pendingViews pendingChapterData)))
            /\ (forall v, ch_views chapter = JNum v ->
                  safeInteger v ->
                  safeInteger (orZero (pc_pendingViews pendingChapterData)) ->
                  safeInteger
                    (v + orZero (pc_pendingViews pendingChapterData)) ->
                  ch_views (V62Cmd.withChapterViews chapter
                              (orZero (pc_pendingViews pendingChapterData)))
                  = JNum (v + orZero (pc_pendingViews pendingChapterData)))
            /\ exists n,
                 obj_get p' k
                 = Some {| pc_pendingViews := Some 0;
                           pc_lastUpdate := Some (clock w n);
                           pc_rest := pc_rest pendingChapterData |})
      /\ ((exists k, due m0 p0 k = true) ->
          exists n,
            manga_json d'
            = Holds {| manga := manga mangaData;
                       chapters := Some m';
                       lastUpdated := Some (clock w n);
                       lastChapterUpdate := lastChapterUpdate mangaData |}
            /\ pending_chapter_views_json d'
               = Holds {| pcv_chapters := Some p';
                          pcv_lastUpdated := pcv_lastUpdated pendingData |})
      /\ ((forall k, due m0 p0 k = false) ->
          manga_json d' = manga_json d
          /\ pending_chapter_views_json d' = pending_chapter_views_json d)
      /\ daily_views_json d' = daily_views_json d.
Proof.
  intros w h d t pd md m0 p0 Hpcv Hm Hp0 Hm0 Wm Wp _.
  destruct (ensurePendingFilesExist_frame w h d t)
    as (d1 & t1 & He & Hle & Hm1 & Hd1 & _ & Hpcv1).
  rewrite Hpcv in Hpcv1. specialize (Hpcv1 eq_refl). rewrite Hm in Hm1.
  assert (Hkeys : forall k, In k (Object_keys p0) -> obj_get p0 k <> None).
  { intros k Hk Hnone. apply (proj1 (Object_keys_In p0 k)) in Hk.
    apply (proj1 (obj_get_None p0 k)) in Hnone. exact (Hnone Hk). }
  assert (Hinit : loopInvariant w m0 p0 []
            {| V62Cmd.st_mangaChapters := Some m0;
               V62Cmd.st_pendingChapters := p0;
               V62Cmd.st_hasChanges := false |}).
  { exists m0. repeat split; auto. intros k [] _. }
  destruct (updateChapter_loop w m0 p0 (Object_keys p0) Hkeys [] _ d1 t1 Hinit)
    as (st & t2 & Hloop & Hle2 & Hinv).
  simpl in Hinv.
  destruct Hinv as (m' & Sm & Km & Kp & Hc & Hupd & Hsame).
  assert (Hin : forall k, due m0 p0 k = true -> In k (Object_keys p0)).
  { intros k Hk. apply Object_keys_In. unfold due in Hk.
    destruct (obj_get m0 k); [| discriminate].
    destruct (obj_get p0 k) as [pc |] eqn:E; [| discriminate].
    now apply obj_get_Some_key with pc. }
  assert (Run : V62Cmd.commandUpdateChapterViews w h d t =
                if V62Cmd.st_hasChanges st then
                  (Goes tt,
                   set_pending_chapter_views_json
                     (set_manga_json d1
                        (Holds {| manga := manga md;
                                  chapters := Some m';
                                  lastUpdated := Some (clock w t2);
                                  lastChapterUpdate := lastChapterUpdate md |}))
                     (Holds {| pcv_chapters := Some (V62Cmd.st_pendingChapters st);
                               pcv_lastUpdated := pcv_lastUpdated pd |}),
                   S t2)
                else (Goes tt, d1, t2)).
  { unfold V62Cmd.commandUpdateChapterViews, cbind. rewrite He.
    unfold loadJSON. rewrite Hpcv1, Hm1, Hp0, Hm0, Hloop.
    destruct (V62Cmd.st_hasChanges st); [| reflexivity].
    unfold now, lift, getWIBTimestamp, saveJSON, cret.
    rewrite Wm, Wp, Sm. reflexivity. }
  exists (if V62Cmd.st_hasChanges st then
            set_pending_chapter_views_json
              (set_manga_json d1
                 (Holds {| manga := manga md;
                           chapters := Some m';
                           lastUpdated := Some (clock w t2);
                           lastChapterUpdate := lastChapterUpdate md |}))
              (Holds {| pcv_chapters := Some (V62Cmd.st_pendingChapters st);
                        pcv_lastUpdated := pcv_lastUpdated pd |})
          else d1),
    (if V62Cmd.st_hasChanges st then S t2 else t2), m',
    (V62Cmd.st_pendingChapters st).
  split; [rewrite Run; now destruct (V62Cmd.st_hasChanges st) |].
  split; [exact Km |]. split; [exact Kp |].
  split; [intros k Hk; apply Hsame; now right |].
  split.
  { intros k ch pc G0 P0 Hge.
    assert (Hd : due m0 p0 k = true).
    { unfold due. rewrite G0, P0. now apply Z.leb_le. }
    destruct (Hupd k (Hin k Hd) Hd) as (ch' & pc' & n & A & B & C & D).
    rewrite G0 in A. rewrite P0 in B. injection A as <-. injection B as <-.
    split; [exact C |]. split.
    - intros v Hv _ _ _. cbn [V62Cmd.withChapterViews ch_views].
      now rewrite Hv.
    - now exists n. }
  split.
  { intros Hex. apply existsb_due_keys in Hex. rewrite <- Hc in Hex.
    rewrite Hex. exists t2. split; reflexivity. }
  split.
  { intros Hnone.
    assert (Hf : V62Cmd.st_hasChanges st = false).
    { rewrite Hc. destruct (existsb (due m0 p0) (Object_keys p0)) eqn:E;
        [| reflexivity].
      apply existsb_due_keys in E. destruct E as [k Hk].
      rewrite Hnone in Hk. discriminate. }
    rewrite Hf. rewrite Hm1, Hpcv1, Hm, Hpcv. auto. }
  destruct (V62Cmd.st_hasChanges st); exact Hd1.
Qed.

(** Chapter 1 has ten views and two pending ones: its record gets twelve. *)
Lemma commandUpdateChapterViews_moves_due_counters_witness :
  exists d' t' m',
    V62Cmd.commandUpdateChapterViews (exampleWorld ["1"])
      (exampleHost allWritable)
      (exampleDisk (Some 3) (Holds examplePendingChapters)) 0%nat
    = (Goes tt, d', t')
    /\ obj_get m' "1"
       = Some (V62Cmd.withChapterViews (exampleRecord "1" false 10) 2)
    /\ ch_views (V62Cmd.withChapterViews (exampleRecord "1" false 10) 2)
       = JNum 12
    /\ exists n,
         manga_json d'
         = Holds {| manga := manga (exampleCatalog []);
                    chapters := Some m';
                    lastUpdated := Some (clock (exampleWorld ["1"]) n);
                    lastChapterUpdate :=
                      lastChapterUpdate (exampleCatalog []) |}.
Proof.
  destruct (commandUpdateChapterViews_moves_due_counters
              (exampleWorld ["1"]) (exampleHost allWritable)
              (exampleDisk (Some 3) (Holds examplePendingChapters)) 0%nat
              _ _ _ _ eq_refl eq_refl eq_refl eq_refl eq_refl eq_refl
              ltac:(intros k [<- | []]; reflexivity))
    as (d' & t' & m' & p' & Hrun & _ & _ & _ & Hdue & Hsave & _).
  exists d', t', m'.
  split; [exact Hrun |].
  destruct (Hdue "1" _ _ eq_refl eq_refl
              ltac:(cbn [orZero pc_pendingViews]; lia))
    as (Hget & Hviews & _).
  split; [exact Hget |].
  split; [apply (Hviews 10); [reflexivity | split; reflexivity ..] |].
  destruct (Hsave (ex_intro _ "1" eq_refl)) as (n & Hm & _).
  exists n. exact Hm.
Defined.

(** [commandUpdateChapterViews] ends on an uncaught exception, having
    written neither file, when pending-chapter-views.json has no [chapters]
    object, and also when manga.json has no [chapters] object while some
    pending entry exists.  With a file missing or unparsable it ends through
    [process.exit(1)].  (With no pending entry at all it runs to its end
    even if manga.json has no [chapters].) *)
Theorem commandUpdateChapterViews_dies_without_chapters :
  forall (w : World) (h : Host) (d : Disk) (t : nat)
         (mangaData : MangaJSON),
    manga_json d = Holds mangaData ->
    exists d' t',
      manga_json d' = manga_json d
      /\ (fileExists (pending_chapter_views_json d) = true ->
          pending_chapter_views_json d' = pending_chapter_views_json d)
      /\ (pending_chapter_views_json d = Unparsable ->
          V62Cmd.commandUpdateChapterViews w h d t = (Exits 1, d', t'))
      /\ (forall pendingData,
            pending_chapter_views_json d = Holds pendingData ->
            pcv_chapters pendingData = None ->
            V62Cmd.commandUpdateChapterViews w h d t = (Dies, d', t'))
      /\ (forall pendingData p0,
            pending_chapter_views_json d = Holds pendingData ->
            pcv_chapters pendingData = Some p0 ->
            chapters mangaData = None ->
            (p0 <> [] ->
             V62Cmd.commandUpdateChapterViews w h d t = (Dies, d', t'))
            /\ (p0 = [] ->
                V62Cmd.commandUpdateChapterViews w h d t = (Goes tt, d', t'))).
Proof.
  intros w h d t md Hm.
  destruct (ensurePendingFilesExist_frame w h d t)
    as (d1 & t1 & He & Hle & Hm1 & Hd1 & _ & Hpcv1).
  rewrite Hm in Hm1. exists d1, t1.
  split; [now rewrite Hm1, Hm |]. split; [exact Hpcv1 |].
  split; [| split].
  - intros Hu. rewrite Hu in Hpcv1. specialize (Hpcv1 eq_refl).
    unfold V62Cmd.commandUpdateChapterViews, cbind. rewrite He.
    unfold loadJSON. now rewrite Hpcv1.
  - intros pd Hpcv Hnone. rewrite Hpcv in Hpcv1. specialize (Hpcv1 eq_refl).
    unfold V62Cmd.commandUpdateChapterViews, cbind. rewrite He.
    unfold loadJSON. now rewrite Hpcv1, Hm1, Hnone.
  - intros pd p0 Hpcv Hp0 Hnone. rewrite Hpcv in Hpcv1.
    specialize (Hpcv1 eq_refl). split.
    + intros Hne.
      unfold V62Cmd.commandUpdateChapterViews, cbind. rewrite He.
      unfold loadJSON. rewrite Hpcv1, Hm1, Hp0, Hnone.
      destruct (Object_keys p0) as [| x rest] eqn:Ek.
      * exfalso. apply Hne.
        pose proof (Permutation_length
                      (Permutation_map fst (Object_entries_perm p0))) as L.
        unfold Object_keys in Ek. rewrite Ek in L. simpl in L.
        destruct p0; [reflexivity | discriminate L].
      * assert (Hx : In x (map fst p0)).
        { apply Object_keys_In. rewrite Ek. now left. }
        cbn [cforEach]. unfold cbind, V62Cmd.updateChapter.
        destruct (obj_get p0 x) as [pc |] eqn:Ex; cbn [V62Cmd.st_pendingChapters];
          rewrite Ex; reflexivity.
    + intros ->.
      unfold V62Cmd.commandUpdateChapterViews, cbind. rewrite He.
      unfold loadJSON. rewrite Hpcv1, Hm1, Hp0, Hnone. reflexivity.
Qed.

(** With an unparsable pending-chapter-views.json the command ends with exit
    code 1 and manga.json as it was. *)
Lemma commandUpdateChapterViews_dies_without_chapters_witness :
  exists d' t',
    V62Cmd.commandUpdateChapterViews (exampleWorld ["1"])
      (exampleHost allWritable) (exampleDisk (Some 3) Unparsable) 0%nat
    = (Exits 1, d', t')
    /\ manga_json d' = manga_json (exampleDisk (Some 3) Unparsable).
Proof.
  destruct (commandUpdateChapterViews_dies_without_chapters
              (exampleWorld ["1"]) (exampleHost allWritable)
              (exampleDisk (Some 3) Unparsable) 0%nat _ eq_refl)
    as (d' & t' & Hm & _ & Hexit & _).
  exists d', t'. split; [exact (Hexit eq_refl) | exact Hm].
Defined.

(** ** Dropping old daily records *)

Lemma obj_delete_filter {V : Type} (o : JSObject V) (k : string) :
  obj_delete o k = filter (fun kv => negb (fst kv =? k)%string) o.
Proof.
  induction o as [| [k0 v0] rest IH]; [reflexivity |]. simpl.
  destruct (k0 =? k)%string; simpl; now rewrite IH.
Qed.

Lemma filter_filter {A : Type} (f g : A -> bool) (l : list A) :
  filter f (filter g l) = filter (fun x => g x && f x) l.
Proof.
  induction l as [| x rest IH]; [reflexivity |]. simpl.
  destruct (g x); simpl; [destruct (f x) |]; now rewrite IH.
Qed.

Lemma removeOldRecords_fold (cutoffStr : string) (keys : list string) :
  forall (recs : JSObject DayRecord) (n : nat),
    fold_left
      (fun (acc : JSObject DayRecord * nat) dateKey =>
         if String.ltb dateKey cutoffStr
         then (obj_delete (fst acc) dateKey, S (snd acc))
         else acc)
      keys (recs, n)
    = (filter
         (fun kv =>
            negb (existsb
                    (fun k => String.ltb k cutoffStr && (fst kv =? k)%string)
                    keys))
         recs,
       (n + List.length (filter (fun k => String.ltb k cutoffStr) keys))%nat).
Proof.
  induction keys as [| x rest IH]; intros recs n.
  - simpl. f_equal; [| lia].
    induction recs as [| kv r IHr]; [reflexivity |]. simpl. now rewrite <- IHr.
  - cbn [fold_left]. destruct (String.ltb x cutoffStr) eqn:E.
    + cbn [fst snd]. rewrite IH, obj_delete_filter, filter_filter.
      f_equal.
      * apply filter_ext. intros kv. cbn [existsb]. rewrite E. simpl.
        now rewrite negb_orb.
      * cbn [filter]. rewrite E. simpl. lia.
    + rewrite IH. f_equal.
      * apply filter_ext. intros kv. cbn [existsb]. now rewrite E.
      * cbn [filter]. now rewrite E.
Qed.

Lemma removeOldRecords_spec (cutoffStr : string) (recs : JSObject DayRecord) :
  V62Cmd.removeOldRecords cutoffStr recs
  = (filter (keptDay cutoffStr) recs,
     List.length (filter (fun k => String.ltb k cutoffStr) (Object_keys recs))).
Proof.
  unfold V62Cmd.removeOldRecords. rewrite removeOldRecords_fold. f_equal.
  apply filter_ext_in. intros [k v] Hin. unfold keptDay. cbn [fst]. f_equal.
  destruct (String.ltb k cutoffStr) eqn:E.
  - apply existsb_exists. exists k. split.
    + apply Object_keys_In. change k with (fst (k, v)). now apply in_map.
    + now rewrite E, String.eqb_refl.
  - destruct (existsb _ (Object_keys recs)) eqn:X; [| reflexivity].
    apply existsb_exists in X. destruct X as (k' & _ & Hk').
    apply andb_prop in Hk'. destruct Hk' as [L Q].
    apply String.eqb_eq in Q. subst k'. congruence.
Qed.

Lemma obj_get_filter_key {V : Type} (f : string -> bool) (o : JSObject V)
  (k : string) :
  obj_get (filter (fun kv => f (fst kv)) o) k
  = if f k then obj_get o k else None.
Proof.
  induction o as [| [k0 v0] rest IH]; simpl; [now destruct (f k) |].
  destruct (f k0) eqn:F0; simpl.
  - destruct (String.eqb_spec k0 k) as [E | Hne]; [| exact IH].
    subst k0. now rewrite F0.
  - destruct (String.eqb_spec k0 k) as [E | Hne]; [| exact IH].
    subst k0. rewrite F0 in IH. now rewrite F0.
Qed.

Lemma old_keys_count (cutoffStr : string) (recs : JSObject DayRecord) :
  (0 <? List.length
          (filter (fun k => String.ltb k cutoffStr) (Object_keys recs)))%nat
  = existsb (fun kv => String.ltb (fst kv) cutoffStr) recs.
Proof.
  destruct (existsb (fun kv => String.ltb (fst kv) cutoffStr) recs) eqn:E.
  - apply existsb_exists in E. destruct E as ([k v] & Hin & Hlt).
    apply Nat.ltb_lt.
    assert (Hk : In k (filter (fun k => String.ltb k cutoffStr)
                         (Object_keys recs))).
    { apply filter_In. split; [| exact Hlt].
      apply Object_keys_In. change k with (fst (k, v)). now apply in_map. }
    destruct (filter _ (Object_keys recs)); [inversion Hk |].
    cbn [List.length]. lia.
  - apply Nat.ltb_ge.
    destruct (filter _ (Object_keys recs)) as [| k rest] eqn:F; [simpl; lia |].
    exfalso. assert (Hk : In k (k :: rest)) by now left.
    rewrite <- F in Hk. apply filter_In in Hk. destruct Hk as [Hk Hlt].
    apply (proj1 (Object_keys_In recs k)) in Hk. apply in_map_iff in Hk.
    destruct Hk as ([k' v] & <- & Hin).
    assert (X : existsb (fun kv => String.ltb (fst kv) cutoffStr) recs = true).
    { apply existsb_exists. exists (k', v). split; [exact Hin | exact Hlt]. }
    congruence.
Qed.

(** What [commandCleanupDaily] does to a readable daily-views.json.  It runs
    to its end and touches no other file.  When some date key is below the
    cutoff (as strings), it writes the file with exactly the records whose
    key is not below the cutoff, each unchanged and in the same order, and a
    fresh [lastCleanup]; when none is, or the file cannot be written, the
    file stays as it is.  Running the command again on the result changes
    nothing. *)
Theorem commandCleanupDaily_keeps_recent_records :
  forall (w : World) (h : Host) (d : Disk) (t : nat)
         (dailyViews : DailyViews) (dailyRecords : JSObject DayRecord),
    daily_views_json d = Holds dailyViews ->
    dv_dailyRecords dailyViews = Some dailyRecords ->
    exists d' t',
      V62Cmd.commandCleanupDaily w h d t = (Goes tt, d', t')
      /\ manga_json d' = manga_json d
      /\ pending_views_json d' = pending_views_json d
      /\ pending_chapter_views_json d' = pending_chapter_views_json d
      /\ (forall k,
            obj_get (filter (keptDay (cutoffWIB h)) dailyRecords) k
            = if String.ltb k (cutoffWIB h) then None
              else obj_get dailyRecords k)
      /\ (existsb (fun kv => String.ltb (fst kv) (cutoffWIB h)) dailyRecords
          = true ->
          canWrite h DailyViewsJson = true ->
          daily_views_json d'
          = Holds {| dv_lastCleanup := Some (clock w t);
                     dv_dailyRecords :=
                       Some (filter (keptDay (cutoffWIB h)) dailyRecords) |})
      /\ (existsb (fun kv => String.ltb (fst kv) (cutoffWIB h)) dailyRecords
          = false
          \/ canWrite h DailyViewsJson = false ->
          daily_views_json d' = daily_views_json d)
      /\ (canWrite h DailyViewsJson = true ->
          exists t'',
            V62Cmd.commandCleanupDaily w h d' t' = (Goes tt, d', t'')).
Proof.
  intros w h d t dv recs Hd Hr.
  assert (Run : forall d0 t0 dv0 recs0,
            daily_views_json d0 = Holds dv0 ->
            dv_dailyRecords dv0 = Some recs0 ->
            V62Cmd.commandCleanupDaily w h d0 t0 =
            if existsb (fun kv => String.ltb (fst kv) (cutoffWIB h)) recs0 then
              if canWrite h DailyViewsJson then
                (Goes tt,
                 set_daily_views_json d0
                   (Holds {| dv_lastCleanup := Some (clock w t0);
                             dv_dailyRecords :=
                               Some (filter (keptDay (cutoffWIB h)) recs0) |}),
                 S t0)
              else (Goes tt, d0, S t0)
            else (Goes tt, d0, t0)).
  { intros d0 t0 dv0 recs0 Hd0 Hr0.
    unfold V62Cmd.commandCleanupDaily, V62Cmd.ensureDailyViewsFile, cbind,
      readDisk, loadJSON, cret.
    cbv beta iota. rewrite Hd0. cbn [fileExists negb]. cbv beta iota.
    rewrite Hd0, Hr0. rewrite removeOldRecords_spec, old_keys_count.
    destruct (existsb _ recs0); [| reflexivity].
    unfold now, lift, getWIBTimestamp, saveJSON.
    destruct (canWrite h DailyViewsJson); reflexivity. }
  assert (Kept : forall k,
            obj_get (filter (keptDay (cutoffWIB h)) recs) k
            = if String.ltb k (cutoffWIB h) then None else obj_get recs k).
  { intros k. unfold keptDay.
    rewrite (obj_get_filter_key (fun k => negb (String.ltb k (cutoffWIB h)))).
    now destruct (String.ltb k (cutoffWIB h)). }
  rewrite (Run d t dv recs Hd Hr).
  destruct (existsb (fun kv => String.ltb (fst kv) (cutoffWIB h)) recs) eqn:E.
  - destruct (canWrite h DailyViewsJson) eqn:W.
    + do 2 eexists. split; [reflexivity |].
      repeat split; auto; try discriminate.
      * intros [X | X]; discriminate.
      * intros _. eexists.
        erewrite (Run _ _ _ (filter (keptDay (cutoffWIB h)) recs));
          [| reflexivity | reflexivity].
        assert (N : existsb (fun kv => String.ltb (fst kv) (cutoffWIB h))
                      (filter (keptDay (cutoffWIB h)) recs) = false).
        { destruct (existsb _ (filter _ recs)) eqn:X; [| reflexivity].
          apply existsb_exists in X. destruct X as (kv & Hin & Hlt).
          apply filter_In in Hin. destruct Hin as [_ Hk].
          unfold keptDay in Hk. rewrite Hlt in Hk. discriminate. }
        rewrite N. reflexivity.
    + do 2 eexists. split; [reflexivity |].
      repeat split; auto; discriminate.
  - do 2 eexists. split; [reflexivity |].
    repeat split; auto; try discriminate.
    intros _. eexists. rewrite (Run d t dv recs Hd Hr), E. reflexivity.
Qed.

(** With the cutoff at 25 May 2025 the record of 20 May goes and the record
    of 30 May stays. *)
Lemma commandCleanupDaily_keeps_recent_records_witness :
  exists d' t',
    V62Cmd.commandCleanupDaily (exampleWorld ["1"]) (exampleHost allWritable)
      (exampleDisk (Some 3) (Holds examplePendingChapters)) 0%nat
    = (Goes tt, d', t')
    /\ daily_views_json d'
       = Holds {| dv_lastCleanup := Some (clock (exampleWorld ["1"]) 0%nat);
                  dv_dailyRecords :=
                    Some [("2025-05-30",
                           {| day_manga := 1;
                              day_chapters := [("1", 1)] |})] |}.
Proof.
  destruct (commandCleanupDaily_keeps_recent_records
              (exampleWorld ["1"]) (exampleHost allWritable)
              (exampleDisk (Some 3) (Holds examplePendingChapters)) 0%nat
              _ _ eq_refl eq_refl)
    as (d' & t' & Hrun & _ & _ & _ & _ & Hsave & _).
  exists d', t'. split; [exact Hrun |].
  exact (Hsave eq_refl eq_refl).
Defined.

(** ** Removing the pending files in v7.0 *)

(** [commandCleanup] of v7.0 always runs to its end and reads no clock.  It
    never touches manga.json or daily-views.json.  A pending file is gone
    afterwards when it could be unlinked, and is as it was otherwise; the
    number the command reports counts the files that were there and were
    unlinked. *)
Theorem commandCleanup_removes_only_pending_files :
  forall (h : Host) (d : Disk) (t : nat),
  exists removed d',
    V70Cmd.commandCleanup h d t = (Goes removed, d', t)
    /\ manga_json d' = manga_json d
    /\ daily_views_json d' = daily_views_json d
    /\ pending_views_json d'
       = (if canUnlink h PendingViewsJson then Absent
          else pending_views_json d)
    /\ pending_chapter_views_json d'
       = (if canUnlink h PendingChapterViewsJson then Absent
          else pending_chapter_views_json d)
    /\ removed
       = ((if fileExists (pending_views_json d)
              && canUnlink h PendingViewsJson then 1 else 0)
          + (if fileExists (pending_chapter_views_json d)
                && canUnlink h PendingChapterViewsJson then 1 else 0))%nat.
Proof.
  intros h d t.
  unfold V70Cmd.commandCleanup, V70Cmd.unlinkSync, cbind, readDisk, cret.
  destruct d as [mj pv pcv dv]. cbn [pending_views_json].
  destruct pv as [| |pvd], pcv as [| |pcvd];
    cbn [fileExists];
    destruct (canUnlink h PendingViewsJson);
    destruct (canUnlink h PendingChapterViewsJson);
    cbn [fileExists set_pending_views_json set_pending_chapter_views_json
         pending_views_json pending_chapter_views_json manga_json
         daily_views_json];
    do 2 eexists; (split; [reflexivity |]);
    cbn [fileExists set_pending_views_json set_pending_chapter_views_json
         pending_views_json pending_chapter_views_json manga_json
         daily_views_json andb Nat.add];
    repeat split.
Qed.

(** ** Recording the pending views of the day *)





(** ** Generating manga.json on the files *)



Lemma js_or_number (n : Z) : js_or (JNum n) (JNum 0) = JNum n.
Proof.
  unfold js_or. simpl. destruct (Z.eqb_spec n 0) as [-> |]; reflexivity.
Qed.

(** The views [commandUpdateViews] has moved into manga.json survive the
    next [commandGenerate] of v6.2: after the two commands in a row, both
    run to their end, manga.json holds a regenerated document whose work
    [views] is the old count plus the pending views, and the pending counter
    is 0.  manga-config.json holds a configuration with a [lockedChapters]
    array, and the two numbers and their sum are safe integers. *)
Theorem moved_views_survive_generate :
  forall (w : World) (h : Host) (d : Disk) (t : nat)
         (pendingData : PendingViews) (mangaData : MangaJSON)
         (info : MangaInfo) (v : Z) (config : Config),
    pending_views_json d = Holds pendingData ->
    manga_json d = Holds mangaData ->
    manga mangaData = Some info ->
    m_views info = JNum v ->
    1 <= orZero (pv_pendingViews pendingData) ->
    canWrite h MangaJson = true ->
    canWrite h PendingViewsJson = true ->
    configFile h = ConfigHolds config ->
    safeInteger v ->
    safeInteger (orZero (pv_pendingViews pendingData)) ->
    safeInteger (v + orZero (pv_pendingViews pendingData)) ->
    exists d1 t1 d2 t2 doc info' pendingData',
      V62Cmd.commandUpdateViews w h d t = (Goes tt, d1, t1)
      /\ V62Cmd.commandGenerate w h d1 t1 = (Goes tt, d2, t2)
      /\ manga_json d2 = Holds doc
      /\ manga doc = Some info'
      /\ m_views info' = JNum (v + orZero (pv_pendingViews pendingData))
      /\ pending_views_json d2 = Holds pendingData'
      /\ pv_pendingViews pendingData' = Some 0.
Proof.
  intros w h d t pd md info v config Hpv Hm Hinfo Hv Hp Wm Wp C _ _ _.
  destruct (ensurePendingFilesExist_frame w h d t)
    as (d1 & t1 & He & Hle & Hm1 & Hd1 & Hpv1 & _).
  rewrite Hpv in Hpv1. specialize (Hpv1 eq_refl). rewrite Hm in Hm1.
  set (md' := V62Cmd.withMangaViews md info (orZero (pv_pendingViews pd))).
  set (pd' := {| pv_pendingViews := Some 0;
                 pv_lastIncrement := pv_lastIncrement pd;
                 pv_lastUpdate := Some (clock w t1) |}).
  set (da := set_pending_views_json (set_manga_json d1 (Holds md'))
               (Holds pd')).
  destruct (ensurePendingFilesExist_frame w h da (S t1))
    as (d2 & t2 & He2 & Hle2 & Hm2 & Hd2 & Hpv2 & _).
  specialize (Hpv2 eq_refl).
  change (pending_views_json da) with (Holds pd') in Hpv2.
  change (manga_json da) with (Holds md') in Hm2.
  destruct (V62_commandGenerate_returns w config (Some md') t2)
    as (chs & last & t3 & Hrun).
  exists da, (S t1).
  do 5 eexists.
  split.
  { unfold V62Cmd.commandUpdateViews, cbind. rewrite He.
    unfold loadJSON. rewrite Hpv1, Hm1.
    destruct (Z.ltb_spec (orZero (pv_pendingViews pd)) 1) as [Hlt |]; [lia |].
    rewrite Hinfo. unfold saveJSON, now, lift, getWIBTimestamp, cret.
    rewrite Wm, Wp. reflexivity. }
  split.
  { unfold V62Cmd.commandGenerate. unfold cbind at 1. rewrite He2.
    unfold loadConfig. rewrite C.
    unfold cbind, cret, loadJSON, lift, saveJSON. rewrite Hm2, Hrun, Wm.
    reflexivity. }
  split; [reflexivity |].
  split; [reflexivity |].
  split.
  { cbn [m_views mangaInfoOf manga md' V62Cmd.withMangaViews]. unfold md'.
    cbn [manga V62Cmd.withMangaViews m_views]. rewrite Hv. cbn [addViews].
    apply js_or_number. }
  split; [exact Hpv2 | reflexivity].
Qed.

(** Seven work views and three pending ones: the regenerated manga.json has
    ten. *)
Lemma moved_views_survive_generate_witness :
  exists d1 t1 d2 t2 doc info,
    V62Cmd.commandUpdateViews (exampleWorld ["1"]) (exampleHost allWritable)
      (exampleDisk (Some 3) (Holds examplePendingChapters)) 0%nat
    = (Goes tt, d1, t1)
    /\ V62Cmd.commandGenerate (exampleWorld ["1"]) (exampleHost allWritable)
         d1 t1
       = (Goes tt, d2, t2)
    /\ manga_json d2 = Holds doc
    /\ manga doc = Some info
    /\ m_views info = JNum 10.
Proof.
  destruct (moved_views_survive_generate
              (exampleWorld ["1"]) (exampleHost allWritable)
              (exampleDisk (Some 3) (Holds examplePendingChapters)) 0%nat
              _ _ _ 7 _ eq_refl eq_refl eq_refl eq_refl
              ltac:(cbn [orZero pv_pendingViews]; lia)
              eq_refl eq_refl eq_refl
              ltac:(split; reflexivity) ltac:(split; reflexivity)
              ltac:(split; reflexivity))
    as (d1 & t1 & d2 & t2 & doc & info & pd & R1 & R2 & Hm & Hi & Hv & _).
  exists d1, t1, d2, t2, doc, info.
  split; [exact R1 |]. split; [exact R2 |]. split; [exact Hm |].
  split; [exact Hi | exact Hv].
Defined.

(** ** The daily commands on a file they cannot use *)

(** [commandCleanupDaily] creates a missing daily-views.json with no
    records and then finds nothing to remove.  It dies of an uncaught
    exception, leaving the disk as it is, when the file cannot be parsed,
    when it has no [dailyRecords], and when it is missing and cannot be
    created. *)
Theorem commandCleanupDaily_without_records :
  forall (w : World) (h : Host) (d : Disk) (t : nat),
    (daily_views_json d = Absent ->
     canWrite h DailyViewsJson = true ->
     V62Cmd.commandCleanupDaily w h d t
     = (Goes tt,
        set_daily_views_json d
          (Holds {| dv_lastCleanup := Some (clock w t);
                    dv_dailyRecords := Some [] |}),
        S t))
    /\ (daily_views_json d = Absent ->
        canWrite h DailyViewsJson = false ->
        V62Cmd.commandCleanupDaily w h d t = (Dies, d, S t))
    /\ (daily_views_json d = Unparsable ->
        V62Cmd.commandCleanupDaily w h d t = (Dies, d, t))
    /\ (forall dailyViews,
          daily_views_json d = Holds dailyViews ->
          dv_dailyRecords dailyViews = None ->
          V62Cmd.commandCleanupDaily w h d t = (Dies, d, t)).
Proof.
  intros w h d t.
  unfold V62Cmd.commandCleanupDaily, V62Cmd.ensureDailyViewsFile, cbind,
    readDisk, loadJSON, cret, now, lift, getWIBTimestamp, saveJSON, die.
  split; [| split; [| split]].
  - intros Hd W. rewrite Hd. cbn [fileExists negb]. rewrite W. reflexivity.
  - intros Hd W. rewrite Hd. cbn [fileExists negb]. rewrite W, Hd. reflexivity.
  - intros Hd. rewrite Hd. cbn [fileExists negb]. rewrite Hd. reflexivity.
  - intros dv Hd Hr. rewrite Hd. cbn [fileExists negb]. rewrite Hd, Hr.
    reflexivity.
Qed.

(** [commandRecordDaily] ends with exit code 1 when one of its three files is
    there but cannot be parsed.  It has then written nothing into a
    daily-views.json that was there, and nothing into manga.json. *)
Theorem commandRecordDaily_exits_on_unparsable_file :
  forall (w : World) (h : Host) (d : Disk) (t : nat),
    daily_views_json d = Unparsable
    \/ pending_views_json d = Unparsable
    \/ pending_chapter_views_json d = Unparsable ->
    exists d' t',
      V62Cmd.commandRecordDaily w h d t = (Exits 1, d', t')
      /\ manga_json d' = manga_json d
      /\ (fileExists (daily_views_json d) = true ->
          daily_views_json d' = daily_views_json d)
      /\ (fileExists (pending_views_json d) = true ->
          pending_views_json d' = pending_views_json d)
      /\ (fileExists (pending_chapter_views_json d) = true ->
          pending_chapter_views_json d' = pending_chapter_views_json d).
Proof.
  intros w h d t H.
  assert (E : exists d0 t0,
             V62Cmd.ensureDailyViewsFile w h d t = (Goes tt, d0, t0)
             /\ manga_json d0 = manga_json d
             /\ pending_views_json d0 = pending_views_json d
             /\ pending_chapter_views_json d0 = pending_chapter_views_json d
             /\ (fileExists (daily_views_json d) = true ->
                 daily_views_json d0 = daily_views_json d)).
  { unfold V62Cmd.ensureDailyViewsFile, cbind, readDisk, cret, now, lift,
      getWIBTimestamp, saveJSON.
    destruct (daily_views_json d) eqn:Hd; cbn [fileExists negb];
      destruct (canWrite h DailyViewsJson);
      do 2 eexists; (split; [reflexivity |]);
      repeat split; auto; discriminate. }
  destruct E as (d0 & t0 & He0 & Hm0 & Hpv0 & Hpcv0 & Hd0).
  destruct (ensurePendingFilesExist_frame w h d0 t0)
    as (d1 & t1 & He & Hle & Hm1 & Hd1 & Hpv1 & Hpcv1).
  rewrite Hpv0 in Hpv1. rewrite Hpcv0 in Hpcv1.
  exists d1, t1.
  split.
  { unfold V62Cmd.commandRecordDaily. unfold cbind at 1. rewrite He0.
    unfold cbind at 1. rewrite He. unfold cbind, loadJSON.
    destruct H as [H | [H | H]].
    - rewrite Hd1, Hd0 by (rewrite H; reflexivity). rewrite H. reflexivity.
    - rewrite Hpv1 by (rewrite H; reflexivity). rewrite H.
      destruct (daily_views_json d1); reflexivity.
    - rewrite Hpcv1 by (rewrite H; reflexivity). rewrite H.
      destruct (daily_views_json d1); [reflexivity | reflexivity |].
      destruct (pending_views_json d1); reflexivity. }
  split; [congruence |].
  split; [intros X; rewrite Hd1; auto |].
  split; intros X; [rewrite Hpv1 | rewrite Hpcv1]; auto; congruence.
Qed.

(** With an unparsable pending-chapter-views.json nothing is recorded. *)
Lemma commandRecordDaily_exits_on_unparsable_file_witness :
  exists d' t',
    V62Cmd.commandRecordDaily (exampleWorld ["1"]) (exampleHost allWritable)
      (exampleDisk (Some 3) Unparsable) 0%nat
    = (Exits 1, d', t')
    /\ daily_views_json d'
       = daily_views_json (exampleDisk (Some 3) Unparsable).
Proof.
  destruct (commandRecordDaily_exits_on_unparsable_file
              (exampleWorld ["1"]) (exampleHost allWritable)
              (exampleDisk (Some 3) Unparsable) 0%nat
              (or_intror (or_intror eq_refl)))
    as (d' & t' & Hrun & _ & Hd & _).
  exists d', t'. split; [exact Hrun | exact (Hd eq_refl)].
Defined.
